(** * azubiheft: the scraping client and its session registry

    A shallow embedding of [internal/azubiheft] (the [Session] client) and of
    [internal/server] (the [AzubiheftService] registry), with the library
    behaviour the two rely on: [strings], [strconv], [net/url], [time],
    [goquery] over [html.Node] trees, and the redirect loop of [net/http].

    Go strings are byte strings; they are [string] here, one [ascii] per
    byte.  Go's [int] is 64 bits wide and is a [Z] with its range checked
    where the program can leave it ([strconv.Atoi]). *)

From Stdlib Require Import ZArith QArith String Ascii List Lia Bool.
From stdpp Require Import base option list strings gmap.

Import ListNotations.
Local Open Scope string_scope.
Local Open Scope list_scope.
Local Open Scope Z_scope.

(** ** strings *)

Module strings.

Definition bytes (s : string) : list ascii := list_ascii_of_string s.
Definition of_bytes (l : list ascii) : string := string_of_list_ascii l.

Definition HasPrefix (s prefix : string) : bool := String.prefix prefix s.

Fixpoint drop (n : nat) (s : string) : string :=
  match n, s with
  | O, _ => s
  | S n', String _ s' => drop n' s'
  | S _, EmptyString => EmptyString
  end.

Definition TrimPrefix (s prefix : string) : string :=
  if HasPrefix s prefix then drop (String.length prefix) s else s.

(** [strings.Contains(s, substr)]. *)
Fixpoint Contains (s substr : string) : bool :=
  HasPrefix s substr ||
  match s with
  | EmptyString => false
  | String _ s' => Contains s' substr
  end.

(** [strings.Split(s, sep)] for a separator of one byte, the only kind the
    program uses: the pieces between the separators, so [n] separators
    give [n + 1] pieces and the empty string gives one empty piece. *)
Fixpoint Split (s : string) (sep : ascii) : list string :=
  match s with
  | EmptyString => [EmptyString]
  | String c s' =>
      if Ascii.eqb c sep then EmptyString :: Split s' sep
      else match Split s' sep with
           | piece :: rest => String c piece :: rest
           | [] => [String c EmptyString]
           end
  end.

(** [strings.Join(elems, sep)]. *)
Fixpoint Join (elems : list string) (sep : string) : string :=
  match elems with
  | [] => EmptyString
  | [e] => e
  | e :: rest => e +:+ sep +:+ Join rest sep
  end.

(** [strings.ReplaceAll(s, old, new)] for a non-empty [old]: the
    occurrences of [old] are replaced from left to right and do not
    overlap.  [skip] counts the bytes of an occurrence still to pass. *)
Fixpoint replaceFrom (skip : nat) (s old new : string) : string :=
  match s with
  | EmptyString => EmptyString
  | String c s' =>
      match skip with
      | S k => replaceFrom k s' old new
      | O =>
          if HasPrefix s old
          then new +:+ replaceFrom (String.length old - 1) s' old new
          else String c (replaceFrom O s' old new)
      end
  end.

Definition ReplaceAll (s old new : string) : string := replaceFrom O s old new.

(** The UTF-8 encodings of the runes [unicode.IsSpace] accepts: the six
    ASCII ones, U+0085, U+00A0, U+1680, U+2000 to U+200A, U+2028, U+2029,
    U+202F, U+205F and U+3000. *)
Definition b (n : nat) : ascii := ascii_of_nat n.

Definition spaceRunes : list (list ascii) :=
  [ [b 9]; [b 10]; [b 11]; [b 12]; [b 13]; [b 32];
    [b 194; b 133]; [b 194; b 160];
    [b 225; b 154; b 128];
    [b 226; b 128; b 128]; [b 226; b 128; b 129]; [b 226; b 128; b 130];
    [b 226; b 128; b 131]; [b 226; b 128; b 132]; [b 226; b 128; b 133];
    [b 226; b 128; b 134]; [b 226; b 128; b 135]; [b 226; b 128; b 136];
    [b 226; b 128; b 137]; [b 226; b 128; b 138];
    [b 226; b 128; b 168]; [b 226; b 128; b 169]; [b 226; b 128; b 175];
    [b 226; b 129; b 159];
    [b 227; b 128; b 128] ].

Fixpoint stripPrefix (p l : list ascii) : option (list ascii) :=
  match p, l with
  | [], _ => Some l
  | x :: p', y :: l' => if Ascii.eqb x y then stripPrefix p' l' else None
  | _ :: _, [] => None
  end.

Fixpoint stripRune (runes : list (list ascii)) (l : list ascii) : option (list ascii) :=
  match runes with
  | [] => None
  | r :: rs =>
      match stripPrefix r l with
      | Some rest => Some rest
      | None => stripRune rs l
      end
  end.

Fixpoint trimLeft (fuel : nat) (runes : list (list ascii)) (l : list ascii) : list ascii :=
  match fuel with
  | O => l
  | S fuel' =>
      match stripRune runes l with
      | Some rest => trimLeft fuel' runes rest
      | None => l
      end
  end.

(** [strings.TrimSpace(s)]: the white space runes at both ends go. *)
Definition TrimSpace (s : string) : string :=
  let l := trimLeft (String.length s) spaceRunes (bytes s) in
  let r := trimLeft (List.length l) (List.map (@List.rev ascii) spaceRunes) (List.rev l) in
  of_bytes (List.rev r).

End strings.

(** ** strconv *)

Module strconv.

Definition isDigit (c : ascii) : bool :=
  let n := nat_of_ascii c in (48 <=? n)%nat && (n <=? 57)%nat.

Definition digitVal (c : ascii) : Z := Z.of_nat (nat_of_ascii c) - 48.

Fixpoint digits (acc : Z) (s : string) : option Z :=
  match s with
  | EmptyString => Some acc
  | String c s' => if isDigit c then digits (10 * acc + digitVal c) s' else None
  end.

Definition minInt : Z := - 2 ^ 63.
Definition maxInt : Z := 2 ^ 63 - 1.

(** [strconv.Atoi(s)]: an optional sign, then one decimal digit or more;
    [None] stands for the [*NumError] of a syntax or range failure. *)
Definition Atoi (s : string) : option Z :=
  let '(neg, body) :=
    match s with
    | String c rest =>
        if Ascii.eqb c "-" then (true, rest)
        else if Ascii.eqb c "+" then (false, rest)
        else (false, s)
    | EmptyString => (false, s)
    end in
  match body with
  | EmptyString => None
  | _ =>
      match digits 0 body with
      | Some n =>
          let v := if neg then - n else n in
          if (minInt <=? v) && (v <=? maxInt) then Some v else None
      | None => None
      end
  end.

Definition digitChar (d : Z) : ascii := ascii_of_nat (Z.to_nat (48 + d)).

Fixpoint utoa (fuel : nat) (n : Z) (acc : string) : string :=
  match fuel with
  | O => acc
  | S fuel' =>
      let acc' := String (digitChar (n mod 10)) acc in
      if n <? 10 then acc' else utoa fuel' (n / 10) acc'
  end.

(** [strconv.Itoa(i)], and the verb [%d] of [fmt]. *)
Definition Itoa (i : Z) : string :=
  if i <? 0 then String "-" (utoa (Z.to_nat (Z.log2 (- i)) + 1) (- i) "")
  else utoa (Z.to_nat (Z.log2 i) + 1) i "".

End strconv.

(** ** net/url *)

Module url.

Definition isAlnum (c : ascii) : bool :=
  let n := nat_of_ascii c in
  ((97 <=? n) && (n <=? 122) || (65 <=? n) && (n <=? 90) || (48 <=? n) && (n <=? 57))%nat.

(** [shouldEscape(c, encodeQueryComponent)]: letters, digits and the four
    marks stay, every other byte is escaped. *)
Definition shouldEscape (c : ascii) : bool :=
  if isAlnum c then false
  else match c with
       | "-" | "_" | "." | "~" => false
       | _ => true
       end%char.

Definition upperhex (n : N) : ascii :=
  match n with
  | 0 => "0" | 1 => "1" | 2 => "2" | 3 => "3" | 4 => "4" | 5 => "5"
  | 6 => "6" | 7 => "7" | 8 => "8" | 9 => "9" | 10 => "A" | 11 => "B"
  | 12 => "C" | 13 => "D" | 14 => "E" | _ => "F"
  end%N%char.

(** One byte as [escape(s, encodeQueryComponent)] writes it. *)
Definition escapeByte (c : ascii) : string :=
  if Ascii.eqb c " " then "+"
  else if shouldEscape c then
    String "%" (String (upperhex (N.shiftr (N_of_ascii c) 4))
               (String (upperhex (N.land (N_of_ascii c) 15)) ""))
  else String c "".

(** [url.QueryEscape(s)]. *)
Fixpoint QueryEscape (s : string) : string :=
  match s with
  | EmptyString => EmptyString
  | String c s' => escapeByte c +:+ QueryEscape s'
  end.

(** [url.Values] holds one value for each key throughout the program and
    is the list of its (key, value) pairs. *)
Definition Values := list (string * string).

Fixpoint insertByKey (kv : string * string) (l : Values) : Values :=
  match l with
  | [] => [kv]
  | kv' :: l' =>
      if String.leb (fst kv) (fst kv') then kv :: l else kv' :: insertByKey kv l'
  end.

Definition sortByKey (v : Values) : Values := fold_right insertByKey [] v.

Definition Get (v : Values) (key : string) : string :=
  match List.find (fun kv => String.eqb (fst kv) key) v with
  | Some kv => snd kv
  | None => ""
  end.

(** [v.Set(key, value)]. *)
Fixpoint Set_ (v : Values) (key value : string) : Values :=
  match v with
  | [] => [(key, value)]
  | kv :: v' =>
      if String.eqb (fst kv) key then (key, value) :: v' else kv :: Set_ v' key value
  end.

(** [v.Encode()]: [key=value] pairs in the order of the keys, joined by
    [&], both sides query-escaped. *)
Definition Encode (v : Values) : string :=
  strings.Join
    (List.map (fun kv => QueryEscape (fst kv) +:+ "=" +:+ QueryEscape (snd kv)) (sortByKey v))
    "&".

End url.

(** ** time *)

Module time.

(** A [time.Time] enters the program through its calendar date only
    ([ISOWeek] and [Format("20060102")]); the record holds that date, in
    the location of the value. *)
Record Time := Date { Year : Z; Month : Z; Day : Z }.

Definition isLeap (year : Z) : bool :=
  (year mod 4 =? 0) && (negb (year mod 100 =? 0) || (year mod 400 =? 0)).

Definition daysBefore (month : Z) : Z :=
  match month with
  | 1 => 0 | 2 => 31 | 3 => 59 | 4 => 90 | 5 => 120 | 6 => 151 | 7 => 181
  | 8 => 212 | 9 => 243 | 10 => 273 | 11 => 304 | 12 => 334 | _ => 365
  end.

Definition daysIn (month year : Z) : Z :=
  if (month =? 2) && isLeap year then 29
  else daysBefore (month + 1) - daysBefore month.

Definition daysInYear (year : Z) : Z := if isLeap year then 366 else 365.

(** The day of the year, counted from 0. *)
Definition yday (t : Time) : Z :=
  daysBefore (Month t) + (if isLeap (Year t) && (2 <? Month t) then 1 else 0) + Day t - 1.

(** Days from 1 January of year 1, a Monday, to the date. *)
Definition daysSinceYear1 (t : Time) : Z :=
  let y := Year t - 1 in
  365 * y + y / 4 - y / 100 + y / 400 + yday t.

(** [t.Weekday()], Sunday = 0. *)
Definition Weekday (t : Time) : Z := (daysSinceYear1 t + 1) mod 7.

(** [t.ISOWeek()]: move to the Thursday of the date's week (weeks begin
    on Monday); the ISO year is that Thursday's year and the week number
    is its day of the year over seven, plus one. *)
Definition ISOWeek (t : Time) : Z * Z :=
  let d := 4 - Weekday t in
  let d := if d =? 4 then -3 else d in
  let yd := yday t + d in
  let '(year, yd) :=
    if yd <? 0 then (Year t - 1, yd + daysInYear (Year t - 1))
    else if daysInYear (Year t) <=? yd then (Year t + 1, yd - daysInYear (Year t))
    else (Year t, yd) in
  (year, yd / 7 + 1).

Fixpoint zeros (n : nat) : string :=
  match n with O => "" | S n' => String "0" (zeros n') end.

(** [appendInt(b, x, width)]: the decimal digits of [x], padded with
    zeros to [width], after the sign of a negative [x]. *)
Definition appendInt (x : Z) (width : nat) : string :=
  let u := strconv.Itoa (Z.abs x) in
  (if x <? 0 then "-" else "") +:+ zeros (width - String.length u) +:+ u.

(** [t.Format("20060102")]. *)
Definition Format20060102 (t : Time) : string :=
  appendInt (Year t) 4 +:+ appendInt (Month t) 2 +:+ appendInt (Day t) 2.

Definition num (l : list ascii) : option Z :=
  if forallb strconv.isDigit l then strconv.digits 0 (strings.of_bytes l) else None.

(** [time.Parse("2006-01-02", value)]: four digits, two digits and two
    digits between hyphens, nothing after them, a month from 1 to 12 and
    a day that the month has.  [None] stands for the [*ParseError]. *)
Definition Parse_2006_01_02 (value : string) : option Time :=
  match strings.bytes value with
  | [y1; y2; y3; y4; "-"; m1; m2; "-"; d1; d2]%char =>
      match num [y1; y2; y3; y4], num [m1; m2], num [d1; d2] with
      | Some year, Some month, Some day =>
          if (month <=? 0) || (12 <? month) then None
          else if (day <? 1) || (daysIn month year <? day) then None
          else Some (Date year month day)
      | _, _, _ => None
      end
  | _ => None
  end.

End time.

(** ** html: the node tree of [golang.org/x/net/html] *)

Module html.

Inductive NodeType :=
  ErrorNode | TextNode | DocumentNode | ElementNode | CommentNode | DoctypeNode.

Record Attribute := { Key : string; Val : string }.

(** [html.Node]: [Data] is the tag of an element and the text of a text
    node; the children stand for the [FirstChild]/[NextSibling] chain. *)
#[warnings="-register-all"] Inductive Node :=
  mkNode (Typ : NodeType) (Data : string) (Attr : list Attribute) (children : list Node).

Definition Typ (n : Node) : NodeType := let 'mkNode t _ _ _ := n in t.
Definition Data (n : Node) : string := let 'mkNode _ d _ _ := n in d.
Definition Attr (n : Node) : list Attribute := let 'mkNode _ _ a _ := n in a.
Definition Children (n : Node) : list Node := let 'mkNode _ _ _ c := n in c.

Definition isElement (n : Node) : bool :=
  match Typ n with ElementNode => true | _ => false end.

Definition text (data : string) : Node := mkNode TextNode data [] [].
Definition element (tag : string) (attr : list (string * string)) (children : list Node) : Node :=
  mkNode ElementNode tag (List.map (fun kv => Build_Attribute (fst kv) (snd kv)) attr) children.
Definition document (children : list Node) : Node := mkNode DocumentNode "" [] children.

Definition escapeChar (c : ascii) : string :=
  match c with
  | "&"%char => "&amp;"
  | "'"%char => "&#39;"
  | "<"%char => "&lt;"
  | ">"%char => "&gt;"
  | "034"%char => "&#34;"
  | "013"%char => "&#13;"
  | _ => String c ""
  end.

Fixpoint escape (s : string) : string :=
  match s with
  | EmptyString => EmptyString
  | String c s' => escapeChar c +:+ escape s'
  end.

Definition voidElements : list string :=
  ["area"; "base"; "br"; "col"; "embed"; "hr"; "img"; "input"; "keygen";
   "link"; "meta"; "param"; "source"; "track"; "wbr"].

Definition isVoid (tag : string) : bool := existsb (String.eqb tag) voidElements.

Definition quote : string := String "034" "".

Definition renderAttr (a : Attribute) : string :=
  " " +:+ Key a +:+ "=" +:+ quote +:+ escape (Val a) +:+ quote.

(** [html.Render] on the trees the parser builds from the remote pages:
    text is escaped, a void element is written [<br/>], any other element
    as its tags around its children.  The raw text of [script] and
    [style], the line break [pre] and [textarea] regain, and attribute
    name spaces are not modelled. *)
Fixpoint Render (n : Node) : string :=
  match n with
  | mkNode ty data attr children =>
      let inner :=
        (fix each (l : list Node) : string :=
           match l with
           | [] => ""
           | c :: l' => Render c +:+ each l'
           end) children in
      match ty with
      | TextNode => escape data
      | ElementNode =>
          "<" +:+ data +:+ String.concat "" (List.map renderAttr attr) +:+
          (if isVoid data then "/>" else ">" +:+ inner +:+ "</" +:+ data +:+ ">")
      | CommentNode => "<!--" +:+ escape data +:+ "-->"
      | DoctypeNode => "<!DOCTYPE " +:+ escape data +:+ ">"
      | DocumentNode => inner
      | ErrorNode => ""
      end
  end.

(** The text of a subtree: the data of its text nodes, in document
    order. *)
Fixpoint textOf (n : Node) : string :=
  match n with
  | mkNode ty data _ children =>
      (match ty with TextNode => data | _ => "" end) +:+
      (fix each (l : list Node) : string :=
         match l with
         | [] => ""
         | c :: l' => textOf c +:+ each l'
         end) children
  end.

End html.

(** ** goquery: selections over a node tree *)

Module goquery.
Import html.

(** The simple selectors cascadia compiles the program's selector strings
    to; a compound selector is the list of its parts, all of which must
    hold of the node. *)
Inductive Simple :=
| Tag (name : string)              (* [div] *)
| Class (name : string)            (* [.mo] *)
| Id (id : string)                 (* [#divSchulfach] *)
| AttrPrefix (key val : string).   (* [[id^='...']] *)

Definition Matcher := list Simple.

Definition isClassSpace (c : ascii) : bool :=
  match c with
  | " " | "009" | "013" | "010" | "012" => true
  | _ => false
  end%char.

(** [matchInclude(val, s)]: one of the pieces of [s] between white space
    is [val]; a piece that ends [s] counts when it is not empty.  [cur]
    is the piece under way. *)
Fixpoint includes (val cur s : string) : bool :=
  match s with
  | EmptyString => negb (String.eqb cur "") && String.eqb cur val
  | String c s' =>
      if isClassSpace c then String.eqb cur val || includes val "" s'
      else includes val (cur +:+ String c "") s'
  end.

Definition matchInclude (val s : string) : bool := includes val "" s.

Definition matchAttribute (n : Node) (key : string) (f : string -> bool) : bool :=
  isElement n && existsb (fun a => String.eqb (Key a) key && f (Val a)) (Attr n).

Definition matchSimple (s : Simple) (n : Node) : bool :=
  match s with
  | Tag name => isElement n && String.eqb (Data n) name
  | Class name => matchAttribute n "class" (matchInclude name)
  | Id id => matchAttribute n "id" (String.eqb id)
  | AttrPrefix key val =>
      matchAttribute n key (fun s => negb (String.eqb val "") && strings.HasPrefix s val)
  end.

Definition Match (m : Matcher) (n : Node) : bool := forallb (fun s => matchSimple s n) m.

(** The selector strings of the program. *)
Definition div (classes : list string) : Matcher := Tag "div" :: List.map Class classes.

(** A node of a selection goes with its path from the root of the
    document (the child indices), which is its identity: two nodes of a
    selection are the same node when their paths are equal. *)
Definition Path := list nat.
Definition Selection := list (Path * Node).

(** [Matcher.MatchAll(n)]: [n] and its descendants that match, in
    document order. *)
Fixpoint MatchAll (m : Matcher) (p : Path) (n : Node) : Selection :=
  match n with
  | mkNode _ _ _ children =>
      (if Match m n then [(p, n)] else []) ++
      (fix each (i : nat) (l : list Node) : Selection :=
         match l with
         | [] => []
         | c :: l' => MatchAll m (p ++ [i]) c ++ each (S i) l'
         end) O children
  end.

(** The matches below one node: [findWithMatcher] starts from its element
    children. *)
Fixpoint below (m : Matcher) (p : Path) (i : nat) (l : list Node) : Selection :=
  match l with
  | [] => []
  | c :: l' =>
      (if isElement c then MatchAll m (p ++ [i]) c else []) ++ below m p (S i) l'
  end.

Definition pathEqb (p q : Path) : bool := bool_decide (p = q).

Definition appendWithoutDuplicates (target nodes : Selection) : Selection :=
  fold_left
    (fun acc pn => if existsb (fun qn => pathEqb (fst qn) (fst pn)) acc then acc else acc ++ [pn])
    nodes target.

(** [s.Find(selector)]. *)
Definition Find (s : Selection) (m : Matcher) : Selection :=
  fold_left
    (fun result pn => appendWithoutDuplicates result (below m (fst pn) O (Children (snd pn))))
    s [].

(** [s.Each(f)] calls [f] on the one-node selection of each node. *)
Definition Each (s : Selection) : list Selection := List.map (fun pn => [pn]) s.

Definition Length (s : Selection) : Z := Z.of_nat (List.length s).

(** [s.Attr(name)]: the attribute of the first node, and whether it is
    there. *)
Definition Attr (s : Selection) (name : string) : string * bool :=
  match s with
  | [] => ("", false)
  | (_, n) :: _ =>
      match List.find (fun a => String.eqb (Key a) name) (html.Attr n) with
      | Some a => (Val a, true)
      | None => ("", false)
      end
  end.

(** [s.Text()]: the texts of the nodes, one after the other. *)
Definition Text (s : Selection) : string :=
  String.concat "" (List.map (fun pn => textOf (snd pn)) s).

(** [s.Eq(index)]: a negative index counts from the end. *)
Definition Eq (s : Selection) (index : Z) : Selection :=
  let index := if index <? 0 then index + Length s else index in
  if (Length s <=? index) || (index <? 0) then []
  else match nth_error s (Z.to_nat index) with
       | Some pn => [pn]
       | None => []
       end.

(** [s.Html()]: the markup of the children of the first node. *)
Definition Html (s : Selection) : string :=
  match s with
  | [] => ""
  | (_, n) :: _ => String.concat "" (List.map Render (Children n))
  end.

(** The selection of a document: its root. *)
Definition Document (root : Node) : Selection := [([], root)].

End goquery.

(** ** errors *)

(** Go's [error] values: the program makes them with [fmt.Errorf], with or
    without an inner error under [%w]; [net/http] wraps what the transport
    reports into a [*url.Error]. *)
Inductive error :=
| errorString (s : string)
| wrapError (msg : string) (err : error)
| urlError (Op URL : string) (Err : error).

(** [err.Error()]. *)
Fixpoint Error (e : error) : string :=
  match e with
  | errorString s => s
  | wrapError msg err => msg +:+ Error err
  | urlError op u err => op +:+ " " +:+ html.quote +:+ u +:+ html.quote +:+ ": " +:+ Error err
  end.

(** A Go result pair [(value, err)]. *)
Inductive result (A : Type) :=
| ok (a : A)
| fail (err : error).
Arguments ok {A} a.
Arguments fail {A} err.

(** ** net/http *)

Module http.

Definition Header := list (string * string).

(** [h.Set(key, value)]; keys are kept as the program writes them. *)
Fixpoint Header_Set (h : Header) (key value : string) : Header :=
  match h with
  | [] => [(key, value)]
  | kv :: h' =>
      if String.eqb (fst kv) key then (key, value) :: h'
      else kv :: Header_Set h' key value
  end.

Definition Header_Get (h : Header) (key : string) : string := url.Get h key.

Record Request := {
  Method : string;
  URL : string;
  Hdr : Header;
  Body : string
}.

(** What reading a response body to its end gives: the text, and the
    tree [html.Parse] builds from that text. *)
Record Page := { Text : string; Tree : html.Node }.

(** A response: [Location] is the [Location] header resolved against the
    URL of the request, empty when the header is absent; [SetCookie] the
    cookies of its [Set-Cookie] headers; [Content] the outcome of reading
    the body, which fails when the connection breaks midway; [Partial]
    the bytes that came through before the break (of no account when the
    read succeeds). *)
Record Response := {
  StatusCode : Z;
  Location : string;
  SetCookie : list (string * string);
  Content : result Page;
  Partial : string
}.

Definition StatusOK : Z := 200.

(** A cookie store: name and value of each cookie, oldest first.  Every
    request of the program goes to the one host [baseURL], so domains,
    paths and expiry play no part. *)
Definition CookieJar := list (string * string).

(** The world a client acts on: the remote application and the network
    in front of it, as the answer to a request given the requests
    before it; the requests put on the wire so far, oldest first, each
    with the number of redirects that led to it within its call of the
    client (0 for the request the program built itself); the cookie
    stores, by address; the clock in Unix seconds; and the source of
    fresh identifiers with the count of those drawn. *)
Record World := {
  remote : list Request -> Request -> result Response;
  sent : list (nat * Request);
  jars : gmap nat CookieJar;
  clock : Z;
  uuids : nat -> string;
  drawn : nat
}.

(** Computations on the world.  [None] is a computation the model cut
    short: [net/http] then still follows redirects. *)
Definition M (A : Type) : Type := World -> option (A * World).

#[global] Instance M_ret : MRet M := fun A a w => Some (a, w).
#[global] Instance M_bind : MBind M :=
  fun A B f m w =>
    match m w with
    | Some (a, w') => f a w'
    | None => None
    end.

Definition ErrUseLastResponse : error := errorString "net/http: use last response".

Definition isErrUseLastResponse (e : error) : bool :=
  match e with
  | errorString s => String.eqb s "net/http: use last response"
  | _ => false
  end.

Definition RedirectPolicy := Request -> list Request -> option error.

(** [http.Client]: the address of its cookie store and its redirect
    policy ([None] for a nil [CheckRedirect]). *)
Record Client := {
  Jar : nat;
  CheckRedirect : option RedirectPolicy
}.

Definition defaultCheckRedirect : RedirectPolicy :=
  fun req via =>
    if (10 <=? Z.of_nat (List.length via)) then Some (errorString "stopped after 10 redirects")
    else None.

(** [c.checkRedirect(req, via)]. *)
Definition checkRedirect (c : Client) (req : Request) (via : list Request) : option error :=
  match CheckRedirect c with
  | Some fn => fn req via
  | None => defaultCheckRedirect req via
  end.

Definition SetCookies (jar : CookieJar) (cookies : list (string * string)) : CookieJar :=
  fold_left (fun j kv => Header_Set j (fst kv) (snd kv)) cookies jar.

Definition withCookies (jar : CookieJar) (req : Request) : Request :=
  match jar with
  | [] => req
  | _ =>
      {| Method := Method req; URL := URL req;
         Hdr := Hdr req ++
                [("Cookie", strings.Join (List.map (fun kv => fst kv +:+ "=" +:+ snd kv) jar) "; ")];
         Body := Body req |}
  end.

(** [c.send(req)]: one exchange.  The cookies of the store go out with the
    request, the request goes on the wire, and the cookies of the response
    are stored. *)
Definition send (c : Client) (hop : nat) (req : Request) (w : World)
  : result Response * World :=
  let jar := default [] (jars w !! Jar c) in
  let wire := withCookies jar req in
  let r := remote w (List.map snd (sent w)) wire in
  let jars' :=
    match r with
    | ok resp =>
        match SetCookie resp with
        | [] => jars w
        | rc => <[Jar c := SetCookies jar rc]> (jars w)
        end
    | fail _ => jars w
    end in
  (r, {| remote := remote w; sent := sent w ++ [(hop, wire)]; jars := jars';
         clock := clock w; uuids := uuids w; drawn := drawn w |}).

(** [redirectBehavior]: whether the status asks for a redirect, the
    method of the next request and whether the body goes with it.  (The
    bodies of the program can all be sent again.) *)
Definition redirectBehavior (reqMethod : string) (resp : Response) : option (string * bool) :=
  let code := StatusCode resp in
  if (code =? 301) || (code =? 302) || (code =? 303) then
    Some (if String.eqb reqMethod "GET" || String.eqb reqMethod "HEAD" then reqMethod else "GET",
          false)
  else if (code =? 307) || (code =? 308) then Some (reqMethod, true)
  else None.

Definition urlErrorOp (method : string) : string :=
  if String.eqb method "POST" then "Post"
  else if String.eqb method "HEAD" then "Head"
  else "Get".

(** The loop of [c.do(req)]: send; when the response is a redirect with
    a [Location], build the next request and ask the policy: on
    [ErrUseLastResponse] the redirect response itself is the result, on
    another error the call fails, and on nil the next request is sent in
    turn.  [hops] bounds the redirects the model follows; the loop of
    [net/http] has no bound of its own.  A hop carries the headers of
    the first request, and a [Referer] naming the request before it when
    the first has none. *)
Fixpoint do (hops : nat) (c : Client) (ireq : Request) (via : list Request) (req : Request)
  : M (result Response) :=
  fun w =>
    let '(r, w1) := send c (List.length via) req w in
    match r with
    | fail err => Some (fail (urlError (urlErrorOp (Method ireq)) (URL req) err), w1)
    | ok resp =>
        match redirectBehavior (Method req) resp with
        | None => Some (ok resp, w1)
        | Some (redirectMethod, includeBody) =>
            if String.eqb (Location resp) "" then Some (ok resp, w1)
            else
              let next :=
                {| Method := redirectMethod;
                   URL := Location resp;
                   Hdr := if String.eqb (Header_Get (Hdr ireq) "Referer") ""
                          then Header_Set (Hdr ireq) "Referer" (URL req)
                          else Hdr ireq;
                   Body := if includeBody then Body ireq else "" |} in
              match checkRedirect c next (via ++ [req]) with
              | Some err =>
                  if isErrUseLastResponse err then Some (ok resp, w1)
                  else Some (fail (urlError (urlErrorOp (Method ireq)) (Location resp) err), w1)
              | None =>
                  match hops with
                  | O => None
                  | S hops' => do hops' c ireq (via ++ [req]) next w1
                  end
              end
        end
    end.

(** [c.Do(req)]. *)
Definition Do (hops : nat) (c : Client) (req : Request) : M (result Response) :=
  do hops c req [] req.

(** [http.NewRequest(method, url, body)]; it accepts every URL the
    program builds. *)
Definition NewRequest (method u body : string) : Request :=
  {| Method := method; URL := u; Hdr := []; Body := body |}.

Definition Request_Header_Set (req : Request) (key value : string) : Request :=
  {| Method := Method req; URL := URL req;
     Hdr := Header_Set (Hdr req) key value; Body := Body req |}.

(** [c.Get(url)]. *)
Definition Get (hops : nat) (c : Client) (u : string) : M (result Response) :=
  Do hops c (NewRequest "GET" u "").

(** [c.PostForm(url, data)]. *)
Definition PostForm (hops : nat) (c : Client) (u : string) (data : url.Values)
  : M (result Response) :=
  Do hops c
    (Request_Header_Set (NewRequest "POST" u (url.Encode data))
       "Content-Type" "application/x-www-form-urlencoded").

(** [cookiejar.New(nil)]: a new, empty store at an unused address. *)
Definition cookiejar_New : M nat :=
  fun w =>
    let a := fresh (dom (jars w)) in
    Some (a, {| remote := remote w; sent := sent w; jars := <[a := []]> (jars w);
                clock := clock w; uuids := uuids w; drawn := drawn w |}).

(** The calls of the client in a stretch of the wire: method, URL and
    body of each request the program built itself, in order. *)
Definition line (req : Request) : string * string * string :=
  (Method req, URL req, Body req).

Definition calls (l : list (nat * Request)) : list (string * string * string) :=
  List.map (fun e => line (snd e)) (List.filter (fun e => Nat.eqb (fst e) 0) l).

(** [time.Now().Unix()]. *)
Definition Now_Unix : M Z := fun w => Some (clock w, w).

(** [uuid.New().String()]. *)
Definition uuid_New : M string :=
  fun w =>
    Some (uuids w (drawn w),
          {| remote := remote w; sent := sent w; jars := jars w;
             clock := clock w; uuids := uuids w; drawn := S (drawn w) |}).

End http.

(** ** regexp *)

Module regexp.

Fixpoint digitRun (s : string) : string :=
  match s with
  | String c s' => if strconv.isDigit c then String c (digitRun s') else ""
  | EmptyString => ""
  end.

(** The regular expression [marker(\d+)] matched at the start of [s],
    for a literal [marker]: the submatch is the longest run of digits
    after the marker, and there must be one digit at least. *)
Definition matchHere (marker s : string) : option string :=
  if strings.HasPrefix s marker
  then match digitRun (strings.drop (String.length marker) s) with
       | EmptyString => None
       | run => Some run
       end
  else None.

(** [regexp.MustCompile(marker + `(\d+)`).FindStringSubmatch(s)]: the
    submatch of the leftmost match, [None] when there is no match. *)
Fixpoint FindDigitsAfter (marker s : string) : option string :=
  match matchHere marker s with
  | Some run => Some run
  | None =>
      match s with
      | EmptyString => None
      | String _ s' => FindDigitsAfter marker s'
      end
  end.

End regexp.

(** ** package azubiheft *)

Module azubiheft.
Import http.

Definition baseURL : string := "https://www.azubiheft.de".

Record Session := { client : Client }.

Record Subject := { ID : string; Name : string }.

Record ReportEntry := {
  Seq : string;
  Type_ : string;
  Duration : string;
  Text : string
}.

(** [NewSession]: a client with a store of its own and a redirect policy
    that returns nil for every redirect. *)
Definition NewSession : M Session :=
  jar ← cookiejar_New;
  mret {| client := {| Jar := jar; CheckRedirect := Some (fun req via => None) |} |}.

Section Operations.

(** The bound on the redirects followed within one call of the client
    (see [http.do]). *)
Variable hops : nat.

(** [goquery.NewDocumentFromReader(resp.Body)]. *)
Definition NewDocumentFromReader (resp : Response) : result goquery.Selection :=
  match Content resp with
  | ok page => ok (goquery.Document (Tree page))
  | fail err => fail err
  end.

(** [io.ReadAll(resp.Body)]: the bytes read, and the error that cut the
    read short, if any. *)
Definition ReadAll (resp : Response) : string * option error :=
  match Content resp with
  | ok page => (http.Text page, None)
  | fail err => (Partial resp, Some err)
  end.

Definition attrValue (doc : goquery.Selection) (id : string) : string :=
  fst (goquery.Attr (goquery.Find doc [goquery.Id id]) "value").

Definition IsLoggedIn (s : Session) : M bool :=
  r ← Get hops (client s) (baseURL +:+ "/Azubi/Default.aspx");
  match r with
  | fail _ => mret false
  | ok resp =>
      let '(body, err) := ReadAll resp in
      match err with
      | Some _ => mret false
      | None =>
          mret (strings.Contains body ("id=" +:+ html.quote +:+ "Abmelden" +:+ html.quote))
      end
  end.

Definition Login (s : Session) (username password : string) : M (option error) :=
  r ← Get hops (client s) (baseURL +:+ "/Login.aspx");
  match r with
  | fail err => mret (Some (wrapError "failed to get login page: " err))
  | ok resp =>
      match NewDocumentFromReader resp with
      | fail err => mret (Some (wrapError "failed to parse login page: " err))
      | ok doc =>
          let viewState := attrValue doc "__VIEWSTATE" in
          let viewStateGenerator := attrValue doc "__VIEWSTATEGENERATOR" in
          let eventValidation := attrValue doc "__EVENTVALIDATION" in
          let formData : url.Values :=
            [ ("__VIEWSTATE", viewState);
              ("__VIEWSTATEGENERATOR", viewStateGenerator);
              ("__EVENTVALIDATION", eventValidation);
              ("ctl00$ContentPlaceHolder1$txt_Benutzername", username);
              ("ctl00$ContentPlaceHolder1$txt_Passwort", password);
              ("ctl00$ContentPlaceHolder1$chk_Persistent", "on");
              ("ctl00$ContentPlaceHolder1$cmd_Login", "Anmelden");
              ("ctl00$ContentPlaceHolder1$HiddenField_isMobile", "false") ] in
          r ← PostForm hops (client s) (baseURL +:+ "/Login.aspx") formData;
          match r with
          | fail err => mret (Some (wrapError "failed to submit login: " err))
          | ok _ =>
              loggedIn ← IsLoggedIn s;
              if negb loggedIn
              then mret (Some (errorString "login failed: invalid credentials"))
              else mret None
          end
      end
  end.

Definition Logout (s : Session) : M (option error) :=
  r ← Get hops (client s) (baseURL +:+ "/Azubi/Abmelden.aspx");
  match r with
  | fail err => mret (Some (wrapError "failed to logout: " err))
  | ok _ => mret None
  end.

Definition builtinSubjects : list Subject :=
  [ {| ID := "1"; Name := "Betrieb" |};
    {| ID := "2"; Name := "Schule" |};
    {| ID := "3"; Name := "ÜBA" |};
    {| ID := "4"; Name := "Urlaub" |};
    {| ID := "5"; Name := "Feiertag" |};
    {| ID := "6"; Name := "Arbeitsunfähig" |};
    {| ID := "7"; Name := "Frei" |} ].

(** The body of the [Each] of [GetSubjects]. *)
Definition GetSubjects_each (subjects : list Subject) (sel : goquery.Selection)
  : list Subject :=
  let '(id, hasID) := goquery.Attr sel "data-default" in
  let '(name, hasValue) := goquery.Attr sel "value" in
  if hasID && hasValue && negb (String.eqb name "")
  then subjects ++ [ {| ID := id; Name := name |} ]
  else subjects.

Definition GetSubjects (s : Session) : M (result (list Subject)) :=
  r ← Get hops (client s) (baseURL +:+ "/Azubi/SetupSchulfach.aspx");
  match r with
  | fail err => mret (fail (wrapError "failed to get subjects page: " err))
  | ok resp =>
      match NewDocumentFromReader resp with
      | fail err => mret (fail (wrapError "failed to parse subjects page: " err))
      | ok doc =>
          let divSchulfach := goquery.Find doc [goquery.Id "divSchulfach"] in
          let subjects :=
            if 0 <? goquery.Length divSchulfach
            then fold_left GetSubjects_each
                   (goquery.Each (goquery.Find divSchulfach [goquery.Tag "input"]))
                   builtinSubjects
            else builtinSubjects in
          mret (ok subjects)
      end
  end.

Definition existingSubjectInputs (doc : goquery.Selection) : list goquery.Selection :=
  goquery.Each
    (goquery.Find doc
       [goquery.Tag "input"; goquery.AttrPrefix "id" "ctl00_ContentPlaceHolder1_txt"]).

Definition AddSubject_each (formData : url.Values) (sel : goquery.Selection) : url.Values :=
  let id := fst (goquery.Attr sel "id") in
  let value := fst (goquery.Attr sel "value") in
  if negb (String.eqb value "") then url.Set_ formData id value else formData.

Definition AddSubject (s : Session) (subjectName : string) : M (option error) :=
  r ← Get hops (client s) (baseURL +:+ "/Azubi/SetupSchulfach.aspx");
  match r with
  | fail err => mret (Some (wrapError "failed to get subjects page: " err))
  | ok resp =>
      match NewDocumentFromReader resp with
      | fail err => mret (Some (wrapError "failed to parse subjects page: " err))
      | ok doc =>
          let formData : url.Values :=
            [ ("__VIEWSTATE", attrValue doc "__VIEWSTATE");
              ("__VIEWSTATEGENERATOR", attrValue doc "__VIEWSTATEGENERATOR");
              ("__EVENTVALIDATION", attrValue doc "__EVENTVALIDATION");
              ("ctl00$ContentPlaceHolder1$cmd_Save", "Speichern") ] in
          let formData := fold_left AddSubject_each (existingSubjectInputs doc) formData in
          timestamp ← Now_Unix;
          let formData := url.Set_ formData ("txt" +:+ strconv.Itoa timestamp) subjectName in
          r ← PostForm hops (client s) (baseURL +:+ "/Azubi/SetupSchulfach.aspx") formData;
          match r with
          | fail err => mret (Some (wrapError "failed to add subject: " err))
          | ok resp =>
              if negb (StatusCode resp =? StatusOK)
              then mret (Some (errorString ("failed to add subject: status code " +:+
                                            strconv.Itoa (StatusCode resp))))
              else mret None
          end
      end
  end.

Definition DeleteSubject_each (subjectID : string) (formData : url.Values)
    (sel : goquery.Selection) : url.Values :=
  let id := fst (goquery.Attr sel "id") in
  let value := fst (goquery.Attr sel "value") in
  match regexp.FindDigitsAfter "txt" id with
  | Some digits =>
      if negb (String.eqb digits subjectID) && negb (String.eqb value "")
      then url.Set_ formData id value
      else formData
  | None => formData
  end.

Definition DeleteSubject (s : Session) (subjectID : string) : M (option error) :=
  r ← Get hops (client s) (baseURL +:+ "/Azubi/SetupSchulfach.aspx");
  match r with
  | fail err => mret (Some (wrapError "failed to get subjects page: " err))
  | ok resp =>
      match NewDocumentFromReader resp with
      | fail err => mret (Some (wrapError "failed to parse subjects page: " err))
      | ok doc =>
          let formData : url.Values :=
            [ ("__VIEWSTATE", attrValue doc "__VIEWSTATE");
              ("__VIEWSTATEGENERATOR", attrValue doc "__VIEWSTATEGENERATOR");
              ("__EVENTVALIDATION", attrValue doc "__EVENTVALIDATION");
              ("ctl00$ContentPlaceHolder1$HiddenLöschIDs", "," +:+ subjectID);
              ("ctl00$ContentPlaceHolder1$cmd_Save", "Speichern") ] in
          let formData :=
            fold_left (DeleteSubject_each subjectID) (existingSubjectInputs doc) formData in
          r ← PostForm hops (client s) (baseURL +:+ "/Azubi/SetupSchulfach.aspx") formData;
          match r with
          | fail err => mret (Some (wrapError "failed to delete subject: " err))
          | ok resp =>
              if negb (StatusCode resp =? StatusOK)
              then mret (Some (errorString ("failed to delete subject: status code " +:+
                                            strconv.Itoa (StatusCode resp))))
              else mret None
          end
      end
  end.

(** The body of the [Each] of [GetReportWeekID], as a step from the
    [weekID] before the tile to the one after it. *)
Definition GetReportWeekID_each (year week : Z) (weekID : string)
    (sel : goquery.Selection) : string :=
  let '(onclick, exists_) := goquery.Attr sel "onclick" in
  if negb exists_ then weekID else
  let kwDiv := goquery.Find sel (goquery.div ["sKW"]) in
  if goquery.Length kwDiv =? 0 then weekID else
  let kwParent := goquery.Find sel (goquery.div ["KW"]) in
  if goquery.Length kwParent =? 0 then weekID else
  let yearDivs := goquery.Find kwParent (goquery.div []) in
  if goquery.Length yearDivs <? 3 then weekID else
  let kwText := strings.TrimSpace (goquery.Text kwDiv) in
  match strconv.Atoi kwText with
  | None => weekID
  | Some kw =>
      let yearText := strings.TrimSpace (goquery.Text (goquery.Eq yearDivs 2)) in
      match strconv.Atoi yearText with
      | None => weekID
      | Some kwYear =>
          if (kw =? week) && (kwYear =? year) then
            match regexp.FindDigitsAfter "NachweisNr=" onclick with
            | Some nr => nr
            | None => weekID
            end
          else weekID
      end
  end.

Definition weekTiles (doc : goquery.Selection) : list goquery.Selection :=
  goquery.Each (goquery.Find doc (goquery.div ["mo"; "NBox"])).

Definition GetReportWeekID (s : Session) (date : time.Time) : M (result string) :=
  r ← Get hops (client s) (baseURL +:+ "/Azubi/Ausbildungsnachweise.aspx");
  match r with
  | fail err => mret (fail (wrapError "failed to get reports page: " err))
  | ok resp =>
      match NewDocumentFromReader resp with
      | fail err => mret (fail (wrapError "failed to parse reports page: " err))
      | ok doc =>
          let '(year, week) := time.ISOWeek date in
          let weekID := fold_left (GetReportWeekID_each year week) (weekTiles doc) "" in
          if String.eqb weekID ""
          then mret (fail (errorString ("no report found for week " +:+ strconv.Itoa week
                                        +:+ "/" +:+ strconv.Itoa year)))
          else mret (ok weekID)
      end
  end.

(** The body of the [Each] of [GetReport]. *)
Definition GetReport_each (includeFormatting : bool) (entries : list ReportEntry)
    (entry : goquery.Selection) : list ReportEntry :=
  let seq := fst (goquery.Attr entry "data-seq") in
  let duration := strings.TrimSpace (goquery.Text (goquery.Find entry (goquery.div ["row2"; "d4"]))) in
  if String.eqb duration "00:00" then entries else
  let activityType := goquery.Text (goquery.Find entry (goquery.div ["row1"; "d3"])) in
  let activityType := strings.TrimSpace activityType in
  let activityType := strings.TrimPrefix activityType "Art: " in
  let reportTextDiv := goquery.Find entry (goquery.div ["row7"; "d5"]) in
  let text :=
    if includeFormatting then
      let htmlContent := goquery.Html reportTextDiv in
      let text := strings.ReplaceAll htmlContent "<br/>" (String "010" "") in
      strings.ReplaceAll text "<br>" (String "010" "")
    else strings.TrimSpace (goquery.Text reportTextDiv) in
  entries ++ [ {| Seq := seq; Type_ := activityType; Duration := duration; Text := text |} ].

Definition dayEntries (doc : goquery.Selection) : list goquery.Selection :=
  goquery.Each (goquery.Find doc (goquery.div ["d0"; "mo"])).

Definition GetReport (s : Session) (date : time.Time) (includeFormatting : bool)
  : M (result (list ReportEntry)) :=
  let dateStr := time.Format20060102 date in
  r ← Get hops (client s) (baseURL +:+ "/Azubi/Tagesbericht.aspx?Datum=" +:+ dateStr);
  match r with
  | fail err => mret (fail (wrapError "failed to get report page: " err))
  | ok resp =>
      match NewDocumentFromReader resp with
      | fail err => mret (fail (wrapError "failed to parse report page: " err))
      | ok doc =>
          mret (ok (fold_left (GetReport_each includeFormatting) (dayEntries doc) []))
      end
  end.

(** The URL of the AJAX endpoint of a day. *)
Definition reqURL (dateStr weekID : string) (timestamp : Z) : string :=
  baseURL +:+ "/Azubi/XMLHttpRequest.ashx?Datum=" +:+ dateStr +:+ "&BrNr=" +:+ weekID
  +:+ "&BrSt=1&BrVorh=Yes&T=" +:+ strconv.Itoa timestamp.

(** The message of [WriteReport], each line in a [div]. *)
Definition formattedMessage (message : string) : string :=
  let lines := strings.Split message "010"%char in
  let formattedLines := List.map (fun line => "<div>" +:+ line +:+ "</div>") lines in
  strings.Join formattedLines "".

Definition encodedMessage (message : string) : string :=
  let encodedMessage := url.QueryEscape (formattedMessage message) in
  strings.ReplaceAll encodedMessage "+" "%20".

Definition writeForm (message timeSpent : string) (entryType : Z) : url.Values :=
  [ ("disablePaste", "0");
    ("Seq", "0");
    ("Art_ID", strconv.Itoa entryType);
    ("Abt_ID", "0");
    ("Dauer", timeSpent);
    ("Inhalt", encodedMessage message);
    ("jsVer", "12") ].

Definition writeRequest (dateStr weekID : string) (timestamp : Z) (formData : url.Values)
  : Request :=
  let req := NewRequest "POST" (reqURL dateStr weekID timestamp) (url.Encode formData) in
  let req := Request_Header_Set req "Content-Type" "application/x-www-form-urlencoded" in
  let req := Request_Header_Set req "x-my-ajax-request" "ajax" in
  let req := Request_Header_Set req "Origin" baseURL in
  let req := Request_Header_Set req "Referer" baseURL in
  let req := Request_Header_Set req "Sec-Fetch-Dest" "empty" in
  let req := Request_Header_Set req "Sec-Fetch-Mode" "cors" in
  let req := Request_Header_Set req "Sec-Fetch-Site" "same-origin" in
  let req := Request_Header_Set req "Pragma" "no-cache" in
  Request_Header_Set req "Cache-Control" "no-cache".

Definition WriteReport (s : Session) (date : time.Time) (message timeSpent : string)
    (entryType : Z) : M (option error) :=
  if String.eqb timeSpent "00:00" then mret None else
  r ← GetReportWeekID s date;
  match r with
  | fail err => mret (Some err)
  | ok weekID =>
      let dateStr := time.Format20060102 date in
      timestamp ← Now_Unix;
      let formData := writeForm message timeSpent entryType in
      r ← Do hops (client s) (writeRequest dateStr weekID timestamp formData);
      match r with
      | fail err => mret (Some (wrapError "failed to write report: " err))
      | ok resp =>
          if negb (StatusCode resp =? StatusOK) then
            let '(body, _) := ReadAll resp in
            mret (Some (errorString ("failed to write report: status code " +:+
                                     strconv.Itoa (StatusCode resp) +:+ ", body: " +:+ body)))
          else mret None
      end
  end.

Definition deleteForm (entry : ReportEntry) : url.Values :=
  [ ("disablePaste", "0");
    ("Seq", "-" +:+ Seq entry);
    ("Art_ID", "0");
    ("Abt_ID", "0");
    ("Dauer", Duration entry);
    ("Inhalt", Text entry);
    ("jsVer", "12") ].

Definition deleteRequest (dateStr weekID : string) (timestamp : Z) (entry : ReportEntry)
  : Request :=
  let req :=
    NewRequest "POST" (reqURL dateStr weekID timestamp) (url.Encode (deleteForm entry)) in
  let req := Request_Header_Set req "Content-Type" "application/x-www-form-urlencoded" in
  let req := Request_Header_Set req "x-my-ajax-request" "ajax" in
  let req := Request_Header_Set req "Origin" baseURL in
  Request_Header_Set req "Referer" baseURL.

(** The loop of [DeleteReport] over [entriesToDelete]. *)
Fixpoint deleteEntries (s : Session) (dateStr weekID : string) (timestamp : Z)
    (entriesToDelete : list ReportEntry) : M (option error) :=
  match entriesToDelete with
  | [] => mret None
  | entry :: rest =>
      r ← Do hops (client s) (deleteRequest dateStr weekID timestamp entry);
      match r with
      | fail err => mret (Some (wrapError "failed to delete report: " err))
      | ok resp =>
          if negb (StatusCode resp =? StatusOK)
          then mret (Some (errorString ("failed to delete report: status code " +:+
                                        strconv.Itoa (StatusCode resp))))
          else deleteEntries s dateStr weekID timestamp rest
      end
  end.

(** [entryNumber] is [None] for a nil pointer. *)
Definition DeleteReport (s : Session) (date : time.Time) (entryNumber : option Z)
  : M (option error) :=
  r ← GetReport s date false;
  match r with
  | fail err => mret (Some err)
  | ok reports =>
      if Z.of_nat (List.length reports) =? 0 then mret None else
      r ← GetReportWeekID s date;
      match r with
      | fail err => mret (Some err)
      | ok weekID =>
          let dateStr := time.Format20060102 date in
          timestamp ← Now_Unix;
          match entryNumber with
          | None => deleteEntries s dateStr weekID timestamp reports
          | Some n =>
              if (n <? 1) || (Z.of_nat (List.length reports) <? n)
              then mret (Some (errorString ("invalid entry number: " +:+ strconv.Itoa n)))
              else
                (* [reports[n-1]]: the index is in range here *)
                let entriesToDelete := firstn 1 (skipn (Z.to_nat (n - 1)) reports) in
                deleteEntries s dateStr weekID timestamp entriesToDelete
          end
      end
  end.

End Operations.
End azubiheft.

(** ** package azubiheftserver *)

Module azubiheftserver.
Import http.

(** The values of a decoded JSON object, [map[string]interface{}]: a
    number is a [float64], held here by its exact value. *)
#[warnings="-register-all"] Inductive Value :=
| VNil
| VBool (b : bool)
| VNumber (f : Q)
| VString (s : string)
| VArray (l : list Value)
| VObject (m : list (string * Value)).

Definition Args := gmap string Value.

(** The type assertions [args[key].(string)], [.(float64)] and
    [.(bool)]: [None] when [ok] is false. *)
Definition asString (args : Args) (key : string) : option string :=
  match args !! key with Some (VString s) => Some s | _ => None end.

Definition asFloat64 (args : Args) (key : string) : option Q :=
  match args !! key with Some (VNumber f) => Some f | _ => None end.

Definition asBool (args : Args) (key : string) : option bool :=
  match args !! key with Some (VBool b) => Some b | _ => None end.

(** The conversion [int(f)] of a [float64] within the range of [int]:
    the fraction is dropped. *)
Definition int (f : Q) : Z := Z.quot (Qnum f) (Z.pos (Qden f)).

(** [AzubiheftService]; the mutex and the logger leave no trace in the
    results. *)
Record AzubiheftService := {
  sessions : gmap string azubiheft.Session;
  defaultSessionID : string
}.

(** The verb [%+v] on the slices the service prints. *)
Definition fmtSubjects (l : list azubiheft.Subject) : string :=
  "[" +:+ strings.Join
            (List.map (fun x => "{ID:" +:+ azubiheft.ID x +:+ " Name:" +:+ azubiheft.Name x +:+ "}") l)
            " " +:+ "]".

Definition fmtReports (l : list azubiheft.ReportEntry) : string :=
  "[" +:+ strings.Join
            (List.map (fun e => "{Seq:" +:+ azubiheft.Seq e +:+ " Type:" +:+ azubiheft.Type_ e
                                +:+ " Duration:" +:+ azubiheft.Duration e
                                +:+ " Text:" +:+ azubiheft.Text e +:+ "}") l)
            " " +:+ "]".

(** The error of a date [time.Parse] rejects; the inner error stands for
    the [*time.ParseError], whose text names the fault. *)
Definition invalidDate (dateStr : string) : error :=
  wrapError "invalid date format, use YYYY-MM-DD: " (errorString ("parsing time " +:+ dateStr)).

Section Service.

Variable hops : nat.

(** [NewAzubiheftService]: with both credentials given, log in and keep
    the session under the handle [default].  The lines it logs (after a
    login that worked: [You can use 'default' as session_id or omit it in
    tool calls]) are not part of the result. *)
Definition NewAzubiheftService (username password : string) : M AzubiheftService :=
  let service := {| sessions := ∅; defaultSessionID := "" |} in
  if negb (String.eqb username "") && negb (String.eqb password "") then
    session ← azubiheft.NewSession;
    err ← azubiheft.Login hops session username password;
    match err with
    | Some _ => mret service
    | None =>
        let sessionID := "default" in
        mret {| sessions := <[sessionID := session]> (sessions service);
                defaultSessionID := sessionID |}
    end
  else mret service.

Definition GetDefaultSessionID (s : AzubiheftService) : string := defaultSessionID s.

Definition getSession (s : AzubiheftService) (sessionID : string)
  : result azubiheft.Session :=
  let sessionID :=
    if String.eqb sessionID "" && negb (String.eqb (defaultSessionID s) "")
    then defaultSessionID s else sessionID in
  match sessions s !! sessionID with
  | None =>
      if negb (String.eqb (defaultSessionID s) "")
      then fail (errorString
             "invalid session ID (hint: use 'default' or omit session_id to use auto-login session)")
      else fail (errorString "invalid session ID")
  | Some session => ok session
  end.

Definition Login (s : AzubiheftService) (args : Args) : M (result string * AzubiheftService) :=
  match asString args "username" with
  | None => mret (fail (errorString "username is required"), s)
  | Some username =>
      match asString args "password" with
      | None => mret (fail (errorString "password is required"), s)
      | Some password =>
          session ← azubiheft.NewSession;
          err ← azubiheft.Login hops session username password;
          match err with
          | Some err => mret (fail (wrapError "login failed: " err), s)
          | None =>
              sessionID ← uuid_New;
              mret (ok ("Login successful. Session ID: " +:+ sessionID),
                    {| sessions := <[sessionID := session]> (sessions s);
                       defaultSessionID := defaultSessionID s |})
          end
      end
  end.

Definition Logout (s : AzubiheftService) (args : Args) : M (result string * AzubiheftService) :=
  match asString args "session_id" with
  | None => mret (fail (errorString "session_id is required"), s)
  | Some sessionID =>
      match getSession s sessionID with
      | fail err => mret (fail err, s)
      | ok session =>
          err ← azubiheft.Logout hops session;
          match err with
          | Some err => mret (fail (wrapError "logout failed: " err), s)
          | None =>
              mret (ok "Logout successful",
                    {| sessions := delete sessionID (sessions s);
                       defaultSessionID := defaultSessionID s |})
          end
      end
  end.

Definition IsLoggedIn (s : AzubiheftService) (args : Args) : M (result string) :=
  match asString args "session_id" with
  | None => mret (fail (errorString "session_id is required"))
  | Some sessionID =>
      match getSession s sessionID with
      | fail err => mret (fail err)
      | ok session =>
          loggedIn ← azubiheft.IsLoggedIn hops session;
          mret (ok ("Logged in: " +:+ (if loggedIn : bool then "true" else "false")))
      end
  end.

Definition GetSubjects (s : AzubiheftService) (args : Args) : M (result string) :=
  let sessionID := default "" (asString args "session_id") in
  match getSession s sessionID with
  | fail err => mret (fail err)
  | ok session =>
      r ← azubiheft.GetSubjects hops session;
      match r with
      | fail err => mret (fail (wrapError "failed to get subjects: " err))
      | ok subjects => mret (ok ("Subjects: " +:+ fmtSubjects subjects))
      end
  end.

Definition AddSubject (s : AzubiheftService) (args : Args) : M (result string) :=
  match asString args "session_id" with
  | None => mret (fail (errorString "session_id is required"))
  | Some sessionID =>
      match asString args "subject_name" with
      | None => mret (fail (errorString "subject_name is required"))
      | Some subjectName =>
          match getSession s sessionID with
          | fail err => mret (fail err)
          | ok session =>
              err ← azubiheft.AddSubject hops session subjectName;
              match err with
              | Some err => mret (fail (wrapError "failed to add subject: " err))
              | None => mret (ok ("Subject '" +:+ subjectName +:+ "' added successfully"))
              end
          end
      end
  end.

Definition DeleteSubject (s : AzubiheftService) (args : Args) : M (result string) :=
  match asString args "session_id" with
  | None => mret (fail (errorString "session_id is required"))
  | Some sessionID =>
      match asString args "subject_id" with
      | None => mret (fail (errorString "subject_id is required"))
      | Some subjectID =>
          match getSession s sessionID with
          | fail err => mret (fail err)
          | ok session =>
              err ← azubiheft.DeleteSubject hops session subjectID;
              match err with
              | Some err => mret (fail (wrapError "failed to delete subject: " err))
              | None =>
                  mret (ok ("Subject with ID '" +:+ subjectID +:+ "' deleted successfully"))
              end
          end
      end
  end.

Definition GetReport (s : AzubiheftService) (args : Args) : M (result string) :=
  match asString args "session_id" with
  | None => mret (fail (errorString "session_id is required"))
  | Some sessionID =>
      match asString args "date" with
      | None => mret (fail (errorString "date is required"))
      | Some dateStr =>
          match time.Parse_2006_01_02 dateStr with
          | None => mret (fail (invalidDate dateStr))
          | Some date =>
              let includeFormatting := default false (asBool args "include_formatting") in
              match getSession s sessionID with
              | fail err => mret (fail err)
              | ok session =>
                  r ← azubiheft.GetReport hops session date includeFormatting;
                  match r with
                  | fail err => mret (fail (wrapError "failed to get report: " err))
                  | ok reports =>
                      mret (ok ("Reports for " +:+ dateStr +:+ ": " +:+ fmtReports reports))
                  end
              end
          end
      end
  end.

Definition WriteReport (s : AzubiheftService) (args : Args) : M (result string) :=
  match asString args "session_id" with
  | None => mret (fail (errorString "session_id is required"))
  | Some sessionID =>
      match asString args "date" with
      | None => mret (fail (errorString "date is required"))
      | Some dateStr =>
          match time.Parse_2006_01_02 dateStr with
          | None => mret (fail (invalidDate dateStr))
          | Some date =>
              match asString args "message" with
              | None => mret (fail (errorString "message is required"))
              | Some message =>
                  match asString args "time_spent" with
                  | None => mret (fail (errorString "time_spent is required"))
                  | Some timeSpent =>
                      match asFloat64 args "entry_type" with
                      | None => mret (fail (errorString "entry_type is required"))
                      | Some entryType =>
                          match getSession s sessionID with
                          | fail err => mret (fail err)
                          | ok session =>
                              err ← azubiheft.WriteReport hops session date message
                                      timeSpent (int entryType);
                              match err with
                              | Some err =>
                                  mret (fail (wrapError "failed to write report: " err))
                              | None =>
                                  mret (ok ("Report for " +:+ dateStr
                                            +:+ " written successfully"))
                              end
                          end
                      end
                  end
              end
          end
      end
  end.

Definition DeleteReport (s : AzubiheftService) (args : Args) : M (result string) :=
  match asString args "session_id" with
  | None => mret (fail (errorString "session_id is required"))
  | Some sessionID =>
      match asString args "date" with
      | None => mret (fail (errorString "date is required"))
      | Some dateStr =>
          match time.Parse_2006_01_02 dateStr with
          | None => mret (fail (invalidDate dateStr))
          | Some date =>
              let entryNumber := int <$> asFloat64 args "entry_number" in
              match getSession s sessionID with
              | fail err => mret (fail err)
              | ok session =>
                  err ← azubiheft.DeleteReport hops session date entryNumber;
                  match err with
                  | Some err => mret (fail (wrapError "failed to delete report: " err))
                  | None =>
                      mret (ok ("Report(s) for " +:+ dateStr +:+ " deleted successfully"))
                  end
              end
          end
      end
  end.

Definition GetWeekID (s : AzubiheftService) (args : Args) : M (result string) :=
  match asString args "session_id" with
  | None => mret (fail (errorString "session_id is required"))
  | Some sessionID =>
      match asString args "date" with
      | None => mret (fail (errorString "date is required"))
      | Some dateStr =>
          match time.Parse_2006_01_02 dateStr with
          | None => mret (fail (invalidDate dateStr))
          | Some date =>
              match getSession s sessionID with
              | fail err => mret (fail err)
              | ok session =>
                  r ← azubiheft.GetReportWeekID hops session date;
                  match r with
                  | fail err => mret (fail (wrapError "failed to get week ID: " err))
                  | ok weekID =>
                      mret (ok ("Week ID for " +:+ dateStr +:+ ": " +:+ weekID))
                  end
              end
          end
      end
  end.

End Service.
End azubiheftserver.

(** ** A remote application to run the program against *)

Module fixture.
Import html http azubiheft.

(** A week tile of the overview page:
    [<div class="mo NBox" onclick="...NachweisNr=nr"><div class="KW">
     <div>KW</div><div class="sKW">kw</div><div>year</div></div></div>]. *)
Definition tile (kw year nr : string) : Node :=
  element "div"
    [("class", "mo NBox"); ("onclick", "location.href='Wochenansicht.aspx?NachweisNr=" +:+ nr +:+ "'")]
    [element "div" [("class", "KW")]
       [element "div" [] [text "KW"];
        element "div" [("class", "sKW")] [text kw];
        element "div" [] [text year]]].

(** A day entry of the report page:
    [<div class="d0 mo" data-seq="seq"><div class="row1 d3">Art: art</div>
     <div class="row2 d4">dauer</div><div class="row7 d5">body</div></div>]. *)
Definition dayEntry (seq art dauer : string) (body : list Node) : Node :=
  element "div" [("class", "d0 mo"); ("data-seq", seq)]
    [element "div" [("class", "row1 d3")] [text ("Art: " +:+ art)];
     element "div" [("class", "row2 d4")] [text dauer];
     element "div" [("class", "row7 d5")] body].

Definition page (nodes : list Node) : Response :=
  {| StatusCode := 200; Location := ""; SetCookie := [];
     Content := ok {| http.Text := ""; Tree := document [element "html" [] [element "body" [] nodes]] |};
     Partial := "" |}.

Definition redirectTo (u : string) : Response :=
  {| StatusCode := 302; Location := u; SetCookie := [];
     Content := ok {| http.Text := ""; Tree := document [] |}; Partial := "" |}.

Definition overviewURL : string := baseURL +:+ "/Azubi/Ausbildungsnachweise.aspx".
Definition reportURL (dateStr : string) : string :=
  baseURL +:+ "/Azubi/Tagesbericht.aspx?Datum=" +:+ dateStr.

(** A remote application that serves one overview page and one report
    page, whatever came before, and accepts every other request. *)
Definition serve (overview report : Response) : list Request -> Request -> result Response :=
  fun _ req =>
    if String.eqb (URL req) overviewURL then ok overview
    else if strings.HasPrefix (URL req) (baseURL +:+ "/Azubi/Tagesbericht.aspx") then ok report
    else ok (page []).

Definition world (overview report : Response) : World :=
  {| remote := serve overview report; sent := []; jars := ∅; clock := 1700000000;
     uuids := fun n => "uuid-" +:+ strconv.Itoa (Z.of_nat n); drawn := 0 |}.

(** A session, as [NewSession] makes it in a world without stores. *)
Definition session : Session :=
  {| client := {| Jar := fresh (∅ : gset nat); CheckRedirect := Some (fun _ _ => None) |} |}.

(** Monday, 1 January 2024: ISO week 1 of 2024. *)
Definition monday : time.Time := time.Date 2024 1 1.

(** Week 1 of 2024 listed twice, under two identifiers. *)
Definition twoTiles : Response := page [tile "1" "2024" "111"; tile " 1 " "2024" "222"].

(** Only week 52 of 2023 listed. *)
Definition otherWeek : Response := page [tile "52" "2023" "99"].

(** A day with two entries and one unused slot. *)
Definition twoEntries : Response :=
  page [dayEntry "7" "Betrieb" "01:30" [text "hello"; element "br" [] []; text "world"];
        dayEntry "8" "Schule" " 00:00 " [];
        dayEntry "9" "Schule" "02:00" [text "a b+c"]].

(** A day whose one entry has a sequence number below zero. *)
Definition signedEntry : Response := page [dayEntry "-7" "Betrieb" "01:30" [text "x"]].

(** The world after more requests went out. *)
Definition after (w : World) (more : list (nat * Request)) : World :=
  {| remote := remote w; sent := sent w ++ more; jars := jars w;
     clock := clock w; uuids := uuids w; drawn := drawn w |}.

Definition GET (u : string) : nat * Request := (O, NewRequest "GET" u "").

(** The deletion request of an entry, as it goes out. *)
Definition DELETE (dateStr weekID : string) (timestamp : Z) (entry : ReportEntry)
  : nat * Request :=
  (O, deleteRequest dateStr weekID timestamp entry).

(** A registry with the session under the default handle, and the
    arguments of a [azubiheft_write_report] call without a handle. *)
Definition service : azubiheftserver.AzubiheftService :=
  {| azubiheftserver.sessions := {["default" := session]};
     azubiheftserver.defaultSessionID := "default" |}.

Definition writeArgs : azubiheftserver.Args :=
  {[ "date" := azubiheftserver.VString "2024-01-01";
     "message" := azubiheftserver.VString "hello";
     "time_spent" := azubiheftserver.VString "01:30";
     "entry_type" := azubiheftserver.VNumber 2%Q ]}.

(** A remote application that takes every login: each page carries the
    logout control and the session cookie. *)
Definition loggedInPage : Response :=
  {| StatusCode := 200; Location := ""; SetCookie := [("ASP.NET_SessionId", "k3")];
     Content := ok {| http.Text := "<a id=" +:+ quote +:+ "Abmelden" +:+ quote +:+ ">Abmelden</a>";
                      Tree := document
                                [element "html" []
                                   [element "body" []
                                      [element "a" [("id", "Abmelden")] [text "Abmelden"]]]] |};
     Partial := "" |}.

Definition loggedInWorld : World :=
  {| remote := fun _ _ => ok loggedInPage; sent := []; jars := ∅; clock := 1700000000;
     uuids := fun n => "uuid-" +:+ strconv.Itoa (Z.of_nat n); drawn := 0 |}.

(** The document of a page. *)
Definition docOf (resp : Response) : goquery.Selection :=
  match Content resp with
  | ok pg => goquery.Document (Tree pg)
  | fail _ => []
  end.

End fixture.


(** ** The vocabulary of the properties *)

Module spec.
Import http azubiheft.

(** What the program reads off a week tile: the calendar week, the year
    and the report identifier. *)
Definition tileWeek (sel : goquery.Selection) : option Z :=
  strconv.Atoi (strings.TrimSpace (goquery.Text (goquery.Find sel (goquery.div ["sKW"])))).

Definition tileYear (sel : goquery.Selection) : option Z :=
  strconv.Atoi
    (strings.TrimSpace
       (goquery.Text
          (goquery.Eq (goquery.Find (goquery.Find sel (goquery.div ["KW"])) (goquery.div [])) 2))).

Definition tileReport (sel : goquery.Selection) : option string :=
  regexp.FindDigitsAfter "NachweisNr=" (fst (goquery.Attr sel "onclick")).

(** The tile is one of the given ISO week and year. *)
Definition tileMatches (year week : Z) (sel : goquery.Selection) : bool :=
  bool_decide (tileWeek sel = Some week ∧ tileYear sel = Some year).

(** The first tile of the week, which the specification names. *)
Definition firstMatching (year week : Z) (tiles : list goquery.Selection)
  : option goquery.Selection :=
  List.find (tileMatches year week) tiles.

(** The identifiers of the tiles of the week that carry one, in document
    order. *)
Definition matchingReports (year week : Z) (tiles : list goquery.Selection) : list string :=
  omap (fun sel => if tileMatches year week sel then tileReport sel else None) tiles.

(** The errors of the specification's taxonomy that the claims name. *)
Definition NotFoundError (week year : Z) : error :=
  errorString ("no report found for week " +:+ strconv.Itoa week +:+ "/" +:+ strconv.Itoa year).

Definition ValidationError (entryNumber : Z) : error :=
  errorString ("invalid entry number: " +:+ strconv.Itoa entryNumber).

Definition MissingHandleError : error := errorString "session_id is required".

(** The duration the program reads off a day entry. *)
Definition entryDuration (entry : goquery.Selection) : string :=
  strings.TrimSpace (goquery.Text (goquery.Find entry (goquery.div ["row2"; "d4"]))).

(** The two lookups as calls of the client. *)
Definition reportCall (date : time.Time) : string * string * string :=
  ("GET", baseURL +:+ "/Azubi/Tagesbericht.aspx?Datum=" +:+ time.Format20060102 date, "").

Definition overviewCall : string * string * string :=
  ("GET", baseURL +:+ "/Azubi/Ausbildungsnachweise.aspx", "").

(** The deletion call of an entry. *)
Definition deleteCall (date : time.Time) (weekID : string) (timestamp : Z) (entry : ReportEntry)
  : string * string * string :=
  ("POST", reqURL (time.Format20060102 date) weekID timestamp, url.Encode (deleteForm entry)).

Definition writeCall (date : time.Time) (weekID : string) (timestamp : Z)
    (message timeSpent : string) (entryType : Z) : string * string * string :=
  ("POST", reqURL (time.Format20060102 date) weekID timestamp,
   url.Encode (writeForm message timeSpent entryType)).

Definition isPOST (call : string * string * string) : bool := String.eqb (fst (fst call)) "POST".

(** The week lookups among the calls of a stretch of the wire. *)
Definition lookups (l : list (nat * Request)) : nat :=
  List.length (List.filter (fun call => bool_decide (call = overviewCall)) (calls l)).

(** Every request of the stretch, redirects included, is a GET. *)
Definition onlyGET (l : list (nat * Request)) : Prop :=
  Forall (fun e => Method (snd e) = "GET") l.

Definition outOfRange (reports : list ReportEntry) (n : Z) : Prop :=
  n < 1 ∨ Z.of_nat (List.length reports) < n.

(** The entries a call of [DeleteReport] aims at: all of them without an
    entry number, the one of that number (counted from 1) with it. *)
Definition targets (reports : list ReportEntry) (entryNumber : option Z) : list ReportEntry :=
  match entryNumber with
  | None => reports
  | Some n =>
      if bool_decide (outOfRange reports n) then []
      else option_list (reports !! Z.to_nat (n - 1))
  end.



Fixpoint occurs (c : ascii) (s : string) : bool :=
  match s with
  | EmptyString => false
  | String c' s' => Ascii.eqb c c' || occurs c s'
  end.

Definition digitsOnly (s : string) : bool :=
  negb (String.eqb s "") && forallb strconv.isDigit (strings.bytes s).

(** The statuses [redirectBehavior] takes for a redirect. *)
Definition isRedirect (resp : Response) : bool :=
  let code := StatusCode resp in
  (code =? 301) || (code =? 302) || (code =? 303) || (code =? 307) || (code =? 308).

(** The reading of the specification: a redirect response reaches the
    caller as it is. *)
Definition redirect_as_signal_reading : Prop :=
  ∀ hops w s w1 req resp w2,
    NewSession w = Some (s, w1) →
    send (client s) O req w1 = (ok resp, w2) →
    isRedirect resp = true →
    Do hops (client s) req w1 = Some (ok resp, w2).

(** The service holds a default session. *)
Definition hasDefault (svc : azubiheftserver.AzubiheftService) (session : Session) : Prop :=
  azubiheftserver.defaultSessionID svc ≠ ""
  ∧ azubiheftserver.sessions svc !! azubiheftserver.defaultSessionID svc = Some session.

(** The operations of the service that take a session handle and leave
    the registry as it is ([Logout], which removes the session, goes by
    itself). *)
Definition handleOperations (hops : nat)
  : list (azubiheftserver.AzubiheftService → azubiheftserver.Args → M (result string)) :=
  [ azubiheftserver.IsLoggedIn hops; azubiheftserver.GetSubjects hops;
    azubiheftserver.AddSubject hops; azubiheftserver.DeleteSubject hops;
    azubiheftserver.GetReport hops; azubiheftserver.WriteReport hops;
    azubiheftserver.DeleteReport hops; azubiheftserver.GetWeekID hops ].

Definition handleRequired (hops : nat)
  : list (azubiheftserver.AzubiheftService → azubiheftserver.Args → M (result string)) :=
  [ azubiheftserver.IsLoggedIn hops;
    azubiheftserver.AddSubject hops; azubiheftserver.DeleteSubject hops;
    azubiheftserver.GetReport hops; azubiheftserver.WriteReport hops;
    azubiheftserver.DeleteReport hops; azubiheftserver.GetWeekID hops ].

(** The reading of the specification: with a default session in place,
    no operation called without a handle fails for the want of one. *)
Definition default_handle_reading : Prop :=
  ∀ hops op svc session (args : azubiheftserver.Args) w r w',
    op ∈ handleOperations hops →
    hasDefault svc session →
    args !! "session_id" = None →
    op svc args w = Some (r, w') →
    r ≠ fail MissingHandleError.

(** The reading of the specification: an entry number out of range is
    answered by the validation error, whatever the week. *)
Definition out_of_range_reading : Prop :=
  ∀ hops s date n w reports w1 r w',
    GetReport hops s date false w = Some (ok reports, w1) →
    reports ≠ [] →
    outOfRange reports n →
    DeleteReport hops s date (Some n) w = Some (r, w') →
    r = Some (ValidationError n).

(** The reading of the specification: one week lookup for each entry
    aimed at. *)
Definition lookup_per_entry_reading : Prop :=
  ∀ hops s date w reports w1 w',
    GetReport hops s date false w = Some (ok reports, w1) →
    DeleteReport hops s date None w = Some (None, w') →
    ∃ extra, sent w' = sent w ++ extra ∧ lookups extra = List.length reports.

(** The reading of the specification: the [Seq] field of the deletion
    call of an entry is the numeral of the negation of the entry's
    sequence number, whatever that number is. *)
Definition negated_seq_reading : Prop :=
  ∀ hops s date entryNumber w reports w1 weekID w2 w',
    GetReport hops s date false w = Some (ok reports, w1) →
    reports ≠ [] →
    GetReportWeekID hops s date w1 = Some (ok weekID, w2) →
    DeleteReport hops s date entryNumber w = Some (None, w') →
    ∃ extra,
      sent w' = sent w ++ extra
      ∧ calls extra
        = reportCall date :: overviewCall ::
          List.map (fun entry =>
                      ("POST", reqURL (time.Format20060102 date) weekID (clock w),
                       url.Encode (deleteForm entry))) (targets reports entryNumber)
      ∧ Forall (fun entry =>
                  ∀ k, strconv.Atoi (Seq entry) = Some k →
                       strconv.Atoi (url.Get (deleteForm entry) "Seq") = Some (- k))
               (targets reports entryNumber).

(** The reading of the specification: the identifier of the first tile of
    the week is the result. *)
Definition first_tile_reading : Prop :=
  ∀ hops s date w resp w1 doc tile nr,
    Get hops (client s) (baseURL +:+ "/Azubi/Ausbildungsnachweise.aspx") w = Some (ok resp, w1) →
    NewDocumentFromReader resp = ok doc →
    firstMatching (time.ISOWeek date).1 (time.ISOWeek date).2 (weekTiles doc) = Some tile →
    tileReport tile = Some nr →
    GetReportWeekID hops s date w = Some (ok nr, w1).

End spec.

(** ** package mcp *)

Module mcp.
Import azubiheftserver.

(** [Tool]: the schema is the decoded JSON object the caller hands in. *)
Record Tool := { Name : string; Description : string; InputSchema : Value }.

(** [JSONRPCRequest] as [json.Unmarshal] fills it: [ID] is [VNil] when the
    line has none, [Params] is empty when the line has none. *)
Record JSONRPCRequest := {
  JSONRPC : string;
  ID : Value;
  Method : string;
  Params : gmap string Value
}.

Record RPCError := { Code : Z; Message : string; Data : Value }.

Record ContentItem := { Type_ : string; Text : string }.

Record ToolResult := { Content : list ContentItem; IsError : bool }.

Record ToolsCapability := { }.

Record Capabilities := { Tools : option ToolsCapability }.

Record ServerInfo := { ServerName : string; ServerVersion : string }.

Record InitializeResult := {
  ProtocolVersion : string;
  ServerCapabilities : Capabilities;
  Info : ServerInfo
}.

(** What the server puts in the [Result] field of a response. *)
Inductive Result :=
| OfInitialize (r : InitializeResult)
| OfToolsList (tools : list Tool)    (* the map with the one key [tools] *)
| OfPing                             (* the empty map *)
| OfToolsCall (r : ToolResult).

(** [JSONRPCResponse]; [None] for a nil [Result] or [Error]. *)
Record JSONRPCResponse := {
  Version : string;
  ResponseID : Value;
  ResponseResult : option Result;
  ResponseError : option RPCError
}.

(** [sendResponse] writes one line to the standard output; what the server
    wrote is the list of the responses, oldest first.  ([json.Marshal]
    takes every response the server builds.) *)
Definition sendResponse (response : JSONRPCResponse) : list JSONRPCResponse := [response].

Definition sendResult (id : Value) (r : Result) : list JSONRPCResponse :=
  sendResponse {| Version := "2.0"; ResponseID := id;
                  ResponseResult := Some r; ResponseError := None |}.

Definition sendError (id : Value) (code : Z) (message : string) (data : Value)
  : list JSONRPCResponse :=
  sendResponse {| Version := "2.0"; ResponseID := id; ResponseResult := None;
                  ResponseError := Some {| Code := code; Message := message; Data := data |} |}.

(** The members of a decoded JSON object as a Go map (each key once). *)
Definition toMap (members : list (string * Value)) : Args := list_to_map members.

Section Server.

(** What the handlers act on. *)
Variable State : Type.

(** [ToolHandler]: the context carries nothing.  [None] is a handler the
    model cut short (see [http.M]). *)
Definition ToolHandler := Args → State → option (result string * State).

(** [Server]; the logger leaves no trace in the responses. *)
Record Server := {
  name : string;
  version : string;
  tools : gmap string Tool;
  handlers : gmap string ToolHandler
}.

Definition NewServer (name version : string) : Server :=
  {| name := name; version := version; tools := ∅; handlers := ∅ |}.

Definition RegisterTool (s : Server) (toolName description : string) (inputSchema : Value)
    (handler : ToolHandler) : Server :=
  let tool := {| Name := toolName; Description := description; InputSchema := inputSchema |} in
  {| name := name s; version := version s;
     tools := <[toolName := tool]> (tools s);
     handlers := <[toolName := handler]> (handlers s) |}.

Definition handleInitialize (s : Server) (req : JSONRPCRequest) : list JSONRPCResponse :=
  let result :=
    {| ProtocolVersion := "2024-11-05";
       ServerCapabilities := {| Tools := Some Build_ToolsCapability |};
       Info := {| ServerName := name s; ServerVersion := version s |} |} in
  sendResult (ID req) (OfInitialize result).

(** [handleToolsList]: Go ranges over the map in no fixed order; the list
    here is in the order of [map_to_list]. *)
Definition handleToolsList (s : Server) (req : JSONRPCRequest) : list JSONRPCResponse :=
  let tools := List.map snd (map_to_list (tools s)) in
  sendResult (ID req) (OfToolsList tools).

Definition handleToolsCall (s : Server) (req : JSONRPCRequest) (st : State)
  : option (list JSONRPCResponse * State) :=
  match asString (Params req) "name" with
  | None => Some (sendError (ID req) (-32602) "Invalid params: missing tool name" VNil, st)
  | Some toolName =>
      let args : Args :=
        match Params req !! "arguments" with
        | Some (VObject members) => toMap members
        | _ => ∅
        end in
      match handlers s !! toolName with
      | None => Some (sendError (ID req) (-32601) ("Tool not found: " +:+ toolName) VNil, st)
      | Some handler =>
          match handler args st with
          | None => None
          | Some (fail err, st') =>
              Some (sendResult (ID req)
                      (OfToolsCall {| Content := [ {| Type_ := "text";
                                                      Text := "Error: " +:+ Error err |} ];
                                      IsError := true |}), st')
          | Some (ok result, st') =>
              Some (sendResult (ID req)
                      (OfToolsCall {| Content := [ {| Type_ := "text"; Text := result |} ];
                                      IsError := false |}), st')
          end
      end
  end.

Definition handleRequest (s : Server) (req : JSONRPCRequest) (st : State)
  : option (list JSONRPCResponse * State) :=
  if String.eqb (Method req) "initialize" then Some (handleInitialize s req, st)
  else if String.eqb (Method req) "tools/list" then Some (handleToolsList s req, st)
  else if String.eqb (Method req) "tools/call" then handleToolsCall s req st
  else if String.eqb (Method req) "ping" then Some (sendResult (ID req) OfPing, st)
  else Some (sendError (ID req) (-32601) "Method not found" VNil, st).

(** [json.Unmarshal(line, &req)]: the request of a line, [None] for the
    error of a line that is no request. *)
Variable Unmarshal : string → option JSONRPCRequest.

(** The lines [reader.ReadBytes('\n')] returns before the end of the
    input, each with its line feed: what stands after the last line feed
    comes with [io.EOF] and is not a line.  [cur] is the line under way. *)
Fixpoint readLines (cur input : string) : list string :=
  match input with
  | EmptyString => []
  | String c rest =>
      if Ascii.eqb c "010" then (cur +:+ String c "") :: readLines "" rest
      else readLines (cur +:+ String c "") rest
  end.

(** The loop of [Serve] over the lines read. *)
Fixpoint serveLines (s : Server) (lines : list string) (st : State)
  : option (list JSONRPCResponse * State) :=
  match lines with
  | [] => Some ([], st)
  | line :: rest =>
      let step :=
        match Unmarshal line with
        | None => Some (sendError VNil (-32700) "Parse error" VNil, st)
        | Some req => handleRequest s req st
        end in
      match step with
      | None => None
      | Some (out, st') =>
          match serveLines s rest st' with
          | None => None
          | Some (out', st'') => Some (out ++ out', st'')
          end
      end
  end.

(** [Serve] on a standard input that ends: it returns nil at the end. *)
Definition Serve (s : Server) (input : string) (st : State)
  : option (list JSONRPCResponse * State) :=
  serveLines s (readLines "" input) st.

End Server.

Arguments name {State} _.
Arguments version {State} _.
Arguments tools {State} _.
Arguments handlers {State} _.
Arguments RegisterTool {State} _ _ _ _ _.
Arguments handleInitialize {State} _ _.
Arguments handleToolsList {State} _ _.
Arguments handleToolsCall {State} _ _ _.
Arguments handleRequest {State} _ _ _.
Arguments serveLines {State} _ _ _ _.
Arguments Serve {State} _ _ _ _.

End mcp.

(** ** package main *)

Module main.
Import http azubiheftserver.

(** The schema literals of [registerTools], as the JSON objects they
    are: a property with its type and description, and an object schema
    with its properties and, when the literal has the key, its list of
    required properties. *)
Definition property (ty description : string) : Value :=
  VObject [("type", VString ty); ("description", VString description)].

Definition schema (properties : list (string * Value)) (required : option (list string))
  : Value :=
  VObject ([("type", VString "object"); ("properties", VObject properties)] ++
           match required with
           | Some keys => [("required", VArray (List.map VString keys))]
           | None => []
           end).

(** What the handlers of the service act on: the service and the world. *)
Definition State : Type := AzubiheftService * World.

(** A method of the service as a [ToolHandler]: one that leaves the
    registry as it is, and one that returns the registry it leaves. *)
Definition method (f : AzubiheftService → Args → M (result string)) : mcp.ToolHandler State :=
  fun args st =>
    match f st.1 args st.2 with
    | Some (r, w') => Some (r, (st.1, w'))
    | None => None
    end.

Definition methodOnRegistry (f : AzubiheftService → Args → M (result string * AzubiheftService))
  : mcp.ToolHandler State :=
  fun args st =>
    match f st.1 args st.2 with
    | Some ((r, service), w') => Some (r, (service, w'))
    | None => None
    end.

Section Main.

Variable hops : nat.

Definition registerTools (s : mcp.Server State) : mcp.Server State :=
  let s := mcp.RegisterTool s
    "azubiheft_login"
    "Authenticates a user and creates a session"
    (schema [ ("username", property "string" "The user's username");
              ("password", property "string" "The user's password") ]
            (Some ["username"; "password"]))
    (methodOnRegistry (Login hops)) in
  let s := mcp.RegisterTool s
    "azubiheft_logout"
    "Terminates the current user session"
    (schema [ ("session_id", property "string" "Session ID from login") ]
            (Some ["session_id"]))
    (methodOnRegistry (Logout hops)) in
  let s := mcp.RegisterTool s
    "azubiheft_is_logged_in"
    "Checks if a user is currently logged in"
    (schema [ ("session_id", property "string" "Session ID to check") ]
            (Some ["session_id"]))
    (method (IsLoggedIn hops)) in
  let s := mcp.RegisterTool s
    "azubiheft_get_subjects"
    "Retrieves the complete list of subjects (both static and user-defined). If credentials were provided via environment variables, session_id can be omitted."
    (schema [ ("session_id",
               property "string" "Session ID from login (optional if using auto-login)") ]
            None)
    (method (GetSubjects hops)) in
  let s := mcp.RegisterTool s
    "azubiheft_add_subject"
    "Adds a new custom subject to the user's subject list"
    (schema [ ("session_id", property "string" "Session ID from login");
              ("subject_name", property "string" "Name of the new subject") ]
            (Some ["session_id"; "subject_name"]))
    (method (AddSubject hops)) in
  let s := mcp.RegisterTool s
    "azubiheft_delete_subject"
    "Removes a subject from the user's subject list"
    (schema [ ("session_id", property "string" "Session ID from login");
              ("subject_id", property "string" "ID of the subject to delete") ]
            (Some ["session_id"; "subject_id"]))
    (method (DeleteSubject hops)) in
  let s := mcp.RegisterTool s
    "azubiheft_get_report"
    "Retrieves all report entries for a specific date"
    (schema [ ("session_id", property "string" "Session ID from login");
              ("date", property "string" "Date in YYYY-MM-DD format");
              ("include_formatting",
               property "boolean" "Whether to include HTML formatting (default: false)") ]
            (Some ["session_id"; "date"]))
    (method (GetReport hops)) in
  let s := mcp.RegisterTool s
    "azubiheft_write_report"
    "Writes a single report entry for a specific date"
    (schema [ ("session_id", property "string" "Session ID from login");
              ("date", property "string" "Date in YYYY-MM-DD format");
              ("message", property "string" "Content of the report");
              ("time_spent", property "string" "Duration in HH:MM format (must not be 00:00)");
              ("entry_type",
               property "number" "Subject ID (1-7 for static, higher for user-defined)") ]
            (Some ["session_id"; "date"; "message"; "time_spent"; "entry_type"]))
    (method (WriteReport hops)) in
  let s := mcp.RegisterTool s
    "azubiheft_delete_report"
    "Deletes one or all report entries for a specific date"
    (schema [ ("session_id", property "string" "Session ID from login");
              ("date", property "string" "Date in YYYY-MM-DD format");
              ("entry_number", property "number" "Entry number to delete (omit to delete all)") ]
            (Some ["session_id"; "date"]))
    (method (DeleteReport hops)) in
  mcp.RegisterTool s
    "azubiheft_get_week_id"
    "Retrieves the week ID for a given date (required for report operations)"
    (schema [ ("session_id", property "string" "Session ID from login");
              ("date", property "string" "Date in YYYY-MM-DD format") ]
            (Some ["session_id"; "date"]))
    (method (GetWeekID hops)).

Variable Unmarshal : string → option mcp.JSONRPCRequest.

(** [main]: [username] and [password] are the two environment variables,
    [stdin] the standard input; the result is what the server wrote,
    with the registry it ends on. *)
Definition main (username password stdin : string)
  : M (list mcp.JSONRPCResponse * AzubiheftService) :=
  fun w =>
    let mcpServer := mcp.NewServer State "Azubiheft MCP Server" "1.0.0" in
    match NewAzubiheftService hops username password w with
    | None => None
    | Some (azubiheftService, w1) =>
        let mcpServer := registerTools mcpServer in
        match mcp.Serve Unmarshal mcpServer stdin (azubiheftService, w1) with
        | None => None
        | Some (out, (service, w2)) => Some ((out, service), w2)
        end
    end.

End Main.
End main.

(** ** More vocabulary, and more of the remote application *)

Module more.
Import html http azubiheft.

Definition subjectsURL : string := baseURL +:+ "/Azubi/SetupSchulfach.aspx".
Definition loginURL : string := baseURL +:+ "/Login.aspx".

Definition subjectsCall : string * string * string := ("GET", subjectsURL, "").
Definition probeCall : string * string * string := ("GET", baseURL +:+ "/Azubi/Default.aspx", "").
Definition loginPageCall : string * string * string := ("GET", loginURL, "").

Definition postCall (u : string) (form : url.Values) : string * string * string :=
  ("POST", u, url.Encode form).

(** The mark of a page served to a user who is logged in. *)
Definition logoutControl : string := "id=" +:+ quote +:+ "Abmelden" +:+ quote.

Definition usernameKey : string := "ctl00$ContentPlaceHolder1$txt_Benutzername".
Definition passwordKey : string := "ctl00$ContentPlaceHolder1$txt_Passwort".
Definition deletionKey : string := "ctl00$ContentPlaceHolder1$HiddenLöschIDs".

(** The form [Login] submits, with the tokens of the login page. *)
Definition loginForm (doc : goquery.Selection) (username password : string) : url.Values :=
  [ ("__VIEWSTATE", attrValue doc "__VIEWSTATE");
    ("__VIEWSTATEGENERATOR", attrValue doc "__VIEWSTATEGENERATOR");
    ("__EVENTVALIDATION", attrValue doc "__EVENTVALIDATION");
    (usernameKey, username);
    (passwordKey, password);
    ("ctl00$ContentPlaceHolder1$chk_Persistent", "on");
    ("ctl00$ContentPlaceHolder1$cmd_Login", "Anmelden");
    ("ctl00$ContentPlaceHolder1$HiddenField_isMobile", "false") ].

(** The keys of a form. *)
Definition keys (form : url.Values) : list string := List.map fst form.

(** The fields of a form that every submission of the subject page has. *)
Definition fixedKeys : list string :=
  ["__VIEWSTATE"; "__VIEWSTATEGENERATOR"; "__EVENTVALIDATION";
   "ctl00$ContentPlaceHolder1$cmd_Save"].

(** What the program reads off an input of the subject page. *)
Definition inputID (sel : goquery.Selection) : string := fst (goquery.Attr sel "id").
Definition inputValue (sel : goquery.Selection) : string := fst (goquery.Attr sel "value").

(** The forms [AddSubject] and [DeleteSubject] submit, from the subject
    page they fetched. *)
Definition addSubjectForm (doc : goquery.Selection) (timestamp : Z) (subjectName : string)
  : url.Values :=
  url.Set_
    (fold_left AddSubject_each (existingSubjectInputs doc)
       [ ("__VIEWSTATE", attrValue doc "__VIEWSTATE");
         ("__VIEWSTATEGENERATOR", attrValue doc "__VIEWSTATEGENERATOR");
         ("__EVENTVALIDATION", attrValue doc "__EVENTVALIDATION");
         ("ctl00$ContentPlaceHolder1$cmd_Save", "Speichern") ])
    ("txt" +:+ strconv.Itoa timestamp) subjectName.

Definition deleteSubjectForm (doc : goquery.Selection) (subjectID : string) : url.Values :=
  fold_left (DeleteSubject_each subjectID) (existingSubjectInputs doc)
    [ ("__VIEWSTATE", attrValue doc "__VIEWSTATE");
      ("__VIEWSTATEGENERATOR", attrValue doc "__VIEWSTATEGENERATOR");
      ("__EVENTVALIDATION", attrValue doc "__EVENTVALIDATION");
      (deletionKey, "," +:+ subjectID);
      ("ctl00$ContentPlaceHolder1$cmd_Save", "Speichern") ].

(** The inputs under [#divSchulfach], in the order of the page, and the
    custom subjects they stand for: an input counts when it has the
    attributes [data-default] and [value] and its value is not empty;
    the first attribute is the identifier, the second the name. *)
Definition subjectInputs (doc : goquery.Selection) : list goquery.Selection :=
  goquery.Each
    (goquery.Find (goquery.Find doc [goquery.Id "divSchulfach"]) [goquery.Tag "input"]).

Definition isSubject (sel : goquery.Selection) : bool :=
  snd (goquery.Attr sel "data-default") && snd (goquery.Attr sel "value")
  && negb (String.eqb (fst (goquery.Attr sel "value")) "").

Definition subjectOf (sel : goquery.Selection) : Subject :=
  {| ID := fst (goquery.Attr sel "data-default"); Name := fst (goquery.Attr sel "value") |}.

Definition customSubjects (doc : goquery.Selection) : list Subject :=
  List.map subjectOf (List.filter isSubject (subjectInputs doc)).

(** A response whose body breaks after some bytes. *)
Definition brokenBody (status : Z) (read : string) : Response :=
  {| StatusCode := status; Location := ""; SetCookie := [];
     Content := fail (errorString "unexpected EOF"); Partial := read |}.

(** A remote application that lists week 52 of 2023 and gives one
    answer to every POST. *)
Definition answering (answer : Response) : World :=
  {| remote := fun _ req => if String.eqb (Method req) "POST" then ok answer
                            else ok fixture.otherWeek;
     sent := []; jars := ∅; clock := 5;
     uuids := fun n => "uuid-" +:+ strconv.Itoa (Z.of_nat n); drawn := 0 |}.

(** The inputs of the subject page whose value is not empty. *)
Definition filled (doc : goquery.Selection) : list goquery.Selection :=
  List.filter (fun sel => negb (String.eqb (inputValue sel) "")) (existingSubjectInputs doc).

(** An entry without its text. *)
Definition shape (entry : ReportEntry) : string * string * string :=
  (Seq entry, Type_ entry, Duration entry).

(** The properties a tool schema lists as required. *)
Definition required (inputSchema : azubiheftserver.Value) : list string :=
  match inputSchema with
  | azubiheftserver.VObject members =>
      match List.find (fun kv => String.eqb (fst kv) "required") members with
      | Some (_, azubiheftserver.VArray l) =>
          omap (fun v => match v with azubiheftserver.VString k => Some k | _ => None end) l
      | _ => []
      end
  | _ => []
  end.

(** A text with no line feed in it. *)
Definition oneLine (s : string) : Prop := spec.occurs "010" s = false.

(** A subject page with three inputs under [#divSchulfach]: one custom
    subject, one input without a value and one without a name. *)
Definition subjectsPage : Response :=
  fixture.page
    [ element "input" [("id", "__VIEWSTATE"); ("value", "vs1")] [];
      element "div" [("id", "divSchulfach")]
        [ element "input" [("id", "ctl00_ContentPlaceHolder1_txt1699999999");
                           ("data-default", "1699999999"); ("value", "Sport")] [];
          element "input" [("id", "ctl00_ContentPlaceHolder1_txtNeu");
                           ("data-default", "0"); ("value", "Kunst")] [];
          element "input" [("id", "ctl00_ContentPlaceHolder1_txt1700000001");
                           ("data-default", "1700000001"); ("value", "")] [];
          element "input" [("id", "ctl00_ContentPlaceHolder1_txt1700000002");
                           ("value", "Musik")] [] ] ].

(** A remote application that answers every request with one response. *)
Definition always (resp : Response) : World :=
  {| remote := fun _ _ => ok resp; sent := []; jars := ∅; clock := 1700000000;
     uuids := fun n => "uuid-" +:+ strconv.Itoa (Z.of_nat n); drawn := 0 |}.

(** A remote application out of reach. *)
Definition unreachable : World :=
  {| remote := fun _ _ => fail (errorString "dial tcp: connection refused");
     sent := []; jars := ∅; clock := 1700000000;
     uuids := fun n => "uuid-" +:+ strconv.Itoa (Z.of_nat n); drawn := 0 |}.

(** A day whose only slot is unused. *)
Definition emptyDay : Response := fixture.page [fixture.dayEntry "1" "Betrieb" "00:00" []].

(** The type a tool schema declares for a property. *)
Definition declared (inputSchema : azubiheftserver.Value) (key : string) : option string :=
  match inputSchema with
  | azubiheftserver.VObject members =>
      match List.find (fun kv => String.eqb (fst kv) "properties") members with
      | Some (_, azubiheftserver.VObject props) =>
          match List.find (fun kv => String.eqb (fst kv) key) props with
          | Some (_, azubiheftserver.VObject fields) =>
              match List.find (fun kv => String.eqb (fst kv) "type") fields with
              | Some (_, azubiheftserver.VString ty) => Some ty
              | _ => None
              end
          | _ => None
          end
      | _ => None
      end
  | _ => None
  end.

(** Whether a value is of a declared type, as a Go type assertion on the
    decoded value sees it. *)
Definition hasType (ty : string) (v : azubiheftserver.Value) : bool :=
  match v with
  | azubiheftserver.VString _ => String.eqb ty "string"
  | azubiheftserver.VNumber _ => String.eqb ty "number"
  | azubiheftserver.VBool _ => String.eqb ty "boolean"
  | _ => false
  end.

(** An argument is supplied: present, and of the type the schema
    declares for it. *)
Definition supplied (inputSchema : azubiheftserver.Value) (args : azubiheftserver.Args)
    (key : string) : bool :=
  match declared inputSchema key, args !! key with
  | Some ty, Some v => hasType ty v
  | _, _ => false
  end.

(** The error of an argument the service misses. *)
Definition missing (key : string) : error := errorString (key +:+ " is required").

(** The servers a program can build: a new one, with tools registered. *)
Inductive built {State : Type} : mcp.Server State → Prop :=
| built_new (name version : string) : built (mcp.NewServer State name version)
| built_register (s : mcp.Server State) (toolName description : string)
    (inputSchema : azubiheftserver.Value) (handler : mcp.ToolHandler State) :
    built s → built (mcp.RegisterTool s toolName description inputSchema handler).

(** The server of [main], before it serves. *)
Definition server (hops : nat) : mcp.Server main.State :=
  main.registerTools hops (mcp.NewServer main.State "Azubiheft MCP Server" "1.0.0").

(** The line feeds of a text. *)
Fixpoint lineFeeds (s : string) : nat :=
  match s with
  | EmptyString => O
  | String c rest => ((if Ascii.eqb c "010" then 1 else 0) + lineFeeds rest)%nat
  end.

(** A response that reports a failure: a JSON-RPC error, or the result
    of a tool call flagged as an error. *)
Definition failed (resp : mcp.JSONRPCResponse) : Prop :=
  match mcp.ResponseResult resp with
  | Some (mcp.OfToolsCall r) => mcp.IsError r = true
  | Some _ => False
  | None => mcp.ResponseError resp ≠ None
  end.

(** A request that calls a tool. *)
Definition callsTool (req : mcp.JSONRPCRequest) (toolName : string) : Prop :=
  mcp.Method req = "tools/call"
  ∧ azubiheftserver.asString (mcp.Params req) "name" = Some toolName.

(** A registry without sessions. *)
Definition emptyService : azubiheftserver.AzubiheftService :=
  {| azubiheftserver.sessions := ∅; azubiheftserver.defaultSessionID := "" |}.

(** Requests, and a decoder that knows four lines, for the examples. *)
Definition request (id : Z) (method : string) (params : list (string * azubiheftserver.Value))
  : mcp.JSONRPCRequest :=
  {| mcp.JSONRPC := "2.0"; mcp.ID := azubiheftserver.VNumber (inject_Z id);
     mcp.Method := method; mcp.Params := list_to_map params |}.

Definition LF : string := String "010" "".

Definition decode (line : string) : option mcp.JSONRPCRequest :=
  if String.eqb line ("ping" +:+ LF) then Some (request 1 "ping" [])
  else if String.eqb line ("list" +:+ LF) then Some (request 2 "tools/list" [])
  else if String.eqb line ("subjects" +:+ LF)
  then Some (request 3 "tools/call" [("name", azubiheftserver.VString "azubiheft_get_subjects")])
  else if String.eqb line ("week" +:+ LF)
  then Some (request 4 "tools/call"
               [("name", azubiheftserver.VString "azubiheft_get_week_id");
                ("arguments",
                 azubiheftserver.VObject
                   [("session_id", azubiheftserver.VString "default");
                    ("date", azubiheftserver.VString "2024-01-01")])])
  else None.


(** The arguments of a tool call as the handler gets them: the object
    under [arguments], the empty map when the request has none or has
    anything else there. *)
Definition argumentsOf (req : mcp.JSONRPCRequest) : azubiheftserver.Args :=
  match mcp.Params req !! "arguments" with
  | Some (azubiheftserver.VObject members) => mcp.toMap members
  | _ => ∅
  end.

(** What a tool call answers with, for what the handler returned. *)
Definition toolResult (r : result string) : mcp.ToolResult :=
  match r with
  | ok text => {| mcp.Content := [ {| mcp.Type_ := "text"; mcp.Text := text |} ];
                  mcp.IsError := false |}
  | fail err => {| mcp.Content := [ {| mcp.Type_ := "text";
                                       mcp.Text := "Error: " +:+ Error err |} ];
                   mcp.IsError := true |}
  end.

(** The tools of [registerTools], each with the method of the service it
    is registered with. *)
Definition wiring (hops : nat) : list (string * mcp.ToolHandler main.State) :=
  [ ("azubiheft_login", main.methodOnRegistry (azubiheftserver.Login hops));
    ("azubiheft_logout", main.methodOnRegistry (azubiheftserver.Logout hops));
    ("azubiheft_is_logged_in", main.method (azubiheftserver.IsLoggedIn hops));
    ("azubiheft_get_subjects", main.method (azubiheftserver.GetSubjects hops));
    ("azubiheft_add_subject", main.method (azubiheftserver.AddSubject hops));
    ("azubiheft_delete_subject", main.method (azubiheftserver.DeleteSubject hops));
    ("azubiheft_get_report", main.method (azubiheftserver.GetReport hops));
    ("azubiheft_write_report", main.method (azubiheftserver.WriteReport hops));
    ("azubiheft_delete_report", main.method (azubiheftserver.DeleteReport hops));
    ("azubiheft_get_week_id", main.method (azubiheftserver.GetWeekID hops)) ].

End more.

(** ** Properties *)

Import http azubiheft spec fixture.

(** Two messages that differ in their first byte are two errors. *)
Ltac by_head H :=
  apply (f_equal (fun e => match e with
                           | errorString (String c _) => Some c
                           | _ => None
                           end)) in H;
  lazy in H; discriminate H.

(** *** The wire *)

Lemma calls_app (l1 l2 : list (nat * Request)) : calls (l1 ++ l2) = calls l1 ++ calls l2.
Proof. unfold calls. now rewrite List.filter_app, List.map_app. Qed.

Lemma line_withCookies jar req : line (withCookies jar req) = line req.
Proof. now destruct jar. Qed.

Lemma Method_withCookies jar req : Method (withCookies jar req) = Method req.
Proof. now destruct jar. Qed.

Lemma calls_hops (l : list (nat * Request)) :
  Forall (fun e => (0 < fst e)%nat) l → calls l = [].
Proof.
  induction 1 as [|[h q] l Hh _ IH]; [reflexivity|].
  unfold calls in *. simpl in *. destruct h; [lia|]. exact IH.
Qed.

Lemma onlyGET_app l1 l2 : onlyGET l1 → onlyGET l2 → onlyGET (l1 ++ l2).
Proof. unfold onlyGET. intros. now apply Forall_app. Qed.

Lemma redirectBehavior_GET resp m b :
  redirectBehavior "GET" resp = Some (m, b) → m = "GET".
Proof.
  unfold redirectBehavior.
  repeat match goal with |- context [if ?c then _ else _] => destruct c end;
    simpl; congruence.
Qed.

(** What one call of the client puts on the wire: the request it was given
    (with the cookies of the store), then the hops of the redirects. *)
Lemma do_sent hops c ireq : ∀ via req w r w',
  do hops c ireq via req w = Some (r, w') →
  ∃ extra,
    sent w' = sent w ++ (List.length via, withCookies (default [] (jars w !! Jar c)) req) :: extra
    ∧ Forall (fun e => (List.length via < fst e)%nat) extra
    ∧ (Method req = "GET" → Forall (fun e => Method (snd e) = "GET") extra).
Proof.
  induction hops as [|hops IH]; intros via req w r w' H; simpl in H.
  all: destruct (remote w (List.map snd (sent w)) _) as [resp|err] eqn:Hr;
    [|inversion H; subst; exists []; simpl; auto].
  all: destruct (redirectBehavior (Method req) resp) as [[m b]|] eqn:Hb;
    [|inversion H; subst; exists []; simpl; auto].
  all: destruct (String.eqb (Location resp) ""); [inversion H; subst; exists []; simpl; auto|].
  all: destruct (checkRedirect c _ _) as [e|];
    [destruct (isErrUseLastResponse e); inversion H; subst; exists []; simpl; auto|].
  - discriminate.
  - apply IH in H. destruct H as (extra & Hs & Hh & Hg). simpl in Hs.
    eexists (_ :: extra). split; [rewrite Hs, <- List.app_assoc; reflexivity|]. split.
    + constructor; [rewrite length_app; simpl; lia|].
      eapply List.Forall_impl; [|exact Hh]. intros e He. simpl in He.
      rewrite length_app in He. simpl in He. lia.
    + intros Hm. rewrite Hm in Hb. apply redirectBehavior_GET in Hb. subst m.
      constructor; [cbn [snd]; now rewrite Method_withCookies|]. now apply Hg.
Qed.

Lemma Do_sent hops c req w r w' :
  Do hops c req w = Some (r, w') →
  ∃ extra, sent w' = sent w ++ extra ∧ calls extra = [line req]
           ∧ (Method req = "GET" → onlyGET extra).
Proof.
  intros H. apply do_sent in H. destruct H as (extra & Hs & Hh & Hg).
  eexists. split; [exact Hs|]. split.
  - change (?x :: extra) with ([x] ++ extra). rewrite calls_app.
    rewrite (calls_hops extra) by (eapply List.Forall_impl; [|exact Hh]; simpl; intros; lia).
    unfold calls. simpl. now rewrite line_withCookies.
  - intros Hm. constructor; [cbn [snd]; now rewrite Method_withCookies|]. now apply Hg.
Qed.

(** The world changes on the wire and in the cookie stores only. *)
Lemma do_clock hops c ireq : ∀ via req w r w',
  do hops c ireq via req w = Some (r, w') → clock w' = clock w.
Proof.
  induction hops as [|hops IH]; intros via req w r w' H; simpl in H.
  all: destruct (remote w (List.map snd (sent w)) _) as [resp|err]; [|now inversion H].
  all: destruct (redirectBehavior (Method req) resp) as [[m b]|]; [|now inversion H].
  all: destruct (String.eqb (Location resp) ""); [now inversion H|].
  all: destruct (checkRedirect c _ _) as [e|];
    [destruct (isErrUseLastResponse e); now inversion H|].
  - discriminate.
  - apply IH in H. exact H.
Qed.

(** *** Week resolution *)

Lemma Attr_absent sel name : snd (goquery.Attr sel name) = false → fst (goquery.Attr sel name) = "".
Proof.
  unfold goquery.Attr. destruct sel as [|[p n] sel]; [reflexivity|].
  now destruct (List.find _ _).
Qed.

Lemma Length_0 (sel : goquery.Selection) : (goquery.Length sel =? 0) = true → sel = [].
Proof. unfold goquery.Length. destruct sel; [reflexivity|]. simpl. lia. Qed.

Lemma Eq_short (sel : goquery.Selection) : (goquery.Length sel <? 3) = true → goquery.Eq sel 2 = [].
Proof.
  unfold goquery.Eq. intros H. simpl.
  destruct (goquery.Length sel <=? 2) eqn:E; [reflexivity|lia].
Qed.

Lemma matchHere_nonempty marker s run : regexp.matchHere marker s = Some run → run ≠ "".
Proof.
  unfold regexp.matchHere. destruct (strings.HasPrefix s marker); [|discriminate].
  destruct (regexp.digitRun _); [discriminate|]. intros [= <-]. discriminate.
Qed.

Lemma FindDigitsAfter_nonempty marker s run :
  regexp.FindDigitsAfter marker s = Some run → run ≠ "".
Proof.
  induction s as [|c s IH]; simpl;
    destruct (regexp.matchHere marker _) as [r|] eqn:E; try discriminate; try exact IH.
  all: intros [= <-]; eapply matchHere_nonempty; exact E.
Qed.

(** The step of the scan, by what it reads off the tile: a tile of the
    week that carries an identifier replaces the identifier held so far,
    any other tile leaves it. *)
Lemma GetReportWeekID_each_reads year week weekID sel :
  GetReportWeekID_each year week weekID sel =
  if tileMatches year week sel then default weekID (tileReport sel) else weekID.
Proof.
  unfold GetReportWeekID_each, tileMatches, tileReport, tileWeek, tileYear.
  pose proof (Attr_absent sel "onclick") as Hab.
  destruct (goquery.Attr sel "onclick") as [onclick exists_]. cbn [fst snd] in *.
  destruct exists_; cbn [negb].
  2:{ rewrite Hab by reflexivity. cbn. now destruct (bool_decide _). }
  clear Hab.
  destruct (goquery.Length (goquery.Find sel (goquery.div ["sKW"])) =? 0) eqn:E1.
  { apply Length_0 in E1. rewrite E1.
    rewrite bool_decide_eq_false_2; [reflexivity|]. intros [? _]. discriminate. }
  destruct (goquery.Length (goquery.Find sel (goquery.div ["KW"])) =? 0) eqn:E2.
  { apply Length_0 in E2. rewrite E2. 
    rewrite bool_decide_eq_false_2; [reflexivity|]. intros [_ ?]. discriminate. }
  destruct (goquery.Length _ <? 3) eqn:E3.
  { rewrite (Eq_short _ E3). 
    rewrite bool_decide_eq_false_2; [reflexivity|]. intros [_ ?]. discriminate. }
  destruct (strconv.Atoi (strings.TrimSpace (goquery.Text (goquery.Find sel _)))) as [kw|].
  2:{ rewrite bool_decide_eq_false_2; [reflexivity|]. intros [? _]. discriminate. }
  destruct (strconv.Atoi _) as [kwYear|].
  2:{ rewrite bool_decide_eq_false_2; [reflexivity|]. intros [_ ?]. discriminate. }
  destruct (Z.eqb_spec kw week) as [->|Hw]; cbn [andb].
  - destruct (Z.eqb_spec kwYear year) as [->|Hy].
    + rewrite bool_decide_eq_true_2 by auto. now destruct (regexp.FindDigitsAfter _ _).
    + rewrite bool_decide_eq_false_2; [reflexivity|]. intros [_ ?]. congruence.
  - rewrite bool_decide_eq_false_2; [reflexivity|]. intros [? _]. congruence.
Qed.

(** The scan ends on the identifier of the last tile of the week that
    carries one. *)
Lemma scan_last year week tiles : ∀ weekID,
  fold_left (GetReportWeekID_each year week) tiles weekID =
  default weekID (last (matchingReports year week tiles)).
Proof.
  unfold matchingReports.
  induction tiles as [|sel tiles IH]; intros weekID; [reflexivity|].
  simpl. rewrite IH, GetReportWeekID_each_reads.
  destruct (tileMatches year week sel); [|reflexivity].
  destruct (tileReport sel) as [nr|]; [|reflexivity].
  simpl. rewrite last_cons. now destruct (last _).
Qed.

Lemma matchingReports_nonempty year week tiles nr :
  nr ∈ matchingReports year week tiles → nr ≠ "".
Proof.
  unfold matchingReports. rewrite list_elem_of_omap. intros (sel & _ & H).
  destruct (tileMatches year week sel); [|discriminate].
  eapply FindDigitsAfter_nonempty. exact H.
Qed.

(** [GetReportWeekID] once the overview page is in hand. *)
Lemma GetReportWeekID_scan hops s date w resp w1 doc :
  Get hops (client s) (baseURL +:+ "/Azubi/Ausbildungsnachweise.aspx") w = Some (ok resp, w1) →
  NewDocumentFromReader resp = ok doc →
  GetReportWeekID hops s date w =
  Some (match last (matchingReports (time.ISOWeek date).1 (time.ISOWeek date).2 (weekTiles doc)) with
        | Some nr => ok nr
        | None => fail (NotFoundError (time.ISOWeek date).2 (time.ISOWeek date).1)
        end, w1).
Proof.
  intros HGet Hdoc. unfold GetReportWeekID. unfold mbind, M_bind. rewrite HGet, Hdoc.
  destruct (time.ISOWeek date) as [year week]. cbn [fst snd].
  rewrite scan_last.
  destruct (last _) as [nr|] eqn:El; simpl.
  - apply last_Some_elem_of, matchingReports_nonempty in El.
    destruct (String.eqb_spec nr ""); [contradiction|reflexivity].
  - reflexivity.
Qed.

(** C1, refuted as stated: on an overview page that lists week 1 of 2024
    twice, under the identifiers 111 and 222, [GetReportWeekID] returns 222,
    the identifier of the second tile, where the claim names the first. *)
Lemma GetReportWeekID_not_first_tile : ¬ first_tile_reading.
Proof.
  intros H.
  specialize (H O session monday (world twoTiles twoEntries) twoTiles
                (after (world twoTiles twoEntries) [GET overviewURL])
                (docOf twoTiles) [([0; 0; 0]%nat, tile "1" "2024" "111")] "111"
                eq_refl eq_refl eq_refl eq_refl).
  vm_compute in H. discriminate H.
Qed.

(** No tile of the week: the lookup fails with the not-found error. *)
Lemma GetReportWeekID_no_tile hops s date w resp w1 doc :
  Get hops (client s) (baseURL +:+ "/Azubi/Ausbildungsnachweise.aspx") w = Some (ok resp, w1) →
  NewDocumentFromReader resp = ok doc →
  firstMatching (time.ISOWeek date).1 (time.ISOWeek date).2 (weekTiles doc) = None →
  GetReportWeekID hops s date w
  = Some (fail (NotFoundError (time.ISOWeek date).2 (time.ISOWeek date).1), w1).
Proof.
  intros HGet Hdoc Hnone. rewrite (GetReportWeekID_scan _ _ _ _ _ _ _ HGet Hdoc).
  replace (matchingReports _ _ (weekTiles doc)) with (@nil string); [reflexivity|].
  unfold firstMatching in Hnone. unfold matchingReports.
  induction (weekTiles doc) as [|sel tiles IH]; [reflexivity|].
  simpl in *. destruct (tileMatches _ _ sel); [discriminate|]. now apply IH.
Qed.

(** C1 (amended): for every date, once the overview page is fetched and
    read, [GetReportWeekID] returns the report identifier of the last week
    tile whose calendar week and year equal the ISO week and year of the
    date and whose [onclick] carries an identifier, and fails with the
    not-found error when there is no such tile. *)
Theorem GetReportWeekID_last_matching_tile hops s date w resp w1 doc :
  Get hops (client s) (baseURL +:+ "/Azubi/Ausbildungsnachweise.aspx") w = Some (ok resp, w1) →
  NewDocumentFromReader resp = ok doc →
  let year := (time.ISOWeek date).1 in
  let week := (time.ISOWeek date).2 in
  GetReportWeekID hops s date w =
    Some (match last (matchingReports year week (weekTiles doc)) with
          | Some nr => ok nr
          | None => fail (NotFoundError week year)
          end, w1)
  ∧ (firstMatching year week (weekTiles doc) = None →
     GetReportWeekID hops s date w = Some (fail (NotFoundError week year), w1)).
Proof.
  intros HGet Hdoc year week. split.
  - exact (GetReportWeekID_scan _ _ _ _ _ _ _ HGet Hdoc).
  - intros Hnone. exact (GetReportWeekID_no_tile _ _ _ _ _ _ _ HGet Hdoc Hnone).
Qed.

Lemma GetReportWeekID_last_matching_tile_witness :
  Get O (client session) (baseURL +:+ "/Azubi/Ausbildungsnachweise.aspx") (world twoTiles twoEntries)
    = Some (ok twoTiles, after (world twoTiles twoEntries) [GET overviewURL])
  ∧ GetReportWeekID O session monday (world twoTiles twoEntries)
    = Some (ok "222", after (world twoTiles twoEntries) [GET overviewURL]).
Proof.
  split; [reflexivity|].
  exact (proj1 (GetReportWeekID_last_matching_tile O session monday
                  (world twoTiles twoEntries) twoTiles _ _ eq_refl eq_refl)).
Defined.

(** *** The guard on an empty duration *)

(** C2: whatever the date, the message and the subject, [WriteReport] with
    the duration [00:00] returns nil and leaves the world as it was: not
    one request goes out. *)
Theorem WriteReport_0000_no_call hops s date message entryType w :
  WriteReport hops s date message "00:00" entryType w = Some (None, w).
Proof. reflexivity. Qed.

Lemma GetReport_each_Duration includeFormatting entry : ∀ entries,
  Forall (fun e => Duration e ≠ "00:00") entries →
  Forall (fun e => Duration e ≠ "00:00") (GetReport_each includeFormatting entries entry).
Proof.
  intros entries H. unfold GetReport_each. fold (entryDuration entry).
  destruct (String.eqb_spec (entryDuration entry) "00:00") as [|Hne]; [exact H|].
  apply Forall_app. split; [exact H|]. constructor; [exact Hne|constructor].
Qed.

Lemma GetReport_fold_Duration includeFormatting containers : ∀ entries,
  Forall (fun e => Duration e ≠ "00:00") entries →
  Forall (fun e => Duration e ≠ "00:00")
         (fold_left (GetReport_each includeFormatting) containers entries).
Proof.
  induction containers as [|entry containers IH]; intros entries H; [exact H|].
  simpl. apply IH. now apply GetReport_each_Duration.
Qed.

(** C3: in both modes, no entry of the list [GetReport] returns has the
    duration [00:00], and a container whose duration reads [00:00] adds
    nothing to the list. *)
Theorem GetReport_no_0000 hops s date includeFormatting w entries w' :
  GetReport hops s date includeFormatting w = Some (ok entries, w') →
  Forall (fun e => Duration e ≠ "00:00") entries
  ∧ ∀ sofar entry, entryDuration entry = "00:00" →
      GetReport_each includeFormatting sofar entry = sofar.
Proof.
  intros H. split.
  - unfold GetReport in H. unfold mbind, M_bind, mret, M_ret in H.
    destruct (Get _ _ _ _) as [[[resp|err] w1]|]; [|discriminate..].
    destruct (NewDocumentFromReader resp) as [doc|err]; [|discriminate].
    injection H as <- <-. apply GetReport_fold_Duration. constructor.
  - intros sofar entry Hd. unfold GetReport_each. fold (entryDuration entry).
    now rewrite Hd.
Qed.

Lemma GetReport_no_0000_witness :
  GetReport O session monday true (world twoTiles twoEntries)
    = Some (ok [ {| Seq := "7"; Type_ := "Betrieb"; Duration := "01:30";
                    Text := "hello" +:+ String "010" "world" |};
                 {| Seq := "9"; Type_ := "Schule"; Duration := "02:00"; Text := "a b+c" |} ],
            after (world twoTiles twoEntries) [GET (reportURL "20240101")])
  ∧ Forall (fun e => Duration e ≠ "00:00")
      [ {| Seq := "7"; Type_ := "Betrieb"; Duration := "01:30";
           Text := "hello" +:+ String "010" "world" |};
        {| Seq := "9"; Type_ := "Schule"; Duration := "02:00"; Text := "a b+c" |} ].
Proof.
  split; [reflexivity|].
  exact (proj1 (GetReport_no_0000 O session monday true (world twoTiles twoEntries) _ _ eq_refl)).
Defined.

(** *** The calls of the operations *)

Lemma Get_sent hops c u w r w' :
  Get hops c u w = Some (r, w') →
  clock w' = clock w
  ∧ ∃ extra, sent w' = sent w ++ extra ∧ calls extra = [("GET", u, "")] ∧ onlyGET extra.
Proof.
  intros H. split; [exact (do_clock _ _ _ _ _ _ _ _ H)|].
  apply Do_sent in H. destruct H as (extra & Hs & Hc & Hg).
  exists extra. auto.
Qed.

Lemma GetReportWeekID_sent hops s date w r w' :
  GetReportWeekID hops s date w = Some (r, w') →
  clock w' = clock w
  ∧ ∃ extra, sent w' = sent w ++ extra ∧ calls extra = [overviewCall] ∧ onlyGET extra.
Proof.
  unfold GetReportWeekID. unfold mbind, M_bind, mret, M_ret.
  destruct (Get _ _ _ _) as [[rr w1]|] eqn:HGet; [|discriminate].
  apply Get_sent in HGet. intros H.
  assert (w' = w1) as ->; [|exact HGet].
  destruct rr as [resp|err]; [|now inversion H].
  destruct (NewDocumentFromReader resp); [|now inversion H].
  destruct (time.ISOWeek date). destruct (String.eqb _ _); now inversion H.
Qed.

Lemma GetReport_sent hops s date includeFormatting w r w' :
  GetReport hops s date includeFormatting w = Some (r, w') →
  clock w' = clock w
  ∧ ∃ extra, sent w' = sent w ++ extra ∧ calls extra = [reportCall date] ∧ onlyGET extra.
Proof.
  unfold GetReport. unfold mbind, M_bind, mret, M_ret.
  destruct (Get _ _ _ _) as [[rr w1]|] eqn:HGet; [|discriminate].
  apply Get_sent in HGet. intros H.
  assert (w' = w1) as ->; [|exact HGet].
  destruct rr as [resp|err]; [|now inversion H].
  destruct (NewDocumentFromReader resp); now inversion H.
Qed.

Lemma deleteEntries_sent hops s dateStr weekID timestamp : ∀ entries w r w',
  deleteEntries hops s dateStr weekID timestamp entries w = Some (r, w') →
  ∃ extra done,
    sent w' = sent w ++ extra
    ∧ calls extra = List.map (fun e => line (deleteRequest dateStr weekID timestamp e)) done
    ∧ done `prefix_of` entries
    ∧ (r = None → done = entries)
    ∧ (∀ n, r ≠ Some (ValidationError n)).
Proof.
  induction entries as [|entry rest IH]; intros w r w' H; simpl in H.
  - inversion H; subst. exists [], []. rewrite app_nil_r. repeat split; auto; discriminate.
  - unfold mbind, M_bind, mret, M_ret in H.
    destruct (Do _ _ _ _) as [[rr w1]|] eqn:HDo; [|discriminate].
    apply Do_sent in HDo. destruct HDo as (extra & Hs & Hc & _).
    assert (Hstop : ∀ e : error, (∀ n, e ≠ ValidationError n) → Some (Some e, w1) = Some (r, w') →
      ∃ extra done,
        sent w' = sent w ++ extra
        ∧ calls extra = List.map (fun e => line (deleteRequest dateStr weekID timestamp e)) done
        ∧ done `prefix_of` entry :: rest
        ∧ (r = None → done = entry :: rest)
        ∧ (∀ n, r ≠ Some (ValidationError n))).
    { intros e He [= <- <-]. exists extra, [entry]. repeat split; auto.
      - exists rest. reflexivity.
      - discriminate.
      - intros n [= Hn]. exact (He n Hn). }
    destruct rr as [resp|err].
    + destruct (StatusCode resp =? StatusOK); simpl in H.
      * apply IH in H. destruct H as (extra' & done & Hs' & Hc' & Hp & Hd & Hv).
        exists (extra ++ extra'), (entry :: done). repeat split.
        -- now rewrite Hs', Hs, List.app_assoc.
        -- rewrite calls_app, Hc, Hc'. reflexivity.
        -- now apply prefix_cons.
        -- intros Hr. now rewrite (Hd Hr).
        -- exact Hv.
      * refine (Hstop _ _ H). intros n Hn. by_head Hn.
    + refine (Hstop _ _ H). intros n Hn. discriminate Hn.
Qed.

(** [DeleteReport] beyond the fetch of a day with entries: the week
    lookup comes next, whatever the entry number. *)
Lemma DeleteReport_steps hops s date entryNumber w reports w1 :
  GetReport hops s date false w = Some (ok reports, w1) →
  reports ≠ [] →
  DeleteReport hops s date entryNumber w =
  match GetReportWeekID hops s date w1 with
  | None => None
  | Some (fail err, w2) => Some (Some err, w2)
  | Some (ok weekID, w2) =>
      match entryNumber with
      | None => deleteEntries hops s (time.Format20060102 date) weekID (clock w2) reports w2
      | Some n =>
          if (n <? 1) || (Z.of_nat (List.length reports) <? n)
          then Some (Some (ValidationError n), w2)
          else deleteEntries hops s (time.Format20060102 date) weekID (clock w2)
                 (firstn 1 (skipn (Z.to_nat (n - 1)) reports)) w2
      end
  end.
Proof.
  intros HG Hne. unfold DeleteReport. unfold mbind at 1. unfold M_bind at 1. rewrite HG.
  destruct reports as [|e reports]; [contradiction|].
  change (Z.of_nat (List.length (e :: reports)) =? 0) with false. cbv iota.
  unfold mbind, M_bind, mret, M_ret.
  destruct (GetReportWeekID hops s date w1) as [[[weekID|err] w2]|]; try reflexivity.
  unfold Now_Unix. destruct entryNumber as [n|]; [|reflexivity].
  destruct ((n <? 1) || _); reflexivity.
Qed.

Lemma deleteCall_line date weekID timestamp entry :
  line (deleteRequest (time.Format20060102 date) weekID timestamp entry)
  = deleteCall date weekID timestamp entry.
Proof. reflexivity. Qed.

Lemma slice_lookup (reports : list ReportEntry) (k : nat) :
  firstn 1 (skipn k reports) = option_list (reports !! k).
Proof.
  revert k. induction reports as [|e reports IH]; intros [|k]; simpl; auto.
Qed.

Lemma range_check reports n :
  ((n <? 1) || (Z.of_nat (List.length reports) <? n)) = bool_decide (outOfRange reports n).
Proof.
  unfold outOfRange. case_bool_decide as H.
  - destruct H; [destruct (Z.ltb_spec n 1); [reflexivity|lia]|].
    destruct (Z.ltb_spec (Z.of_nat (List.length reports)) n); [apply orb_true_r|lia].
  - destruct (Z.ltb_spec n 1); [lia|]. destruct (Z.ltb_spec (Z.of_nat (List.length reports)) n); [lia|].
    reflexivity.
Qed.

(** The calls of a [DeleteReport] whose two lookups succeed: the report
    page, the overview, then the deletion calls of the entries aimed at,
    in order, up to the first that fails. *)
Lemma DeleteReport_sent hops s date entryNumber w reports w1 weekID w2 r w' :
  GetReport hops s date false w = Some (ok reports, w1) →
  reports ≠ [] →
  GetReportWeekID hops s date w1 = Some (ok weekID, w2) →
  DeleteReport hops s date entryNumber w = Some (r, w') →
  ∃ extra done,
    sent w' = sent w ++ extra
    ∧ calls extra
      = reportCall date :: overviewCall :: List.map (deleteCall date weekID (clock w)) done
    ∧ done `prefix_of` targets reports entryNumber
    ∧ (r = None → done = targets reports entryNumber).
Proof.
  intros HG Hne HW HD.
  rewrite (DeleteReport_steps _ _ _ _ _ _ _ HG Hne), HW in HD.
  apply GetReport_sent in HG. destruct HG as (Hc1 & e1 & Hs1 & Hl1 & _).
  apply GetReportWeekID_sent in HW. destruct HW as (Hc2 & e2 & Hs2 & Hl2 & _).
  rewrite Hc2, Hc1 in HD.
  assert (Hdel : ∀ entries, deleteEntries hops s (time.Format20060102 date) weekID (clock w)
                               entries w2 = Some (r, w') →
    ∃ extra done,
      sent w' = sent w ++ extra
      ∧ calls extra
        = reportCall date :: overviewCall :: List.map (deleteCall date weekID (clock w)) done
      ∧ done `prefix_of` entries ∧ (r = None → done = entries)).
  { intros entries H. apply deleteEntries_sent in H.
    destruct H as (e3 & done & Hs3 & Hl3 & Hp & Hd & _).
    exists (e1 ++ e2 ++ e3), done. repeat split; auto.
    - now rewrite Hs3, Hs2, Hs1, <- !List.app_assoc.
    - rewrite !calls_app, Hl1, Hl2, Hl3. reflexivity. }
  destruct entryNumber as [n|]; simpl; [|now apply Hdel].
  rewrite range_check in HD. rewrite slice_lookup in HD.
  case_bool_decide.
  - injection HD as <- <-. exists (e1 ++ e2), []. repeat split.
    + now rewrite Hs2, Hs1, <- List.app_assoc.
    + rewrite calls_app, Hl1, Hl2. reflexivity.
    + apply prefix_nil.
  - now apply Hdel.
Qed.

(** *** Deleting entries *)

Lemma GetReport_error hops s date includeFormatting w err w' :
  GetReport hops s date includeFormatting w = Some (fail err, w') →
  ∃ msg inner, err = wrapError msg inner.
Proof.
  unfold GetReport. unfold mbind, M_bind, mret, M_ret.
  destruct (Get _ _ _ _) as [[[resp|e] w1]|]; [|intros [= <- <-]; eauto|discriminate].
  destruct (NewDocumentFromReader resp); [discriminate|]. intros [= <- <-]; eauto.
Qed.

Lemma GetReportWeekID_error hops s date w err w' :
  GetReportWeekID hops s date w = Some (fail err, w') → ∀ n, err ≠ ValidationError n.
Proof.
  unfold GetReportWeekID. unfold mbind, M_bind, mret, M_ret.
  destruct (Get _ _ _ _) as [[[resp|e] w1]|]; [|intros [= <- <-] n Hn; discriminate Hn|discriminate].
  destruct (NewDocumentFromReader resp); [|intros [= <- <-] n Hn; discriminate Hn].
  destruct (time.ISOWeek date). destruct (String.eqb _ _); [|discriminate].
  intros [= <- <-] n Hn. by_head Hn.
Qed.

(** C4, refuted as stated: on a day with entries whose week is not on the
    overview page, [DeleteReport] with the entry number 0 fails with the
    not-found error of the week lookup, not with the validation error. *)
Lemma DeleteReport_out_of_range_not_always_validation : ¬ out_of_range_reading.
Proof.
  intros H.
  specialize (H O session monday 0 (world otherWeek twoEntries)
                [ {| Seq := "7"; Type_ := "Betrieb"; Duration := "01:30"; Text := "helloworld" |};
                  {| Seq := "9"; Type_ := "Schule"; Duration := "02:00"; Text := "a b+c" |} ]
                (after (world otherWeek twoEntries) [GET (reportURL "20240101")])
                (Some (NotFoundError 1 2024))
                (after (world otherWeek twoEntries) [GET (reportURL "20240101"); GET overviewURL])
                eq_refl ltac:(discriminate) ltac:(left; lia) eq_refl).
  vm_compute in H. discriminate H.
Qed.

(** C4 (amended): on a day with entries, [DeleteReport] with an entry
    number below 1 or above the number of entries fails with the
    validation error once the week lookup has succeeded; and whether that
    lookup succeeds or not, the call fails and puts nothing on the wire but
    the GET requests of its two lookups: no deletion call goes out. *)
Theorem DeleteReport_out_of_range hops s date n w reports w1 :
  GetReport hops s date false w = Some (ok reports, w1) →
  reports ≠ [] →
  outOfRange reports n →
  (∀ weekID w2, GetReportWeekID hops s date w1 = Some (ok weekID, w2) →
     DeleteReport hops s date (Some n) w = Some (Some (ValidationError n), w2))
  ∧ (∀ r w', DeleteReport hops s date (Some n) w = Some (r, w') →
     r ≠ None
     ∧ ∃ extra, sent w' = sent w ++ extra
                ∧ calls extra = [reportCall date; overviewCall] ∧ onlyGET extra).
Proof.
  intros HG Hne Hout.
  pose proof (DeleteReport_steps hops s date (Some n) _ _ _ HG Hne) as Hsteps.
  cbv beta iota in Hsteps. rewrite range_check, bool_decide_eq_true_2 in Hsteps by exact Hout.
  split.
  - intros weekID w2 HW. now rewrite Hsteps, HW.
  - intros r w' HD. rewrite Hsteps in HD.
    apply GetReport_sent in HG. destruct HG as (_ & e1 & Hs1 & Hl1 & Hg1).
    destruct (GetReportWeekID hops s date w1) as [[rr w2]|] eqn:HW; [|discriminate].
    apply GetReportWeekID_sent in HW. destruct HW as (_ & e2 & Hs2 & Hl2 & Hg2).
    assert (r ≠ None ∧ w' = w2) as [Hr ->] by (destruct rr; injection HD as <- <-; auto).
    split; [exact Hr|]. exists (e1 ++ e2). repeat split.
    + now rewrite Hs2, Hs1, <- List.app_assoc.
    + now rewrite calls_app, Hl1, Hl2.
    + now apply onlyGET_app.
Qed.

Lemma DeleteReport_out_of_range_witness :
  DeleteReport O session monday (Some 3) (world twoTiles twoEntries)
  = Some (Some (ValidationError 3),
          after (world twoTiles twoEntries) [GET (reportURL "20240101"); GET overviewURL]).
Proof.
  exact (proj1 (DeleteReport_out_of_range O session monday 3 (world twoTiles twoEntries)
                  [ {| Seq := "7"; Type_ := "Betrieb"; Duration := "01:30"; Text := "helloworld" |};
                    {| Seq := "9"; Type_ := "Schule"; Duration := "02:00"; Text := "a b+c" |} ]
                  (after (world twoTiles twoEntries) [GET (reportURL "20240101")])
                  eq_refl ltac:(discriminate) ltac:(right; simpl; lia))
               "222" _ eq_refl).
Defined.

(** C10: in [DeleteReport] with an entry number, on a day with entries, the
    week lookup comes before the range check.  When the lookup fails the
    call fails with the error of the lookup, whatever the entry number, so
    with the not-found error when no tile is of the week of the date; and
    a call that returns the validation error has fetched the report and
    resolved the week before. *)
Theorem DeleteReport_lookup_before_range_check hops s date n w :
  (∀ reports w1 err w2,
     GetReport hops s date false w = Some (ok reports, w1) →
     reports ≠ [] →
     GetReportWeekID hops s date w1 = Some (fail err, w2) →
     DeleteReport hops s date (Some n) w = Some (Some err, w2))
  ∧ (∀ reports w1 resp w2 doc,
     GetReport hops s date false w = Some (ok reports, w1) →
     reports ≠ [] →
     Get hops (client s) (baseURL +:+ "/Azubi/Ausbildungsnachweise.aspx") w1 = Some (ok resp, w2) →
     NewDocumentFromReader resp = ok doc →
     firstMatching (time.ISOWeek date).1 (time.ISOWeek date).2 (weekTiles doc) = None →
     DeleteReport hops s date (Some n) w
     = Some (Some (NotFoundError (time.ISOWeek date).2 (time.ISOWeek date).1), w2))
  ∧ (∀ w',
     DeleteReport hops s date (Some n) w = Some (Some (ValidationError n), w') →
     ∃ reports w1 weekID,
       GetReport hops s date false w = Some (ok reports, w1)
       ∧ reports ≠ [] ∧ outOfRange reports n
       ∧ GetReportWeekID hops s date w1 = Some (ok weekID, w')).
Proof.
  assert (Hfail : ∀ reports w1 err w2,
     GetReport hops s date false w = Some (ok reports, w1) →
     reports ≠ [] →
     GetReportWeekID hops s date w1 = Some (fail err, w2) →
     DeleteReport hops s date (Some n) w = Some (Some err, w2)).
  { intros reports w1 err w2 HG Hne HW.
    now rewrite (DeleteReport_steps _ _ _ _ _ _ _ HG Hne), HW. }
  split; [exact Hfail|]. split.
  - intros reports w1 resp w2 doc HG Hne HGet Hdoc Hnone.
    apply (Hfail _ _ _ _ HG Hne).
    exact (GetReportWeekID_no_tile _ _ _ _ _ _ _ HGet Hdoc Hnone).
  - intros w' HD.
    destruct (GetReport hops s date false w) as [[[reports|err] w1]|] eqn:HG.
    + destruct reports as [|e reports].
      { unfold DeleteReport in HD. unfold mbind at 1 in HD. unfold M_bind at 1 in HD.
        rewrite HG in HD. discriminate HD. }
      assert (Hne : e :: reports ≠ []) by discriminate.
      rewrite (DeleteReport_steps _ _ _ _ _ _ _ HG Hne) in HD.
      destruct (GetReportWeekID hops s date w1) as [[[weekID|err] w2]|] eqn:HW; [| |discriminate].
      * rewrite range_check in HD. case_bool_decide as Hout.
        -- injection HD as <-. eauto 10.
        -- apply deleteEntries_sent in HD. destruct HD as (? & ? & _ & _ & _ & _ & Hv).
           now destruct (Hv n).
      * injection HD as -> <-. now destruct (GetReportWeekID_error _ _ _ _ _ _ HW n).
    + unfold DeleteReport in HD. unfold mbind at 1 in HD. unfold M_bind at 1 in HD.
      rewrite HG in HD. apply GetReport_error in HG. destruct HG as (msg & inner & ->).
      discriminate HD.
    + unfold DeleteReport in HD. unfold mbind at 1 in HD. unfold M_bind at 1 in HD.
      rewrite HG in HD. discriminate HD.
Qed.

Lemma DeleteReport_lookup_before_range_check_witness :
  DeleteReport O session monday (Some 0) (world otherWeek twoEntries)
  = Some (Some (NotFoundError 1 2024),
          after (world otherWeek twoEntries) [GET (reportURL "20240101"); GET overviewURL]).
Proof.
  exact (proj1 (proj2 (DeleteReport_lookup_before_range_check O session monday 0
                         (world otherWeek twoEntries)))
               [ {| Seq := "7"; Type_ := "Betrieb"; Duration := "01:30"; Text := "helloworld" |};
                 {| Seq := "9"; Type_ := "Schule"; Duration := "02:00"; Text := "a b+c" |} ]
               (after (world otherWeek twoEntries) [GET (reportURL "20240101")])
               otherWeek _ (docOf otherWeek)
               eq_refl ltac:(discriminate) eq_refl eq_refl eq_refl).
Defined.

(** *** One week lookup for each call *)

Lemma reportCall_not_overviewCall date : reportCall date ≠ overviewCall.
Proof.
  intros H.
  apply (f_equal (fun call : string * string * string => String.get 31 (snd (fst call)))) in H.
  lazy in H. discriminate H.
Qed.

Lemma isPOST_not_overviewCall call : isPOST call = true → call ≠ overviewCall.
Proof. intros H ->. discriminate H. Qed.

Lemma lookups_calls l posts :
  calls l = overviewCall :: posts →
  Forall (fun call => isPOST call = true) posts →
  lookups l = 1%nat.
Proof.
  intros Hc Hp. unfold lookups. rewrite Hc. cbn [List.filter].
  rewrite bool_decide_eq_true_2 by reflexivity. cbn [List.length]. f_equal.
  clear Hc. induction Hp as [|call posts Hcall _ IH]; [reflexivity|].
  cbn [List.filter]. rewrite bool_decide_eq_false_2 by now apply isPOST_not_overviewCall.
  exact IH.
Qed.

Lemma lookups_report_first date e1 e2 :
  calls e1 = [reportCall date] → lookups (e1 ++ e2) = lookups e2.
Proof.
  intros H. unfold lookups. rewrite calls_app, H. cbn [app List.filter].
  now rewrite bool_decide_eq_false_2 by apply reportCall_not_overviewCall.
Qed.

Lemma writeCall_line date weekID timestamp message timeSpent entryType :
  line (writeRequest (time.Format20060102 date) weekID timestamp
          (writeForm message timeSpent entryType))
  = writeCall date weekID timestamp message timeSpent entryType.
Proof. reflexivity. Qed.

(** The calls of a [WriteReport] that passes the guard: the week lookup,
    then, when that succeeds, the one POST. *)
Lemma WriteReport_sent hops s date message timeSpent entryType w r w' :
  timeSpent ≠ "00:00" →
  WriteReport hops s date message timeSpent entryType w = Some (r, w') →
  ∃ extra,
    sent w' = sent w ++ extra
    ∧ ((∃ err, GetReportWeekID hops s date w = Some (fail err, w') ∧ r = Some err
               ∧ calls extra = [overviewCall])
       ∨ (∃ weekID w1, GetReportWeekID hops s date w = Some (ok weekID, w1)
               ∧ calls extra
                 = [overviewCall; writeCall date weekID (clock w) message timeSpent entryType])).
Proof.
  intros Hne. unfold WriteReport.
  destruct (String.eqb_spec timeSpent "00:00"); [contradiction|].
  unfold mbind at 1. unfold M_bind at 1.
  destruct (GetReportWeekID hops s date w) as [[[weekID|err] w1]|] eqn:HW; [| |discriminate].
  - pose proof (GetReportWeekID_sent _ _ _ _ _ _ HW) as (Hc & e1 & Hs1 & Hl1 & _).
    unfold mbind, M_bind, mret, M_ret, Now_Unix.
    destruct (Do _ _ _ _) as [[rr w2]|] eqn:HDo; [|discriminate].
    apply Do_sent in HDo. destruct HDo as (e2 & Hs2 & Hl2 & _).
    intros H. assert (w' = w2) as ->.
    { destruct rr as [resp|e]; [|now inversion H].
      destruct (StatusCode resp =? StatusOK); cbn [negb] in H;
        try destruct (ReadAll resp); now inversion H. }
    exists (e1 ++ e2). split; [now rewrite Hs2, Hs1, <- List.app_assoc|].
    right. exists weekID, w1. split; [reflexivity|].
    rewrite calls_app, Hl1, Hl2, Hc. reflexivity.
  - intros [= <- <-].
    pose proof (GetReportWeekID_sent _ _ _ _ _ _ HW) as (_ & e1 & Hs1 & Hl1 & _).
    exists e1. split; [exact Hs1|]. left. eauto.
Qed.

(** C7, refuted as stated: deleting the two entries of a day takes one
    week lookup, not one for each entry. *)
Lemma DeleteReport_not_lookup_per_entry : ¬ lookup_per_entry_reading.
Proof.
  intros H.
  destruct (H O session monday (world twoTiles twoEntries)
              [ {| Seq := "7"; Type_ := "Betrieb"; Duration := "01:30"; Text := "helloworld" |};
                {| Seq := "9"; Type_ := "Schule"; Duration := "02:00"; Text := "a b+c" |} ]
              (after (world twoTiles twoEntries) [GET (reportURL "20240101")])
              (after (world twoTiles twoEntries)
                 [ GET (reportURL "20240101"); GET overviewURL;
                   DELETE "20240101" "222" 1700000000
                     {| Seq := "7"; Type_ := "Betrieb"; Duration := "01:30"; Text := "helloworld" |};
                   DELETE "20240101" "222" 1700000000
                     {| Seq := "9"; Type_ := "Schule"; Duration := "02:00"; Text := "a b+c" |} ])
              eq_refl eq_refl) as (extra & Hs & Hl).
  simpl in Hs. subst extra. vm_compute in Hl. discriminate Hl.
Qed.

(** C7 (amended): every [WriteReport] with a duration other than [00:00]
    begins with a week lookup of its own, and so does every [DeleteReport]
    on a day with entries, after the fetch of the day; a call makes that
    one lookup only, before any POST, and a [DeleteReport] uses the one
    identifier it found for all the entries it aims at. *)
Theorem week_lookup_once_per_call hops s date :
  (∀ message timeSpent entryType w r w',
     timeSpent ≠ "00:00" →
     WriteReport hops s date message timeSpent entryType w = Some (r, w') →
     ∃ extra posts,
       sent w' = sent w ++ extra
       ∧ calls extra = overviewCall :: posts
       ∧ Forall (fun call => isPOST call = true) posts
       ∧ lookups extra = 1%nat)
  ∧ (∀ entryNumber w reports w1 r w',
     GetReport hops s date false w = Some (ok reports, w1) →
     reports ≠ [] →
     DeleteReport hops s date entryNumber w = Some (r, w') →
     ∃ extra posts,
       sent w' = sent w ++ extra
       ∧ calls extra = reportCall date :: overviewCall :: posts
       ∧ Forall (fun call => isPOST call = true) posts
       ∧ lookups extra = 1%nat
       ∧ ∀ weekID w2,
           GetReportWeekID hops s date w1 = Some (ok weekID, w2) →
           ∃ done, posts = List.map (deleteCall date weekID (clock w)) done
                   ∧ done `prefix_of` targets reports entryNumber
                   ∧ (r = None → done = targets reports entryNumber)).
Proof.
  split.
  - intros message timeSpent entryType w r w' Hne HWr.
    destruct (WriteReport_sent _ _ _ _ _ _ _ _ _ Hne HWr) as (extra & Hs & [H|H]).
    + destruct H as (err & _ & _ & Hc). exists extra, []. repeat split; auto.
      eapply lookups_calls; eauto.
    + destruct H as (weekID & w1 & _ & Hc).
      exists extra, [writeCall date weekID (clock w) message timeSpent entryType].
      repeat split; eauto.
      eapply lookups_calls; eauto.
  - intros entryNumber w reports w1 r w' HG Hne HD.
    destruct (GetReportWeekID hops s date w1) as [[[weekID|err] w2]|] eqn:HW.
    + destruct (DeleteReport_sent _ _ _ _ _ _ _ _ _ _ _ HG Hne HW HD)
        as (extra & done & Hs & Hc & Hp & Hd).
      assert (Hposts : Forall (fun call => isPOST call = true)
                         (List.map (deleteCall date weekID (clock w)) done))
        by (apply List.Forall_forall; intros call Hin; apply List.in_map_iff in Hin;
            destruct Hin as (e & <- & _); reflexivity).
      exists extra, (List.map (deleteCall date weekID (clock w)) done).
      repeat split; auto.
      * unfold lookups. rewrite Hc. cbn [List.filter].
        rewrite bool_decide_eq_false_2 by apply reportCall_not_overviewCall.
        rewrite bool_decide_eq_true_2 by reflexivity. cbn [List.length]. f_equal.
        clear -Hposts. induction Hposts as [|call posts Hcall _ IH]; [reflexivity|].
        cbn [List.filter]. rewrite bool_decide_eq_false_2 by now apply isPOST_not_overviewCall.
        exact IH.
      * intros weekID' w2' [= <- <-]. eauto.
    + rewrite (DeleteReport_steps _ _ _ _ _ _ _ HG Hne), HW in HD. injection HD as <- <-.
      apply GetReport_sent in HG. destruct HG as (_ & e1 & Hs1 & Hl1 & _).
      apply GetReportWeekID_sent in HW. destruct HW as (_ & e2 & Hs2 & Hl2 & _).
      exists (e1 ++ e2), []. repeat split; auto.
      * now rewrite Hs2, Hs1, <- List.app_assoc.
      * now rewrite calls_app, Hl1, Hl2.
      * rewrite (lookups_report_first date) by exact Hl1. eapply lookups_calls; eauto.
      * discriminate.
    + rewrite (DeleteReport_steps _ _ _ _ _ _ _ HG Hne), HW in HD. discriminate HD.
Qed.

Lemma week_lookup_once_per_call_witness :
  ∃ extra posts,
    sent (after (world twoTiles twoEntries)
            [ GET (reportURL "20240101"); GET overviewURL;
              DELETE "20240101" "222" 1700000000
                {| Seq := "7"; Type_ := "Betrieb"; Duration := "01:30"; Text := "helloworld" |};
              DELETE "20240101" "222" 1700000000
                {| Seq := "9"; Type_ := "Schule"; Duration := "02:00"; Text := "a b+c" |} ])
    = sent (world twoTiles twoEntries) ++ extra
    ∧ calls extra = reportCall monday :: overviewCall :: posts
    ∧ lookups extra = 1%nat.
Proof.
  destruct (proj2 (week_lookup_once_per_call O session monday) None (world twoTiles twoEntries)
              [ {| Seq := "7"; Type_ := "Betrieb"; Duration := "01:30"; Text := "helloworld" |};
                {| Seq := "9"; Type_ := "Schule"; Duration := "02:00"; Text := "a b+c" |} ]
              (after (world twoTiles twoEntries) [GET (reportURL "20240101")])
              None
              (after (world twoTiles twoEntries)
                 [ GET (reportURL "20240101"); GET overviewURL;
                   DELETE "20240101" "222" 1700000000
                     {| Seq := "7"; Type_ := "Betrieb"; Duration := "01:30"; Text := "helloworld" |};
                   DELETE "20240101" "222" 1700000000
                     {| Seq := "9"; Type_ := "Schule"; Duration := "02:00"; Text := "a b+c" |} ])
              eq_refl ltac:(discriminate) eq_refl)
    as (extra & posts & Hs & Hc & _ & Hl & _).
  exists extra, posts. auto.
Defined.

(** *** The deletion call *)

Lemma digits_nonneg s : ∀ acc n, 0 ≤ acc → strconv.digits acc s = Some n → 0 ≤ n.
Proof.
  induction s as [|c s IH]; intros acc n Hacc; simpl.
  - intros [= <-]. exact Hacc.
  - destruct (strconv.isDigit c) eqn:Hc; [|discriminate].
    apply IH. unfold strconv.digitVal. unfold strconv.isDigit in Hc.
    apply andb_true_iff in Hc. destruct Hc as [Hc _]. apply Nat.leb_le in Hc. lia.
Qed.

Lemma isDigit_not_sign c :
  strconv.isDigit c = true → Ascii.eqb c "-" = false ∧ Ascii.eqb c "+" = false.
Proof.
  intros H. split.
  - destruct (Ascii.eqb_spec c "-"); [subst; discriminate H|reflexivity].
  - destruct (Ascii.eqb_spec c "+"); [subst; discriminate H|reflexivity].
Qed.

(** For a sequence number written in digits, the sign in front makes the
    numeral of its negation. *)
Lemma Atoi_negated s k :
  digitsOnly s = true → strconv.Atoi s = Some k → strconv.Atoi ("-" +:+ s) = Some (- k).
Proof.
  unfold digitsOnly. intros Hd. apply andb_true_iff in Hd. destruct Hd as [Hne Hd].
  destruct s as [|c s]; [discriminate Hne|]. simpl in Hd.
  apply andb_true_iff in Hd. destruct Hd as [Hc _].
  destruct (isDigit_not_sign c Hc) as [Hm Hp].
  change ("-" +:+ String c s) with (String "-" (String c s)).
  unfold strconv.Atoi. rewrite Hm, Hp. change (Ascii.eqb "-" "-") with true. cbv iota.
  destruct (strconv.digits 0 (String c s)) as [n|] eqn:En; [|discriminate].
  pose proof (digits_nonneg _ _ _ (Z.le_refl 0) En) as Hn.
  destruct ((strconv.minInt <=? n) && (n <=? strconv.maxInt)) eqn:Er; [|discriminate].
  intros [= <-]. apply andb_true_iff in Er. destruct Er as [_ Hmax]. apply Z.leb_le in Hmax.
  unfold strconv.minInt, strconv.maxInt in *.
  destruct (Z.leb_spec (- 2 ^ 63) (- n)); [|lia].
  destruct (Z.leb_spec (- n) (2 ^ 63 - 1)); [reflexivity|lia].
Qed.

Lemma digits_all acc s n :
  strconv.digits acc s = Some n → forallb strconv.isDigit (strings.bytes s) = true.
Proof.
  revert acc. induction s as [|c s IH]; intros acc; [reflexivity|].
  cbn [strconv.digits]. destruct (strconv.isDigit c) eqn:Hc; [|discriminate].
  intros H. change (strings.bytes (String c s)) with (c :: strings.bytes s).
  cbn [forallb]. rewrite Hc. exact (IH _ H).
Qed.

(** A text behind a minus sign is a numeral only if it is written in
    digits alone. *)
Lemma Atoi_minus_digits s j : strconv.Atoi ("-" +:+ s) = Some j → digitsOnly s = true.
Proof.
  change ("-" +:+ s) with (String "-" s). unfold strconv.Atoi, digitsOnly.
  change (Ascii.eqb "-" "-") with true. cbv iota.
  destruct s as [|c s]; [discriminate|].
  destruct (strconv.digits 0 (String c s)) as [n|] eqn:En; [|discriminate].
  intros _. now rewrite (digits_all _ _ _ En).
Qed.

(** C8, refuted as stated: the field is the sequence text behind a minus
    sign, which is the numeral of the negation only for a number written
    in digits alone.  For the entry with [data-seq="-7"] the call carries
    [Seq=--7], which is no numeral, and not the negation 7. *)
Lemma DeleteReport_seq_not_always_negated : ¬ negated_seq_reading.
Proof.
  intros H.
  destruct (H O session monday None (world twoTiles signedEntry)
              [ {| Seq := "-7"; Type_ := "Betrieb"; Duration := "01:30"; Text := "x" |} ]
              (after (world twoTiles signedEntry) [GET (reportURL "20240101")])
              "222"
              (after (world twoTiles signedEntry) [GET (reportURL "20240101"); GET overviewURL])
              (after (world twoTiles signedEntry)
                 [ GET (reportURL "20240101"); GET overviewURL;
                   DELETE "20240101" "222" 1700000000
                     {| Seq := "-7"; Type_ := "Betrieb"; Duration := "01:30"; Text := "x" |} ])
              eq_refl ltac:(discriminate) eq_refl eq_refl) as (extra & _ & _ & Hneg).
  apply Forall_cons_1 in Hneg as [Hneg _].
  specialize (Hneg (-7) eq_refl). vm_compute in Hneg. discriminate Hneg.
Qed.

(** C8 (amended): the deletion call of each entry [DeleteReport] aims at
    carries, in its [Seq] field, the entry's sequence text behind a minus
    sign; that is the numeral of the negation of the sequence number when
    the text is written in digits alone, and no numeral at all otherwise.
    [Dauer] and [Inhalt] carry the duration and the plain-mode text the
    entry was read with.  The calls go out for the entries aimed at, in
    order, up to the first that fails, after the two lookups. *)
Theorem DeleteReport_posts_negated_seq hops s date entryNumber w reports w1 weekID w2 r w' :
  GetReport hops s date false w = Some (ok reports, w1) →
  reports ≠ [] →
  GetReportWeekID hops s date w1 = Some (ok weekID, w2) →
  DeleteReport hops s date entryNumber w = Some (r, w') →
  ∃ extra done,
    sent w' = sent w ++ extra
    ∧ calls extra
      = reportCall date :: overviewCall ::
        List.map (fun entry =>
                    ("POST", reqURL (time.Format20060102 date) weekID (clock w),
                     url.Encode (deleteForm entry))) done
    ∧ done `prefix_of` targets reports entryNumber
    ∧ (r = None → done = targets reports entryNumber)
    ∧ Forall (fun entry =>
                url.Get (deleteForm entry) "Seq" = "-" +:+ Seq entry
                ∧ url.Get (deleteForm entry) "Dauer" = Duration entry
                ∧ url.Get (deleteForm entry) "Inhalt" = Text entry
                ∧ (∀ k, digitsOnly (Seq entry) = true →
                        strconv.Atoi (Seq entry) = Some k →
                        strconv.Atoi (url.Get (deleteForm entry) "Seq") = Some (- k))
                ∧ (∀ j, strconv.Atoi (url.Get (deleteForm entry) "Seq") = Some j →
                        digitsOnly (Seq entry) = true)) done.
Proof.
  intros HG Hne HW HD.
  destruct (DeleteReport_sent _ _ _ _ _ _ _ _ _ _ _ HG Hne HW HD)
    as (extra & done & Hs & Hc & Hp & Hd).
  exists extra, done. repeat split; auto.
  apply List.Forall_forall. intros entry _. repeat split.
  - intros k Hk Ha. now apply Atoi_negated.
  - intros j. apply Atoi_minus_digits.
Qed.

Lemma DeleteReport_posts_negated_seq_witness :
  ∃ extra,
    sent (after (world twoTiles twoEntries)
            [ GET (reportURL "20240101"); GET overviewURL;
              DELETE "20240101" "222" 1700000000
                {| Seq := "9"; Type_ := "Schule"; Duration := "02:00"; Text := "a b+c" |} ])
    = sent (world twoTiles twoEntries) ++ extra
    ∧ calls extra
      = [ reportCall monday; overviewCall;
          ("POST", reqURL "20240101" "222" 1700000000,
           "Abt_ID=0&Art_ID=0&Dauer=02%3A00&Inhalt=a+b%2Bc&Seq=-9&disablePaste=0&jsVer=12") ].
Proof.
  destruct (DeleteReport_posts_negated_seq O session monday (Some 2) (world twoTiles twoEntries)
              [ {| Seq := "7"; Type_ := "Betrieb"; Duration := "01:30"; Text := "helloworld" |};
                {| Seq := "9"; Type_ := "Schule"; Duration := "02:00"; Text := "a b+c" |} ]
              (after (world twoTiles twoEntries) [GET (reportURL "20240101")])
              "222"
              (after (world twoTiles twoEntries) [GET (reportURL "20240101"); GET overviewURL])
              None
              (after (world twoTiles twoEntries)
                 [ GET (reportURL "20240101"); GET overviewURL;
                   DELETE "20240101" "222" 1700000000
                     {| Seq := "9"; Type_ := "Schule"; Duration := "02:00"; Text := "a b+c" |} ])
              eq_refl ltac:(discriminate) eq_refl eq_refl)
    as (extra & done & Hs & Hc & _ & Hd & _).
  exists extra. split; [exact Hs|]. rewrite Hc, (Hd eq_refl). reflexivity.
Defined.

(** *** The payload of a written report *)

















(** *** The transport of a session *)

Lemma redirectBehavior_None m resp : redirectBehavior m resp = None → isRedirect resp = false.
Proof.
  unfold redirectBehavior, isRedirect.
  destruct (StatusCode resp =? 301), (StatusCode resp =? 302), (StatusCode resp =? 303),
    (StatusCode resp =? 307), (StatusCode resp =? 308); simpl; congruence.
Qed.

(** Under a policy that accepts every redirect, what a call of the client
    returns is no redirect that names a location. *)
Lemma do_final hops c ireq : ∀ via req w r w',
  (∀ req via, checkRedirect c req via = None) →
  do hops c ireq via req w = Some (ok r, w') →
  isRedirect r = true → Location r = "".
Proof.
  induction hops as [|hops IH]; intros via req w r w' Hpol H Hred; simpl in H.
  all: destruct (remote w (List.map snd (sent w)) _) as [resp|err]; [|discriminate H].
  all: destruct (redirectBehavior (Method req) resp) as [[m b]|] eqn:Hb;
    [|injection H as <- <-; apply redirectBehavior_None in Hb; congruence].
  all: destruct (String.eqb_spec (Location resp) "") as [Hloc|Hloc];
    [injection H as <- <-; exact Hloc|].
  all: rewrite Hpol in H.
  - discriminate H.
  - eapply IH; eauto.
Qed.

Lemma send_jars (a : nat) c hop req w :
  Jar c ≠ a → jars (send c hop req w).2 !! a = jars w !! a.
Proof.
  intros Hne. unfold send. cbn [snd jars].
  destruct (remote w _ _) as [resp|err]; [|reflexivity].
  destruct (SetCookie resp); [reflexivity|].
  now rewrite lookup_insert_ne.
Qed.

(** C5, refuted as stated: the client of a new session, asked for a page
    that the remote application answers with a 302 to another address,
    goes to that address by itself and returns the page found there; the
    caller does not see the redirect. *)
Lemma NewSession_follows_redirect : ¬ redirect_as_signal_reading.
Proof.
  intros H.
  specialize (H 1%nat (world (redirectTo (baseURL +:+ "/Azubi/Default.aspx")) twoEntries)
                _ _ (NewRequest "GET" overviewURL "")
                (redirectTo (baseURL +:+ "/Azubi/Default.aspx")) _
                eq_refl eq_refl eq_refl).
  apply (f_equal (fun o : option (result Response * World) =>
                    match o with
                    | Some (ok resp, _) => StatusCode resp
                    | _ => 0
                    end)) in H.
  vm_compute in H. discriminate H.
Qed.

(** C5 (amended): every session [NewSession] creates has a cookie store of
    its own, new, empty, held by no client before and left untouched by the
    exchanges of every other client, and a redirect policy that accepts
    every redirect: the client follows redirect responses by itself, and no
    call on the session ever returns a redirect response that names a
    location. *)
Theorem NewSession_transport w :
  ∃ s w',
    NewSession w = Some (s, w')
    ∧ jars w !! Jar (client s) = None
    ∧ jars w' = <[Jar (client s) := []]> (jars w)
    ∧ sent w' = sent w
    ∧ (∀ c hop req w2,
         Jar c ≠ Jar (client s) →
         jars (send c hop req w2).2 !! Jar (client s) = jars w2 !! Jar (client s))
    ∧ (∀ req via, checkRedirect (client s) req via = None)
    ∧ (∀ hops req w2 r w3,
         Do hops (client s) req w2 = Some (ok r, w3) →
         isRedirect r = true → Location r = "").
Proof.
  eexists _, _. split; [reflexivity|]. cbn [client Jar jars sent].
  repeat split.
  - apply not_elem_of_dom. apply is_fresh.
  - intros c hop req w2 Hne. now apply send_jars.
  - intros hops req w2 r w3 H Hred. unfold Do in H.
    eapply do_final; eauto. reflexivity.
Qed.

Lemma NewSession_transport_witness :
  ∃ s w', NewSession (world twoTiles twoEntries) = Some (s, w')
          ∧ fst <$> GetReportWeekID 1 s monday
                      (world (redirectTo (baseURL +:+ "/Azubi/Default.aspx")) twoEntries)
            = Some (fail (NotFoundError 1 2024)).
Proof.
  destruct (NewSession_transport (world twoTiles twoEntries)) as (s & w' & H & _).
  exists s, w'. split; [exact H|].
  injection H as <- _. reflexivity.
Defined.

(** *** The default session *)

(** With a default session in the registry, a [WriteReport] of the service
    without [session_id] among its arguments fails for the want of it. *)
Lemma service_WriteReport_requires_handle : ¬ default_handle_reading.
Proof.
  intros H.
  apply (H O (azubiheftserver.WriteReport O) service session writeArgs
           (world twoTiles twoEntries) (fail MissingHandleError) (world twoTiles twoEntries)).
  - unfold handleOperations. do 5 apply list_elem_of_further. apply list_elem_of_here.
  - split; [discriminate|vm_compute; reflexivity].
  - vm_compute; reflexivity.
  - vm_compute; reflexivity.
  - reflexivity.
Qed.

(** The service called without a handle while it holds a default session:
    [getSession] resolves the empty handle to that session, and
    [GetSubjects] works on it; every other operation that takes a handle
    fails with [session_id is required], without a request, and reaches
    the default session only through the empty string or the handle
    [default] itself. *)
Lemma default_session_on_omitted_handle hops svc session (args : azubiheftserver.Args) :
  hasDefault svc session →
  args !! "session_id" = None →
  azubiheftserver.getSession svc "" = ok session
  ∧ azubiheftserver.getSession svc (azubiheftserver.defaultSessionID svc) = ok session
  ∧ (∀ w, azubiheftserver.GetSubjects hops svc args w
          = match azubiheft.GetSubjects hops session w with
            | None => None
            | Some (fail err, w') => Some (fail (wrapError "failed to get subjects: " err), w')
            | Some (ok subjects, w') =>
                Some (ok ("Subjects: " +:+ azubiheftserver.fmtSubjects subjects), w')
            end)
  ∧ (∀ op w, op ∈ handleRequired hops → op svc args w = Some (fail MissingHandleError, w))
  ∧ (∀ w, azubiheftserver.Logout hops svc args w = Some ((fail MissingHandleError, svc), w)).
Proof.
  intros [Hd Hs] Hargs.
  assert (Hnone : azubiheftserver.asString args "session_id" = None)
    by (unfold azubiheftserver.asString; now rewrite Hargs).
  assert (Hempty : azubiheftserver.getSession svc "" = ok session).
  { unfold azubiheftserver.getSession.
    destruct (String.eqb_spec (azubiheftserver.defaultSessionID svc) ""); [contradiction|].
    simpl. now rewrite Hs. }
  repeat split.
  - exact Hempty.
  - unfold azubiheftserver.getSession.
    destruct (String.eqb_spec (azubiheftserver.defaultSessionID svc) ""); [contradiction|].
    simpl. now rewrite Hs.
  - intros w. unfold azubiheftserver.GetSubjects. rewrite Hnone. cbn [default].
    rewrite Hempty. unfold mbind, M_bind.
    destruct (azubiheft.GetSubjects hops session w) as [[[subjects|err] w']|]; reflexivity.
  - intros op w Hop. unfold handleRequired in Hop.
    repeat (apply elem_of_cons in Hop as [->|Hop]);
      [..|now apply elem_of_nil in Hop].
    + unfold azubiheftserver.IsLoggedIn. now rewrite Hnone.
    + unfold azubiheftserver.AddSubject. now rewrite Hnone.
    + unfold azubiheftserver.DeleteSubject. now rewrite Hnone.
    + unfold azubiheftserver.GetReport. now rewrite Hnone.
    + unfold azubiheftserver.WriteReport. now rewrite Hnone.
    + unfold azubiheftserver.DeleteReport. now rewrite Hnone.
    + unfold azubiheftserver.GetWeekID. now rewrite Hnone.
  - intros w. unfold azubiheftserver.Logout. now rewrite Hnone.
Qed.

(** C6, the program at the failing input: a service started with
    credentials that the remote application accepts holds the session
    under the handle [default]; called then without [session_id],
    [GetSubjects] answers from that session, while [WriteReport] fails with
    [session_id is required] and sends nothing, although [getSession]
    would resolve the missing handle to the default session. *)
Theorem service_omitted_handle_at_default :
  ∃ w1,
    azubiheftserver.NewAzubiheftService O "azubi" "secret" loggedInWorld = Some (service, w1)
    ∧ hasDefault service session
    ∧ writeArgs !! "session_id" = None
    ∧ azubiheftserver.getSession service "" = ok session
    ∧ fst <$> azubiheftserver.GetSubjects O service ∅ w1
      = Some (ok ("Subjects: " +:+ azubiheftserver.fmtSubjects builtinSubjects))
    ∧ azubiheftserver.WriteReport O service writeArgs w1 = Some (fail MissingHandleError, w1).
Proof.
  eexists. split; [vm_compute; reflexivity|].
  assert (Hd : hasDefault service session) by (split; [discriminate|vm_compute; reflexivity]).
  assert (Ha : writeArgs !! "session_id" = None) by (vm_compute; reflexivity).
  destruct (default_session_on_omitted_handle O service session writeArgs Hd Ha)
    as (H1 & _ & _ & H4 & _).
  split; [exact Hd|]. split; [exact Ha|]. split; [exact H1|]. split.
  - vm_compute; reflexivity.
  - apply (H4 (azubiheftserver.WriteReport O)). unfold handleRequired.
    do 4 apply list_elem_of_further. apply list_elem_of_here.
Qed.

(** ** More properties of the client *)

Import more.

(** *** Subjects *)

Lemma GetSubjects_fold sels : ∀ subjects,
  fold_left GetSubjects_each sels subjects
  = subjects ++ List.map subjectOf (List.filter isSubject sels).
Proof.
  induction sels as [|sel sels IH]; intros subjects.
  - cbn. now rewrite app_nil_r.
  - cbn [fold_left List.filter]. rewrite IH.
    assert (GetSubjects_each subjects sel
            = subjects ++ (if isSubject sel then [subjectOf sel] else [])) as ->.
    { unfold GetSubjects_each, isSubject, subjectOf.
      destruct (goquery.Attr sel "data-default") as [id hasID].
      destruct (goquery.Attr sel "value") as [name hasValue]. cbn [fst snd].
      destruct (hasID && hasValue && negb (String.eqb name "")); [reflexivity|].
      now rewrite app_nil_r. }
    destruct (isSubject sel); cbn [List.map]; now rewrite <- List.app_assoc.
Qed.

Lemma customSubjects_named doc : Forall (fun x => Name x ≠ "") (customSubjects doc).
Proof.
  unfold customSubjects. apply List.Forall_forall. intros x Hin.
  apply List.in_map_iff in Hin as (sel & <- & Hin).
  apply List.filter_In in Hin as [_ Hs]. unfold isSubject in Hs.
  apply andb_true_iff in Hs as [_ Hs]. unfold subjectOf. cbn [Name].
  destruct (String.eqb_spec (fst (goquery.Attr sel "value")) ""); [discriminate Hs|assumption].
Qed.

(** X1: [GetSubjects] returns the seven built-in subjects first, in their
    fixed order, then the custom subjects of the page it fetched and
    nothing else: one for each input under [#divSchulfach] that has the
    attributes [data-default] and [value] and a value that is not empty,
    in the order of the page, with the first attribute as identifier and
    the second as name.  The operation makes one call of the client, a
    GET of the subject page. *)
Theorem GetSubjects_builtins_first hops s w subjects w' :
  GetSubjects hops s w = Some (ok subjects, w') →
  ∃ resp doc,
    Get hops (client s) subjectsURL w = Some (ok resp, w')
    ∧ NewDocumentFromReader resp = ok doc
    ∧ subjects = builtinSubjects ++ customSubjects doc
    ∧ Forall (fun x => Name x ≠ "") (customSubjects doc)
    ∧ ∃ extra, sent w' = sent w ++ extra ∧ calls extra = [subjectsCall] ∧ onlyGET extra.
Proof.
  unfold GetSubjects. unfold mbind, M_bind, mret, M_ret. fold subjectsURL.
  destruct (Get _ _ _ _) as [[[resp|err] w1]|] eqn:HGet; [|discriminate..].
  destruct (NewDocumentFromReader resp) as [doc|err] eqn:Hdoc; [|discriminate].
  intros [= <- <-]. exists resp, doc. split; [reflexivity|]. split; [exact Hdoc|].
  apply Get_sent in HGet. destruct HGet as (_ & Htrace).
  split; [|split; [apply customSubjects_named|exact Htrace]].
  unfold customSubjects, subjectInputs.
  destruct (goquery.Find doc [goquery.Id "divSchulfach"]) as [|pn sel].
  - reflexivity.
  - change (0 <? goquery.Length (pn :: sel)) with (0 <? Z.pos (Pos.of_succ_nat (List.length sel))).
    change (0 <? Z.pos _) with true. cbv iota. apply GetSubjects_fold.
Qed.

Lemma GetSubjects_builtins_first_witness :
  ∃ resp doc,
    NewDocumentFromReader resp = ok doc
    ∧ customSubjects doc = [ {| ID := "1699999999"; Name := "Sport" |};
                             {| ID := "0"; Name := "Kunst" |} ]
    ∧ builtinSubjects ++ [ {| ID := "1699999999"; Name := "Sport" |};
                           {| ID := "0"; Name := "Kunst" |} ]
      = builtinSubjects ++ customSubjects doc.
Proof.
  destruct (GetSubjects_builtins_first O session (always subjectsPage)
              (builtinSubjects ++ [ {| ID := "1699999999"; Name := "Sport" |};
                                    {| ID := "0"; Name := "Kunst" |} ])
              (after (always subjectsPage) [GET subjectsURL]) eq_refl)
    as (resp & doc & HGet & Hdoc & Hsub & _).
  exists resp, doc. split; [exact Hdoc|]. split; [|exact Hsub].
  vm_compute in HGet. injection HGet as <-.
  vm_compute in Hdoc. injection Hdoc as <-. vm_compute. reflexivity.
Defined.

(** *** Authentication *)

Lemma PostForm_sent hops c u data w r w' :
  PostForm hops c u data w = Some (r, w') →
  clock w' = clock w
  ∧ ∃ extra, sent w' = sent w ++ extra ∧ calls extra = [postCall u data].
Proof.
  intros H. split; [exact (do_clock _ _ _ _ _ _ _ _ H)|].
  apply Do_sent in H. destruct H as (extra & Hs & Hc & _).
  exists extra. auto.
Qed.

Lemma IsLoggedIn_sent hops s w b w' :
  IsLoggedIn hops s w = Some (b, w') →
  clock w' = clock w
  ∧ ∃ extra, sent w' = sent w ++ extra ∧ calls extra = [probeCall] ∧ onlyGET extra.
Proof.
  unfold IsLoggedIn. unfold mbind, M_bind, mret, M_ret.
  destruct (Get _ _ _ _) as [[rr w1]|] eqn:HGet; [|discriminate].
  apply Get_sent in HGet. intros H.
  assert (w' = w1) as ->; [|exact HGet].
  destruct rr as [resp|err]; [|now inversion H].
  destruct (ReadAll resp) as [body [e|]]; now inversion H.
Qed.

(** X2: [IsLoggedIn] answers true exactly when the probe page came back
    and its body holds the logout control; when the request fails on the
    way, or the body cannot be read, the answer is false, not an error.
    The probe is one GET. *)
Theorem IsLoggedIn_probe hops s w b w' :
  IsLoggedIn hops s w = Some (b, w') →
  (b = true ↔
   ∃ resp pg, Get hops (client s) (baseURL +:+ "/Azubi/Default.aspx") w = Some (ok resp, w')
              ∧ Content resp = ok pg
              ∧ strings.Contains (http.Text pg) logoutControl = true)
  ∧ ∃ extra, sent w' = sent w ++ extra ∧ calls extra = [probeCall] ∧ onlyGET extra.
Proof.
  intros H. split; [|exact (proj2 (IsLoggedIn_sent _ _ _ _ _ H))].
  unfold IsLoggedIn in H. unfold mbind, M_bind, mret, M_ret in H.
  destruct (Get _ _ _ _) as [[[resp|err] w1]|]; [| |discriminate].
  - unfold ReadAll in H. destruct (Content resp) as [pg|err] eqn:Hc; cbv beta iota in H.
    + injection H as <- <-. split.
      * intros Hb. exists resp, pg. auto.
      * intros (resp' & pg' & [= <-] & Hc' & Hm). rewrite Hc in Hc'.
        injection Hc' as <-. exact Hm.
    + injection H as <- <-. split; [discriminate|].
      intros (resp' & pg' & [= <-] & Hc' & _). rewrite Hc in Hc'. discriminate Hc'.
  - injection H as <- <-. split; [discriminate|].
    intros (resp' & pg' & Hx & _). discriminate Hx.
Qed.

Lemma IsLoggedIn_probe_witness :
  IsLoggedIn O session unreachable
  = Some (false, after unreachable [GET (baseURL +:+ "/Azubi/Default.aspx")])
  ∧ ∃ extra, sent (after unreachable [GET (baseURL +:+ "/Azubi/Default.aspx")])
             = sent unreachable ++ extra
             ∧ calls extra = [probeCall].
Proof.
  split; [reflexivity|].
  destruct (IsLoggedIn_probe O session unreachable false
              (after unreachable [GET (baseURL +:+ "/Azubi/Default.aspx")]) eq_refl)
    as (_ & extra & Hs & Hc & _).
  exists extra. auto.
Defined.

(** [Login] beyond the fetch of the login page. *)
Lemma Login_steps hops s username password w resp w1 doc :
  Get hops (client s) loginURL w = Some (ok resp, w1) →
  NewDocumentFromReader resp = ok doc →
  Login hops s username password w
  = match PostForm hops (client s) loginURL (loginForm doc username password) w1 with
    | None => None
    | Some (fail err, w2) => Some (Some (wrapError "failed to submit login: " err), w2)
    | Some (ok _, w2) =>
        match IsLoggedIn hops s w2 with
        | None => None
        | Some (true, w3) => Some (None, w3)
        | Some (false, w3) =>
            Some (Some (errorString "login failed: invalid credentials"), w3)
        end
    end.
Proof.
  intros HGet Hdoc. unfold Login. unfold mbind at 1. unfold M_bind at 1.
  unfold loginURL in *. rewrite HGet, Hdoc.
  unfold mbind, M_bind, mret, M_ret, loginForm, usernameKey, passwordKey.
  destruct (PostForm _ _ _ _ _) as [[[r|e] w2]|]; [|reflexivity..].
  destruct (IsLoggedIn hops s w2) as [[[] w3]|]; reflexivity.
Qed.

(** X3: [Login] returns nil only when the probe after the submission
    found the logout control, and fails with [invalid credentials] only
    when that probe did not find it, whatever the status of the POST; in
    both cases the calls are the GET of the login page, one POST of the
    form to the same address, with the user name and the password in
    their two fields, and the probe.  Every other failure wraps the error
    of the step that failed. *)
Theorem Login_confirmed_by_probe hops s username password w r w' :
  Login hops s username password w = Some (r, w') →
  (r = None ∨ r = Some (errorString "login failed: invalid credentials") →
   ∃ form extra w2,
     url.Get form usernameKey = username
     ∧ url.Get form passwordKey = password
     ∧ sent w' = sent w ++ extra
     ∧ calls extra = [loginPageCall; postCall loginURL form; probeCall]
     ∧ IsLoggedIn hops s w2 = Some (bool_decide (r = None), w'))
  ∧ (r = None
     ∨ r = Some (errorString "login failed: invalid credentials")
     ∨ ∃ msg inner, r = Some (wrapError msg inner)).
Proof.
  intros H.
  assert (Hwrap : ∀ msg inner, r = Some (wrapError msg inner) →
    (r = None ∨ r = Some (errorString "login failed: invalid credentials") →
     ∃ form extra w2,
       url.Get form usernameKey = username
       ∧ url.Get form passwordKey = password
       ∧ sent w' = sent w ++ extra
       ∧ calls extra = [loginPageCall; postCall loginURL form; probeCall]
       ∧ IsLoggedIn hops s w2 = Some (bool_decide (r = None), w'))
    ∧ (r = None
       ∨ r = Some (errorString "login failed: invalid credentials")
       ∨ ∃ msg inner, r = Some (wrapError msg inner))).
  { intros msg inner ->. split; [intros [?|?]; discriminate|eauto]. }
  destruct (Get hops (client s) loginURL w) as [[[resp|err] w1]|] eqn:HGet.
  2:{ unfold Login in H. unfold mbind at 1 in H. unfold M_bind at 1 in H.
      unfold loginURL in HGet. rewrite HGet in H. injection H as <- <-.
      eapply Hwrap; reflexivity. }
  2:{ unfold Login in H. unfold mbind at 1 in H. unfold M_bind at 1 in H.
      unfold loginURL in HGet. rewrite HGet in H. discriminate H. }
  destruct (NewDocumentFromReader resp) as [doc|err] eqn:Hdoc.
  2:{ unfold Login in H. unfold mbind at 1 in H. unfold M_bind at 1 in H.
      unfold loginURL in HGet. rewrite HGet, Hdoc in H. injection H as <- <-.
      eapply Hwrap; reflexivity. }
  rewrite (Login_steps hops s username password w resp w1 doc HGet Hdoc) in H.
  apply Get_sent in HGet. destruct HGet as (_ & e1 & Hs1 & Hl1 & _).
  destruct (PostForm _ _ _ _ _) as [[[r2|e] w2]|] eqn:HPost; [| |discriminate].
  2:{ injection H as <- <-. eapply Hwrap; reflexivity. }
  apply PostForm_sent in HPost. destruct HPost as (_ & e2 & Hs2 & Hl2).
  destruct (IsLoggedIn hops s w2) as [[b w3]|] eqn:HProbe; [|discriminate].
  pose proof (IsLoggedIn_sent _ _ _ _ _ HProbe) as (_ & e3 & Hs3 & Hl3 & _).
  clear Hwrap.
  assert (Htrace : sent w3 = sent w ++ e1 ++ e2 ++ e3)
    by now rewrite Hs3, Hs2, Hs1, <- !List.app_assoc.
  assert (Hcalls : calls (e1 ++ e2 ++ e3)
                   = [loginPageCall; postCall loginURL (loginForm doc username password);
                      probeCall])
    by now rewrite !calls_app, Hl1, Hl2, Hl3.
  destruct b; injection H as <- <-.
  - split; [|auto]. intros _.
    exists (loginForm doc username password), (e1 ++ e2 ++ e3), w2. repeat split; auto.
  - split; [|auto]. intros _.
    exists (loginForm doc username password), (e1 ++ e2 ++ e3), w2. repeat split; auto.
Qed.

Lemma Login_confirmed_by_probe_witness :
  ∃ w', Login O session "azubi" "secret" loggedInWorld = Some (None, w')
        ∧ ∃ form extra,
            url.Get form passwordKey = "secret"
            ∧ sent w' = sent loggedInWorld ++ extra
            ∧ calls extra = [loginPageCall; postCall loginURL form; probeCall].
Proof.
  eexists. split; [vm_compute; reflexivity|].
  destruct (proj1 (Login_confirmed_by_probe O session "azubi" "secret" loggedInWorld None _
                     ltac:(vm_compute; reflexivity)) (or_introl eq_refl))
    as (form & extra & w2 & _ & Hp & Hs & Hc & _).
  exists form, extra. auto.
Defined.

(** *** Forms of the subject page *)

Lemma Get_Set_eq form key value : url.Get (url.Set_ form key value) key = value.
Proof.
  unfold url.Get. induction form as [|[k v] form IH]; simpl.
  - now rewrite String.eqb_refl.
  - destruct (String.eqb_spec k key) as [->|Hne]; simpl.
    + now rewrite String.eqb_refl.
    + destruct (String.eqb_spec k key); [contradiction|exact IH].
Qed.

Lemma Get_Set_ne form key value key' :
  key ≠ key' → url.Get (url.Set_ form key value) key' = url.Get form key'.
Proof.
  intros Hne. unfold url.Get. induction form as [|[k v] form IH]; simpl.
  - destruct (String.eqb_spec key key'); [contradiction|reflexivity].
  - destruct (String.eqb_spec k key) as [->|Hk]; simpl.
    + destruct (String.eqb_spec key key'); [contradiction|reflexivity].
    + destruct (String.eqb_spec k key'); [reflexivity|exact IH].
Qed.

Lemma keys_Set form key value key' :
  key' ∈ keys (url.Set_ form key value) ↔ key' = key ∨ key' ∈ keys form.
Proof.
  unfold keys. induction form as [|[k v] form IH]; simpl.
  - rewrite elem_of_cons. rewrite elem_of_nil. tauto.
  - destruct (String.eqb_spec k key) as [->|Hk]; simpl.
    + rewrite !elem_of_cons. tauto.
    + rewrite !elem_of_cons, IH. tauto.
Qed.

Lemma AddSubject_each_keys form sel key :
  key ∈ keys (AddSubject_each form sel)
  ↔ key ∈ keys form ∨ (inputValue sel ≠ "" ∧ inputID sel = key).
Proof.
  unfold AddSubject_each. fold (inputID sel) (inputValue sel).
  destruct (String.eqb_spec (inputValue sel) "") as [He|Hne]; simpl.
  - split; [auto|]. intros [?|[? _]]; [assumption|contradiction].
  - rewrite keys_Set. split.
    + intros [->|?]; auto.
    + intros [?|[_ <-]]; auto.
Qed.

Lemma AddSubject_fold_keys sels : ∀ form key,
  key ∈ keys (fold_left AddSubject_each sels form)
  ↔ key ∈ keys form ∨ ∃ sel, sel ∈ sels ∧ inputValue sel ≠ "" ∧ inputID sel = key.
Proof.
  induction sels as [|sel sels IH]; intros form key; simpl.
  - split; [auto|]. intros [?|(sel & Hin & _)]; [assumption|]. now apply elem_of_nil in Hin.
  - rewrite IH, AddSubject_each_keys. split.
    + intros [[?|[? ?]]|(x & Hin & ? & ?)]; auto.
      * right. exists sel. split; [apply list_elem_of_here|auto].
      * right. exists x. split; [now apply list_elem_of_further|auto].
    + intros [?|(x & Hin & Hv & Hid)]; auto.
      apply elem_of_cons in Hin as [->|Hin]; [auto|].
      right. exists x. auto.
Qed.

Lemma AddSubject_fold_other sels : ∀ form key,
  key ∉ List.map inputID sels →
  url.Get (fold_left AddSubject_each sels form) key = url.Get form key.
Proof.
  induction sels as [|sel sels IH]; intros form key Hnot; [reflexivity|].
  simpl in *. rewrite not_elem_of_cons in Hnot. destruct Hnot as [Hne Hnot].
  rewrite IH by exact Hnot. unfold AddSubject_each. fold (inputID sel) (inputValue sel).
  destruct (negb _); [|reflexivity]. apply Get_Set_ne. congruence.
Qed.

Lemma AddSubject_fold_value sels : ∀ form sel,
  NoDup (List.map inputID sels) →
  sel ∈ sels → inputValue sel ≠ "" →
  url.Get (fold_left AddSubject_each sels form) (inputID sel) = inputValue sel.
Proof.
  induction sels as [|a sels IH]; intros form sel Hnd Hin Hv.
  - now apply elem_of_nil in Hin.
  - simpl in *. apply NoDup_cons in Hnd as [Ha Hnd].
    apply elem_of_cons in Hin as [->|Hin].
    + rewrite AddSubject_fold_other by exact Ha.
      unfold AddSubject_each. fold (inputID a) (inputValue a).
      destruct (String.eqb_spec (inputValue a) ""); [contradiction|]. simpl.
      apply Get_Set_eq.
    + now apply IH.
Qed.

(** [AddSubject] beyond the fetch of the subject page. *)
Lemma AddSubject_steps hops s subjectName w resp w1 doc :
  Get hops (client s) subjectsURL w = Some (ok resp, w1) →
  NewDocumentFromReader resp = ok doc →
  AddSubject hops s subjectName w
  = match PostForm hops (client s) subjectsURL (addSubjectForm doc (clock w1) subjectName) w1 with
    | None => None
    | Some (fail err, w2) => Some (Some (wrapError "failed to add subject: " err), w2)
    | Some (ok resp, w2) =>
        if StatusCode resp =? StatusOK then Some (None, w2)
        else Some (Some (errorString ("failed to add subject: status code " +:+
                                      strconv.Itoa (StatusCode resp))), w2)
    end.
Proof.
  intros HGet Hdoc. unfold AddSubject. unfold mbind at 1. unfold M_bind at 1.
  unfold subjectsURL in *. rewrite HGet, Hdoc.
  unfold mbind, M_bind, mret, M_ret, Now_Unix, addSubjectForm.
  destruct (PostForm _ _ _ _ _) as [[[r|e] w2]|]; [|reflexivity..].
  destruct (StatusCode r =? StatusOK); reflexivity.
Qed.

(** X4: once the subject page is fetched, [AddSubject] posts one form back
    to it.  The form holds the new name under [txt] and the Unix time of
    the call; its keys are the three tokens, the save button, that new
    key and the identifiers of the inputs of the page whose value is not
    empty, no other; and where those identifiers differ from each other
    and from the new key, each input goes back with the value it had.
    The call succeeds exactly when the answer to the POST has status
    200. *)
Theorem AddSubject_resubmits_page hops s subjectName w resp w1 doc r w' :
  Get hops (client s) subjectsURL w = Some (ok resp, w1) →
  NewDocumentFromReader resp = ok doc →
  AddSubject hops s subjectName w = Some (r, w') →
  let newKey := "txt" +:+ strconv.Itoa (clock w) in
  let form := addSubjectForm doc (clock w) subjectName in
  (∃ extra, sent w' = sent w ++ extra
            ∧ calls extra = [subjectsCall; postCall subjectsURL form])
  ∧ url.Get form newKey = subjectName
  ∧ (∀ key, key ∈ keys form
            ↔ key ∈ fixedKeys ∨ key = newKey ∨ key ∈ List.map inputID (filled doc))
  ∧ (NoDup (List.map inputID (existingSubjectInputs doc)) →
     ∀ sel, sel ∈ filled doc → inputID sel ≠ newKey →
            url.Get form (inputID sel) = inputValue sel)
  ∧ (r = None ↔
     ∃ resp2, PostForm hops (client s) subjectsURL form w1 = Some (ok resp2, w')
              ∧ StatusCode resp2 = 200).
Proof.
  intros HGet Hdoc H newKey form.
  rewrite (AddSubject_steps _ _ _ _ _ _ _ HGet Hdoc) in H.
  apply Get_sent in HGet. destruct HGet as (Hclock & e1 & Hs1 & Hl1 & _).
  rewrite Hclock in H. fold form in H.
  split; [|split; [|split; [|split]]].
  - destruct (PostForm _ _ _ _ _) as [[rr w2]|] eqn:HPost; [|discriminate].
    apply PostForm_sent in HPost. destruct HPost as (_ & e2 & Hs2 & Hl2).
    assert (w' = w2) as ->.
    { destruct rr as [r2|e]; [|now inversion H].
      destruct (StatusCode r2 =? StatusOK); now inversion H. }
    exists (e1 ++ e2). split; [now rewrite Hs2, Hs1, <- List.app_assoc|].
    now rewrite calls_app, Hl1, Hl2.
  - apply Get_Set_eq.
  - intros key. unfold form, addSubjectForm. rewrite keys_Set, AddSubject_fold_keys.
    fold newKey. unfold filled. rewrite list_elem_of_fmap.
    change (keys _) with fixedKeys. split.
    + intros [?|[?|(sel & Hin & Hv & Hid)]]; auto.
      right. right. exists sel. split; [auto|].
      apply list_elem_of_In, List.filter_In. split; [now apply list_elem_of_In|].
      destruct (String.eqb_spec (inputValue sel) ""); [contradiction|reflexivity].
    + intros [?|[?|(sel & Hid & Hin)]]; auto.
      right. right. apply list_elem_of_In, List.filter_In in Hin. destruct Hin as [Hin Hv].
      exists sel. split; [now apply list_elem_of_In|]. split; [|auto].
      destruct (String.eqb_spec (inputValue sel) ""); [discriminate Hv|assumption].
  - intros Hnd sel Hin Hne. unfold form, addSubjectForm. fold newKey.
    rewrite Get_Set_ne by congruence.
    apply list_elem_of_In, List.filter_In in Hin. destruct Hin as [Hin Hv].
    apply AddSubject_fold_value; [exact Hnd|now apply list_elem_of_In|].
    destruct (String.eqb_spec (inputValue sel) ""); [discriminate Hv|assumption].
  - destruct (PostForm _ _ _ _ _) as [[[r2|e] w2]|]; [| |discriminate].
    + unfold StatusOK in H. destruct (Z.eqb_spec (StatusCode r2) 200) as [Hok|Hno];
        injection H as <- <-.
      * split; [eauto|reflexivity].
      * split; [discriminate|]. intros (resp2 & [= <-] & Hok). contradiction.
    + injection H as <- <-. split; [discriminate|]. intros (resp2 & Hx & _). discriminate Hx.
Qed.

Lemma AddSubject_resubmits_page_witness :
  ∃ w', AddSubject O session "Werken" (always subjectsPage) = Some (None, w')
        ∧ url.Get (addSubjectForm (docOf subjectsPage) 1700000000 "Werken") "txt1700000000"
          = "Werken"
        ∧ url.Get (addSubjectForm (docOf subjectsPage) 1700000000 "Werken")
            "ctl00_ContentPlaceHolder1_txtNeu"
          = "Kunst".
Proof.
  eexists. split; [vm_compute; reflexivity|].
  destruct (AddSubject_resubmits_page O session "Werken" (always subjectsPage) subjectsPage
              (after (always subjectsPage) [GET subjectsURL]) (docOf subjectsPage) None _
              eq_refl eq_refl ltac:(vm_compute; reflexivity))
    as (_ & Hnew & _ & Hold & _).
  split; [exact Hnew|].
  apply (Hold ltac:(apply (bool_decide_unpack _); vm_compute; reflexivity)
              [([0; 0; 1; 1]%nat,
                html.element "input" [("id", "ctl00_ContentPlaceHolder1_txtNeu");
                                      ("data-default", "0"); ("value", "Kunst")] [])]).
  - vm_compute. do 1 apply list_elem_of_further. apply list_elem_of_here.
  - discriminate.
Defined.

Lemma DeleteSubject_each_keys subjectID form sel key :
  key ∈ keys (DeleteSubject_each subjectID form sel) →
  key ∈ keys form
  ∨ (inputID sel = key ∧ inputValue sel ≠ ""
     ∧ ∃ digits, regexp.FindDigitsAfter "txt" key = Some digits ∧ digits ≠ subjectID).
Proof.
  unfold DeleteSubject_each. fold (inputID sel) (inputValue sel).
  destruct (regexp.FindDigitsAfter "txt" (inputID sel)) as [digits|] eqn:Hd; [|auto].
  destruct (String.eqb_spec digits subjectID) as [|Hne]; simpl; [auto|].
  destruct (String.eqb_spec (inputValue sel) "") as [|Hv]; simpl; [auto|].
  rewrite keys_Set. intros [->|?]; [|auto]. right. eauto.
Qed.

Lemma DeleteSubject_fold_keys subjectID sels : ∀ form key,
  key ∈ keys (fold_left (DeleteSubject_each subjectID) sels form) →
  key ∈ keys form
  ∨ ∃ sel, sel ∈ sels ∧ inputID sel = key ∧ inputValue sel ≠ ""
           ∧ ∃ digits, regexp.FindDigitsAfter "txt" key = Some digits ∧ digits ≠ subjectID.
Proof.
  induction sels as [|sel sels IH]; intros form key; simpl; [auto|].
  intros H. apply IH in H. destruct H as [H|(x & Hin & H)].
  - apply DeleteSubject_each_keys in H. destruct H as [?|H]; [auto|].
    right. exists sel. split; [apply list_elem_of_here|exact H].
  - right. exists x. split; [now apply list_elem_of_further|exact H].
Qed.

Lemma DeleteSubject_fold_other subjectID sels : ∀ form key,
  regexp.FindDigitsAfter "txt" key = None →
  url.Get (fold_left (DeleteSubject_each subjectID) sels form) key = url.Get form key.
Proof.
  induction sels as [|sel sels IH]; intros form key Hkey; [reflexivity|].
  simpl. rewrite IH by exact Hkey. unfold DeleteSubject_each.
  destruct (regexp.FindDigitsAfter "txt" (fst (goquery.Attr sel "id"))) eqn:Hd; [|reflexivity].
  destruct (_ && _); [|reflexivity].
  apply Get_Set_ne. intros Heq. rewrite Heq in Hd. congruence.
Qed.

Lemma DeleteSubject_fold_kept subjectID sels : ∀ form sel digits,
  NoDup (List.map inputID sels) →
  sel ∈ sels → inputValue sel ≠ "" →
  regexp.FindDigitsAfter "txt" (inputID sel) = Some digits → digits ≠ subjectID →
  url.Get (fold_left (DeleteSubject_each subjectID) sels form) (inputID sel) = inputValue sel.
Proof.
  induction sels as [|a sels IH]; intros form sel digits Hnd Hin Hv Hd Hne.
  - now apply elem_of_nil in Hin.
  - simpl in *. apply NoDup_cons in Hnd as [Ha Hnd].
    apply elem_of_cons in Hin as [->|Hin]; [|now apply (IH _ _ digits)].
    assert (Hrest : ∀ f, url.Get (fold_left (DeleteSubject_each subjectID) sels f) (inputID a)
                         = url.Get f (inputID a)).
    { clear -Ha. induction sels as [|b sels IH]; intros f; [reflexivity|].
      simpl in *. rewrite not_elem_of_cons in Ha. destruct Ha as [Hab Ha].
      rewrite IH by exact Ha. unfold DeleteSubject_each. fold (inputID b).
      destruct (regexp.FindDigitsAfter "txt" (inputID b)); [|reflexivity].
      destruct (_ && _); [|reflexivity]. apply Get_Set_ne. congruence. }
    rewrite Hrest. unfold DeleteSubject_each. fold (inputID a) (inputValue a).
    rewrite Hd.
    destruct (String.eqb_spec digits subjectID); [contradiction|].
    destruct (String.eqb_spec (inputValue a) ""); [contradiction|]. simpl.
    apply Get_Set_eq.
Qed.

(** [DeleteSubject] beyond the fetch of the subject page. *)
Lemma DeleteSubject_steps hops s subjectID w resp w1 doc :
  Get hops (client s) subjectsURL w = Some (ok resp, w1) →
  NewDocumentFromReader resp = ok doc →
  DeleteSubject hops s subjectID w
  = match PostForm hops (client s) subjectsURL (deleteSubjectForm doc subjectID) w1 with
    | None => None
    | Some (fail err, w2) => Some (Some (wrapError "failed to delete subject: " err), w2)
    | Some (ok resp, w2) =>
        if StatusCode resp =? StatusOK then Some (None, w2)
        else Some (Some (errorString ("failed to delete subject: status code " +:+
                                      strconv.Itoa (StatusCode resp))), w2)
    end.
Proof.
  intros HGet Hdoc. unfold DeleteSubject. unfold mbind at 1. unfold M_bind at 1.
  unfold subjectsURL in *. rewrite HGet, Hdoc.
  unfold mbind, M_bind, mret, M_ret, deleteSubjectForm, deletionKey.
  destruct (PostForm _ _ _ _ _) as [[[r|e] w2]|]; [|reflexivity..].
  destruct (StatusCode r =? StatusOK); reflexivity.
Qed.

(** X5: once the subject page is fetched, [DeleteSubject] posts one form
    back to it.  The deletion field of the form is a comma and the
    identifier of the subject; no key of the form has that identifier as
    the digits after [txt], so the field of the subject itself is never
    sent back; beside the tokens, the deletion field and the save button,
    a key is the identifier of an input of the page with a value and with
    digits after [txt] (an input whose identifier has no such digits is
    dropped); and where the identifiers of the inputs differ from each
    other, each input so kept goes back with the value it had. *)
Theorem DeleteSubject_drops_only_target hops s subjectID w resp w1 doc r w' :
  Get hops (client s) subjectsURL w = Some (ok resp, w1) →
  NewDocumentFromReader resp = ok doc →
  DeleteSubject hops s subjectID w = Some (r, w') →
  let form := deleteSubjectForm doc subjectID in
  (∃ extra, sent w' = sent w ++ extra
            ∧ calls extra = [subjectsCall; postCall subjectsURL form])
  ∧ url.Get form deletionKey = "," +:+ subjectID
  ∧ (∀ key, key ∈ keys form → regexp.FindDigitsAfter "txt" key ≠ Some subjectID)
  ∧ (∀ key, key ∈ keys form →
       key ∈ fixedKeys ∨ key = deletionKey
       ∨ ∃ sel digits, sel ∈ filled doc ∧ inputID sel = key
                       ∧ regexp.FindDigitsAfter "txt" key = Some digits)
  ∧ (NoDup (List.map inputID (existingSubjectInputs doc)) →
     ∀ sel digits, sel ∈ filled doc →
       regexp.FindDigitsAfter "txt" (inputID sel) = Some digits → digits ≠ subjectID →
       url.Get form (inputID sel) = inputValue sel).
Proof.
  intros HGet Hdoc H form.
  rewrite (DeleteSubject_steps _ _ _ _ _ _ _ HGet Hdoc) in H. fold form in H.
  apply Get_sent in HGet. destruct HGet as (_ & e1 & Hs1 & Hl1 & _).
  assert (Hinit : ∀ key,
            key ∈ ["__VIEWSTATE"; "__VIEWSTATEGENERATOR"; "__EVENTVALIDATION"; deletionKey;
                   "ctl00$ContentPlaceHolder1$cmd_Save"] →
            regexp.FindDigitsAfter "txt" key = None ∧ (key ∈ fixedKeys ∨ key = deletionKey)).
  { intros key Hk. unfold fixedKeys.
    repeat (apply elem_of_cons in Hk as [->|Hk]); [..|now apply elem_of_nil in Hk].
    all: split; [vm_compute; reflexivity|].
    all: first [ right; reflexivity
               | left; repeat first [apply list_elem_of_here | apply list_elem_of_further] ]. }
  assert (Hfilled : ∀ sel, sel ∈ existingSubjectInputs doc → inputValue sel ≠ "" →
                           sel ∈ filled doc).
  { intros sel Hin Hv. apply list_elem_of_In, List.filter_In.
    split; [now apply list_elem_of_In|].
    destruct (String.eqb_spec (inputValue sel) ""); [contradiction|reflexivity]. }
  split; [|split; [|split; [|split]]].
  - destruct (PostForm _ _ _ _ _) as [[rr w2]|] eqn:HPost; [|discriminate].
    apply PostForm_sent in HPost. destruct HPost as (_ & e2 & Hs2 & Hl2).
    assert (w' = w2) as ->.
    { destruct rr as [r2|e]; [|now inversion H].
      destruct (StatusCode r2 =? StatusOK); now inversion H. }
    exists (e1 ++ e2). split; [now rewrite Hs2, Hs1, <- List.app_assoc|].
    now rewrite calls_app, Hl1, Hl2.
  - unfold form, deleteSubjectForm.
    rewrite DeleteSubject_fold_other by (vm_compute; reflexivity).
    unfold url.Get. simpl. reflexivity.
  - intros key Hk. apply DeleteSubject_fold_keys in Hk.
    destruct Hk as [Hk|(sel & _ & _ & _ & digits & -> & Hne)]; [|congruence].
    destruct (Hinit key Hk) as [-> _]. discriminate.
  - intros key Hk. apply DeleteSubject_fold_keys in Hk.
    destruct Hk as [Hk|(sel & Hin & Hid & Hv & digits & Hd & _)].
    + destruct (Hinit key Hk) as [_ [?|?]]; auto.
    + right. right. exists sel, digits. auto.
  - intros Hnd sel digits Hin Hd Hne.
    apply list_elem_of_In, List.filter_In in Hin. destruct Hin as [Hin Hv].
    apply (DeleteSubject_fold_kept _ _ _ _ digits); auto.
    + now apply list_elem_of_In.
    + destruct (String.eqb_spec (inputValue sel) ""); [discriminate Hv|assumption].
Qed.

Lemma DeleteSubject_drops_only_target_witness :
  ∃ w', DeleteSubject O session "1699999999" (always subjectsPage) = Some (None, w')
        ∧ keys (deleteSubjectForm (docOf subjectsPage) "1699999999")
          = ["__VIEWSTATE"; "__VIEWSTATEGENERATOR"; "__EVENTVALIDATION"; deletionKey;
             "ctl00$ContentPlaceHolder1$cmd_Save"; "ctl00_ContentPlaceHolder1_txt1700000002"]
        ∧ url.Get (deleteSubjectForm (docOf subjectsPage) "1699999999") deletionKey
          = ",1699999999".
Proof.
  eexists. split; [vm_compute; reflexivity|]. split; [vm_compute; reflexivity|].
  exact (proj1 (proj2 (DeleteSubject_drops_only_target O session "1699999999"
                         (always subjectsPage) subjectsPage
                         (after (always subjectsPage) [GET subjectsURL]) (docOf subjectsPage)
                         None _ eq_refl eq_refl ltac:(vm_compute; reflexivity)))).
Defined.

(** *** Reports *)

Lemma digitRun_digits s : forallb strconv.isDigit (strings.bytes (regexp.digitRun s)) = true.
Proof.
  induction s as [|c s IH]; [reflexivity|]. simpl.
  destruct (strconv.isDigit c) eqn:Hc; [|reflexivity]. simpl. now rewrite Hc.
Qed.

Lemma FindDigitsAfter_digits marker s run :
  regexp.FindDigitsAfter marker s = Some run → digitsOnly run = true.
Proof.
  assert (Hhere : ∀ t r, regexp.matchHere marker t = Some r → digitsOnly r = true).
  { intros t r. unfold regexp.matchHere. destruct (strings.HasPrefix t marker); [|discriminate].
    pose proof (digitRun_digits (strings.drop (String.length marker) t)) as Hd.
    destruct (regexp.digitRun _) as [|c r']; [discriminate|]. intros [= <-].
    unfold digitsOnly. now rewrite Hd. }
  induction s as [|c s IH]; simpl;
    destruct (regexp.matchHere marker _) as [r|] eqn:E; try discriminate; try exact IH.
  all: intros [= <-]; eapply Hhere; exact E.
Qed.

(** X6: the week identifier [GetReportWeekID] returns is never empty and
    is written in decimal digits only. *)
Theorem GetReportWeekID_digits hops s date w weekID w' :
  GetReportWeekID hops s date w = Some (ok weekID, w') → digitsOnly weekID = true.
Proof.
  unfold GetReportWeekID. unfold mbind, M_bind, mret, M_ret.
  destruct (Get _ _ _ _) as [[[resp|err] w1]|]; [|discriminate..].
  destruct (NewDocumentFromReader resp) as [doc|err]; [|discriminate].
  destruct (time.ISOWeek date) as [year week]. rewrite scan_last.
  destruct (last _) as [nr|] eqn:El; simpl; [|discriminate].
  apply last_Some_elem_of in El.
  destruct (String.eqb nr ""); [discriminate|]. intros [= <- <-].
  unfold matchingReports in El. apply list_elem_of_omap in El. destruct El as (sel & _ & H).
  destruct (tileMatches year week sel); [|discriminate].
  eapply FindDigitsAfter_digits. exact H.
Qed.

Lemma GetReportWeekID_digits_witness : digitsOnly "222" = true.
Proof.
  exact (GetReportWeekID_digits O session monday (world twoTiles twoEntries) "222" _ eq_refl).
Defined.

(** X7: on a day without entries (none on the page, or unused slots
    only) [DeleteReport] returns nil after the one GET of the report
    page, whatever the entry number: the week is not looked up and the
    entry number is not checked. *)
Theorem DeleteReport_empty_day hops s date entryNumber w w1 :
  GetReport hops s date false w = Some (ok [], w1) →
  DeleteReport hops s date entryNumber w = Some (None, w1)
  ∧ ∃ extra, sent w1 = sent w ++ extra ∧ calls extra = [reportCall date] ∧ onlyGET extra.
Proof.
  intros HG. split.
  - unfold DeleteReport. unfold mbind at 1. unfold M_bind at 1. now rewrite HG.
  - exact (proj2 (GetReport_sent _ _ _ _ _ _ _ HG)).
Qed.

Lemma DeleteReport_empty_day_witness :
  DeleteReport O session monday (Some 5) (world otherWeek emptyDay)
  = Some (None, after (world otherWeek emptyDay) [GET (reportURL "20240101")]).
Proof.
  exact (proj1 (DeleteReport_empty_day O session monday (Some 5) (world otherWeek emptyDay)
                  _ eq_refl)).
Defined.

(** X8: a [WriteReport] that passes the guard on the duration ends in one
    of two ways.  When the week lookup fails, its error is returned as it
    is after the one call of the lookup: nothing is written.  Otherwise
    one POST follows the lookup and no other call, whatever the answer;
    the result is nil exactly when the POST is answered with status 200,
    the wrapped error of the transport when it is not answered, and for
    any other status an error that quotes the status and the body as far
    as it was read: all of it, or the bytes that came before the read
    broke. *)
Theorem WriteReport_outcome hops s date message timeSpent entryType w r w' :
  timeSpent ≠ "00:00" →
  WriteReport hops s date message timeSpent entryType w = Some (r, w') →
  ∃ extra,
    sent w' = sent w ++ extra
    ∧ ((∃ err, GetReportWeekID hops s date w = Some (fail err, w') ∧ r = Some err
               ∧ calls extra = [overviewCall] ∧ onlyGET extra)
       ∨ (∃ weekID w1 rr,
            GetReportWeekID hops s date w = Some (ok weekID, w1)
            ∧ calls extra
              = [overviewCall; writeCall date weekID (clock w) message timeSpent entryType]
            ∧ Do hops (client s)
                (writeRequest (time.Format20060102 date) weekID (clock w)
                   (writeForm message timeSpent entryType)) w1 = Some (rr, w')
            ∧ (r = None ↔ ∃ resp, rr = ok resp ∧ StatusCode resp = 200)
            ∧ (∀ err, rr = fail err → r = Some (wrapError "failed to write report: " err))
            ∧ (∀ resp, rr = ok resp → StatusCode resp ≠ 200 →
                 r = Some (errorString
                        ("failed to write report: status code "
                         +:+ strconv.Itoa (StatusCode resp) +:+ ", body: "
                         +:+ match Content resp with
                             | ok pg => http.Text pg
                             | fail _ => Partial resp
                             end))))).
Proof.
  intros Hne H.
  destruct (WriteReport_sent _ _ _ _ _ _ _ _ _ Hne H) as (extra & Hs & Hcalls).
  exists extra. split; [exact Hs|].
  unfold WriteReport in H.
  destruct (String.eqb_spec timeSpent "00:00"); [contradiction|].
  unfold mbind at 1 in H. unfold M_bind at 1 in H.
  destruct (GetReportWeekID hops s date w) as [[[weekID|err] w1]|] eqn:HW; [| |discriminate].
  - right. destruct Hcalls as [(err & [=] & _)|(weekID' & w1' & [= <- <-] & Hc)].
    pose proof (GetReportWeekID_sent _ _ _ _ _ _ HW) as (Hclock & _).
    unfold mbind, M_bind, mret, M_ret, Now_Unix in H. rewrite Hclock in H.
    destruct (Do _ _ _ _) as [[rr w2]|] eqn:HDo; [|discriminate].
    exists weekID, w1, rr. split; [reflexivity|]. split; [exact Hc|].
    destruct rr as [resp|e].
    + unfold StatusOK, ReadAll in H.
      destruct (Z.eqb_spec (StatusCode resp) 200) as [Hst|Hst]; cbn [negb] in H.
      * injection H as <- <-. split; [exact HDo|]. split; [split; eauto|].
        split; [discriminate|]. intros resp' [= <-] Hx. contradiction.
      * assert (w' = w2 ∧ r = Some (errorString
                  ("failed to write report: status code "
                   +:+ strconv.Itoa (StatusCode resp) +:+ ", body: "
                   +:+ match Content resp with
                       | ok pg => http.Text pg
                       | fail _ => Partial resp
                       end))) as [-> ->]
          by (destruct (Content resp); injection H as <- <-; auto).
        split; [exact HDo|]. split.
        { split; [discriminate|]. intros (resp' & [= <-] & Hx). contradiction. }
        split; [discriminate|]. now intros resp' [= <-] _.
    + injection H as <- <-. split; [exact HDo|]. split.
      { split; [discriminate|]. intros (resp' & [=] & _). }
      split; [now intros err [= <-]|discriminate].
  - left. injection H as <- <-.
    destruct Hcalls as [(err' & _ & _ & Hc)|(weekID' & w1' & [=] & _)].
    pose proof (GetReportWeekID_sent _ _ _ _ _ _ HW) as (_ & e1 & Hs1 & _ & Hg).
    rewrite Hs in Hs1. apply app_inv_head in Hs1 as <-.
    exists err. auto.
Qed.

Lemma WriteReport_outcome_witness :
  ∃ w',
    WriteReport O session (time.Date 2023 12 31) "hello" "01:30" 2
      (answering (brokenBody 502 "Bad Gat"))
    = Some (Some (errorString "failed to write report: status code 502, body: Bad Gat"), w')
    ∧ ∃ extra, sent w' = extra ∧ List.length (calls extra) = 2%nat.
Proof.
  eexists.
  match goal with
  | |- ?L = ?R ∧ _ => assert (HL : L = R) by (vm_compute; reflexivity)
  end.
  split; [exact HL|].
  assert (Hne : "01:30" ≠ "00:00") by discriminate.
  destruct (WriteReport_outcome O session (time.Date 2023 12 31) "hello" "01:30" 2
              (answering (brokenBody 502 "Bad Gat")) _ _ Hne HL)
    as (extra & Hs & [(err & Hx & _)|(weekID & w1 & rr & _ & Hc & _)]).
  - vm_compute in Hx. discriminate Hx.
  - exists extra. split; [exact Hs|]. now rewrite Hc.
Defined.

Lemma GetReport_each_shape entry : ∀ entries entries',
  List.map shape entries = List.map shape entries' →
  List.map shape (GetReport_each true entries entry)
  = List.map shape (GetReport_each false entries' entry).
Proof.
  intros entries entries' H. unfold GetReport_each.
  destruct (String.eqb _ "00:00"); [exact H|].
  rewrite !List.map_app, H. reflexivity.
Qed.

Lemma GetReport_fold_shape containers : ∀ entries entries',
  List.map shape entries = List.map shape entries' →
  List.map shape (fold_left (GetReport_each true) containers entries)
  = List.map shape (fold_left (GetReport_each false) containers entries').
Proof.
  induction containers as [|entry containers IH]; intros entries entries' H; [exact H|].
  simpl. apply IH. now apply GetReport_each_shape.
Qed.

(** X9: the formatting flag of [GetReport] bears on the text of the
    entries only: from the same world, the call with the flag and the
    call without it send the same request, end in the same world, and
    return as many entries, with the same sequence numbers, types and
    durations in the same order. *)
Theorem GetReport_modes_agree hops s date w formatted w' :
  GetReport hops s date true w = Some (ok formatted, w') →
  ∃ plain, GetReport hops s date false w = Some (ok plain, w')
           ∧ List.map shape formatted = List.map shape plain
           ∧ List.length formatted = List.length plain.
Proof.
  unfold GetReport. unfold mbind, M_bind, mret, M_ret.
  destruct (Get _ _ _ _) as [[[resp|err] w1]|]; [|discriminate..].
  destruct (NewDocumentFromReader resp) as [doc|err]; [|discriminate].
  intros [= <- <-]. eexists. split; [reflexivity|].
  assert (H : List.map shape (fold_left (GetReport_each true) (dayEntries doc) [])
              = List.map shape (fold_left (GetReport_each false) (dayEntries doc) []))
    by now apply GetReport_fold_shape.
  split; [exact H|]. apply (f_equal (@List.length _)) in H.
  now rewrite !length_map in H.
Qed.

Lemma GetReport_modes_agree_witness :
  ∃ plain, GetReport O session monday false (world twoTiles twoEntries)
           = Some (ok plain, after (world twoTiles twoEntries) [GET (reportURL "20240101")])
           ∧ [("7", "Betrieb", "01:30"); ("9", "Schule", "02:00")] = List.map shape plain.
Proof.
  destruct (GetReport_modes_agree O session monday (world twoTiles twoEntries)
              [ {| Seq := "7"; Type_ := "Betrieb"; Duration := "01:30";
                   Text := "hello" +:+ String "010" "world" |};
                {| Seq := "9"; Type_ := "Schule"; Duration := "02:00"; Text := "a b+c" |} ]
              _ eq_refl) as (plain & H1 & H2 & _).
  exists plain. split; [exact H1|exact H2].
Defined.

(** ** More properties of the service *)

(** X10: a [Login] of the service that succeeds puts the new session in
    the registry under the identifier its answer names, the one just
    drawn: where that identifier was no handle yet the registry grows by
    this one handle, and where it was one already (an identifier drawn a
    second time) the session under it is replaced.  Every other handle
    and the default handle stay as they were.  The cookie store of the
    new session is newly made: it is none of the stores there were
    before the call, so no registered session whose store was there
    shares it.  A [Login] that fails leaves the registry as it was, and
    without a user name or a password among the arguments nothing is
    sent at all. *)
Theorem service_Login_registers hops svc (args : azubiheftserver.Args) w r svc' w' :
  azubiheftserver.Login hops svc args w = Some ((r, svc'), w') →
  match r with
  | ok msg =>
      ∃ id session,
        msg = "Login successful. Session ID: " +:+ id
        ∧ id = uuids w' (Nat.pred (drawn w'))
        ∧ azubiheftserver.sessions svc' = <[id := session]> (azubiheftserver.sessions svc)
        ∧ (∀ h, h ≠ id → azubiheftserver.sessions svc' !! h = azubiheftserver.sessions svc !! h)
        ∧ (azubiheftserver.sessions svc !! id = None →
           dom (azubiheftserver.sessions svc') = {[ id ]} ∪ dom (azubiheftserver.sessions svc)
           ∧ size (azubiheftserver.sessions svc') = S (size (azubiheftserver.sessions svc)))
        ∧ (is_Some (azubiheftserver.sessions svc !! id) →
           dom (azubiheftserver.sessions svc') = dom (azubiheftserver.sessions svc))
        ∧ azubiheftserver.defaultSessionID svc' = azubiheftserver.defaultSessionID svc
        ∧ (Jar (client session) ∉ dom (jars w))
        ∧ (∀ h other, azubiheftserver.sessions svc !! h = Some other →
                      Jar (client other) ∈ dom (jars w) →
                      Jar (client other) ≠ Jar (client session))
  | fail _ =>
      svc' = svc
      ∧ (azubiheftserver.asString args "username" = None
         ∨ azubiheftserver.asString args "password" = None → w' = w)
  end.
Proof.
  unfold azubiheftserver.Login.
  destruct (azubiheftserver.asString args "username") as [username|];
    [|intros [= <- <- <-]; auto].
  destruct (azubiheftserver.asString args "password") as [password|];
    [|intros [= <- <- <-]; auto].
  unfold mbind, M_bind, mret, M_ret. unfold NewSession at 1, cookiejar_New.
  unfold mbind, M_bind, mret, M_ret.
  destruct (Login hops _ username password _) as [[[err|] w1]|]; [| |discriminate].
  - intros [= <- <- <-]. split; [reflexivity|]. intros [?|?]; discriminate.
  - unfold uuid_New. intros [= <- <- <-].
    eexists _, _. split; [reflexivity|]. split; [reflexivity|]. split; [reflexivity|].
    cbn [azubiheftserver.sessions azubiheftserver.defaultSessionID client Jar].
    split; [intros h Hne; now apply lookup_insert_ne|].
    split; [intros Hnew; split; [apply dom_insert_L|now apply map_size_insert_None]|].
    split; [intros Hold; now apply dom_insert_lookup_L|].
    split; [reflexivity|].
    split; [apply is_fresh|].
    intros h other _ Hin Heq. rewrite Heq in Hin. exact (is_fresh _ Hin).
Qed.

Lemma service_Login_registers_witness :
  ∃ svc0 w0 svc1 w1,
    azubiheftserver.NewAzubiheftService O "azubi" "secret" loggedInWorld = Some (svc0, w0)
    ∧ azubiheftserver.Login O svc0
        {[ "username" := azubiheftserver.VString "azubi";
           "password" := azubiheftserver.VString "secret" ]} w0
      = Some ((ok "Login successful. Session ID: uuid-0", svc1), w1)
    ∧ size (azubiheftserver.sessions svc1) = 2%nat.
Proof.
  eexists _, _, _, _. split; [vm_compute; reflexivity|].
  match goal with
  | |- ?L = ?R ∧ _ => assert (HL : L = R) by (vm_compute; reflexivity)
  end.
  split; [exact HL|].
  pose proof (service_Login_registers _ _ _ _ _ _ _ HL) as (id & s1 & Hmsg & _ & _ & _ & Hnew & _).
  change "Login successful. Session ID: uuid-0"
    with ("Login successful. Session ID: " +:+ "uuid-0") in Hmsg.
  apply String.app_inj in Hmsg. subst id.
  match type of Hnew with
  | ?P → _ => assert (Hnone : P) by (vm_compute; reflexivity)
  end.
  destruct (Hnew Hnone) as [_ Hsize]. rewrite Hsize. vm_compute. reflexivity.
Defined.

(** X11: a [Logout] of the service that succeeds logged the session of
    the handle out at the remote application and removed the entry under
    the handle as given: a handle that was not empty is unknown
    afterwards, while the empty handle, which stands for the default
    session, leaves that session registered.  A [Logout] that fails
    leaves the registry as it was. *)
Theorem service_Logout_removes hops svc (args : azubiheftserver.Args) w r svc' w' :
  azubiheftserver.Logout hops svc args w = Some ((r, svc'), w') →
  match r with
  | ok msg =>
      msg = "Logout successful"
      ∧ ∃ h session,
          azubiheftserver.asString args "session_id" = Some h
          ∧ azubiheftserver.getSession svc h = ok session
          ∧ Logout hops session w = Some (None, w')
          ∧ azubiheftserver.sessions svc' = delete h (azubiheftserver.sessions svc)
          ∧ azubiheftserver.defaultSessionID svc' = azubiheftserver.defaultSessionID svc
          ∧ (h ≠ "" ∨ azubiheftserver.defaultSessionID svc = ""
             → ∃ e, azubiheftserver.getSession svc' h = fail e)
          ∧ (h = "" → azubiheftserver.defaultSessionID svc ≠ ""
             → azubiheftserver.getSession svc' h = ok session)
  | fail _ => svc' = svc
  end.
Proof.
  unfold azubiheftserver.Logout.
  destruct (azubiheftserver.asString args "session_id") as [h|]; [|intros [= <- <- <-]; auto].
  destruct (azubiheftserver.getSession svc h) as [session|e] eqn:Hget;
    [|intros [= <- <- <-]; auto].
  unfold mbind, M_bind, mret, M_ret.
  destruct (Logout hops session w) as [[[err|] w1]|] eqn:Hout; [| |discriminate];
    intros [= <- <- <-]; [reflexivity|].
  split; [reflexivity|]. exists h, session.
  repeat (split; [first [reflexivity | assumption]|]).
  unfold azubiheftserver.getSession in *.
  cbn [azubiheftserver.sessions azubiheftserver.defaultSessionID]. split.
  - intros Hcase.
    assert (((h =? "") && negb (azubiheftserver.defaultSessionID svc =? ""))%string = false)
      as ->.
    { destruct Hcase as [Hne| ->]; [apply String.eqb_neq in Hne; now rewrite Hne|].
      apply andb_false_r. }
    rewrite lookup_delete_eq. destruct (negb _); eauto.
  - intros -> Hd. pose proof Hd as Hd'. apply String.eqb_neq in Hd'. rewrite Hd' in *.
    cbn [String.eqb andb negb] in *.
    rewrite lookup_delete_ne; [exact Hget|]. congruence.
Qed.

Lemma service_Logout_removes_witness :
  ∃ w', azubiheftserver.Logout O fixture.service {[ "session_id" := azubiheftserver.VString "" ]}
          loggedInWorld
        = Some ((ok "Logout successful", fixture.service), w')
        ∧ azubiheftserver.getSession fixture.service "" = ok session.
Proof.
  eexists.
  match goal with
  | |- ?L = ?R ∧ _ => assert (HL : L = R) by (vm_compute; reflexivity)
  end.
  split; [exact HL|].
  destruct (service_Logout_removes _ _ _ _ _ _ _ HL) as (_ & h & s' & Hh & Hs & _ & _ & _ & _ & Hkept).
  assert (h = "") as -> by (vm_compute in Hh; congruence).
  rewrite Hkept, <- Hs; [reflexivity..|]. vm_compute. discriminate.
Defined.

(** X12: a tool call under a handle the registry does not resolve sends
    nothing: each of the nine operations that take a handle returns an
    error and leaves the wire, the stores and the registry as they
    were. *)
Theorem service_unknown_handle_sends_nothing hops svc (args : azubiheftserver.Args) w e :
  azubiheftserver.getSession svc (default "" (azubiheftserver.asString args "session_id"))
    = fail e →
  Forall (fun handler => ∃ e', handler hops svc args w = Some (fail e', w))
    [ azubiheftserver.IsLoggedIn; azubiheftserver.GetSubjects; azubiheftserver.AddSubject;
      azubiheftserver.DeleteSubject; azubiheftserver.GetReport; azubiheftserver.WriteReport;
      azubiheftserver.DeleteReport; azubiheftserver.GetWeekID ]
  ∧ ∃ e', azubiheftserver.Logout hops svc args w = Some ((fail e', svc), w).
Proof.
  intros Hget.
  split; [repeat constructor|];
    unfold azubiheftserver.IsLoggedIn, azubiheftserver.GetSubjects, azubiheftserver.AddSubject,
      azubiheftserver.DeleteSubject, azubiheftserver.GetReport, azubiheftserver.WriteReport,
      azubiheftserver.DeleteReport, azubiheftserver.GetWeekID, azubiheftserver.Logout;
    destruct (azubiheftserver.asString args "session_id") as [h|];
    unfold from_option, id in Hget |- *;
    repeat match goal with
           | |- context [azubiheftserver.getSession svc _] => rewrite Hget
           | |- context [match ?x with _ => _ end] => destruct x
           end; eauto.
Qed.

Lemma service_unknown_handle_sends_nothing_witness :
  ∃ e', azubiheftserver.WriteReport O fixture.service
          (<["session_id" := azubiheftserver.VString "0000"]> writeArgs) unreachable
        = Some (fail e', unreachable).
Proof.
  destruct (service_unknown_handle_sends_nothing O fixture.service
              (<["session_id" := azubiheftserver.VString "0000"]> writeArgs) unreachable
              (errorString
                 "invalid session ID (hint: use 'default' or omit session_id to use auto-login session)"))
    as [H _]; [vm_compute; reflexivity|].
  apply Forall_cons_1 in H as [_ H]. apply Forall_cons_1 in H as [_ H].
  apply Forall_cons_1 in H as [_ H]. apply Forall_cons_1 in H as [_ H].
  apply Forall_cons_1 in H as [_ H]. apply Forall_cons_1 in H as [H _]. exact H.
Defined.

(** X13: a date that is not of the form YYYY-MM-DD is refused before the
    handle is looked at and before the later arguments are: whatever the
    registry and the other arguments, the four operations that take a
    date return the error of the date and send nothing. *)
Theorem service_date_checked_first hops svc (args : azubiheftserver.Args) w h dateStr :
  args !! "session_id" = Some (azubiheftserver.VString h) →
  args !! "date" = Some (azubiheftserver.VString dateStr) →
  time.Parse_2006_01_02 dateStr = None →
  Forall (fun handler =>
            handler hops svc args w = Some (fail (azubiheftserver.invalidDate dateStr), w))
    [ azubiheftserver.GetReport; azubiheftserver.WriteReport;
      azubiheftserver.DeleteReport; azubiheftserver.GetWeekID ].
Proof.
  intros Hh Hd Hp.
  repeat constructor;
    unfold azubiheftserver.GetReport, azubiheftserver.WriteReport,
      azubiheftserver.DeleteReport, azubiheftserver.GetWeekID, azubiheftserver.asString;
    rewrite Hh, Hd, Hp; reflexivity.
Qed.

Lemma service_date_checked_first_witness :
  azubiheftserver.DeleteReport O fixture.service
    {[ "session_id" := azubiheftserver.VString "0000";
       "date" := azubiheftserver.VString "01.01.2024" ]} unreachable
  = Some (fail (azubiheftserver.invalidDate "01.01.2024"), unreachable).
Proof.
  assert (H := service_date_checked_first O fixture.service
            {[ "session_id" := azubiheftserver.VString "0000";
               "date" := azubiheftserver.VString "01.01.2024" ]} unreachable
            "0000" "01.01.2024").
  apply Forall_cons_1 in H as [_ H]; [|vm_compute; reflexivity..].
  apply Forall_cons_1 in H as [_ H]. apply Forall_cons_1 in H as [H _]. exact H.
Defined.

(** X14: the service deletes what [entry_number] names only when it is a
    number: its fraction is dropped, and a value of another kind (a text,
    say) counts as left out, so that every entry of the day is aimed at.
    The deletion requests go out after the report page and the overview
    were read, one per entry aimed at and in order. *)
Theorem service_DeleteReport_targets hops svc (args : azubiheftserver.Args) w
    h session dateStr date reports w1 weekID w2 r w' :
  azubiheftserver.asString args "session_id" = Some h →
  azubiheftserver.getSession svc h = ok session →
  azubiheftserver.asString args "date" = Some dateStr →
  time.Parse_2006_01_02 dateStr = Some date →
  GetReport hops session date false w = Some (ok reports, w1) →
  reports ≠ [] →
  GetReportWeekID hops session date w1 = Some (ok weekID, w2) →
  azubiheftserver.DeleteReport hops svc args w = Some (r, w') →
  let entryNumber :=
    match args !! "entry_number" with
    | Some (azubiheftserver.VNumber f) => Some (Z.quot (Qnum f) (Z.pos (Qden f)))
    | _ => None
    end in
  ∃ extra done,
    sent w' = sent w ++ extra
    ∧ calls extra
      = reportCall date :: overviewCall :: List.map (deleteCall date weekID (clock w)) done
    ∧ done `prefix_of` targets reports entryNumber
    ∧ (∀ msg, r = ok msg →
       done = targets reports entryNumber
       ∧ msg = "Report(s) for " +:+ dateStr +:+ " deleted successfully").
Proof.
  intros Hh Hs Hd Hp HG Hne HW. unfold azubiheftserver.DeleteReport.
  rewrite Hh, Hd, Hp, Hs. unfold mbind, M_bind, mret, M_ret.
  destruct (DeleteReport hops session date _ w) as [[err w3]|] eqn:HD; [|discriminate].
  intros Hr.
  match goal with |- context [targets reports ?n] => set (entryNumber := n) end.
  assert (azubiheftserver.int <$> azubiheftserver.asFloat64 args "entry_number" = entryNumber)
    as Hn.
  { unfold entryNumber, azubiheftserver.asFloat64.
    destruct (args !! "entry_number") as [[]|]; reflexivity. }
  rewrite Hn in HD.
  destruct (DeleteReport_sent _ _ _ _ _ _ _ _ _ _ _ HG Hne HW HD)
    as (extra & done & Hsent & Hcalls & Hpre & Hall).
  exists extra, done.
  destruct err as [err|]; injection Hr as <- <-;
    (split; [exact Hsent|]; split; [exact Hcalls|]; split; [exact Hpre|]).
  - intros msg [=].
  - intros msg [= <-]. split; [now apply Hall|reflexivity].
Qed.

Lemma service_DeleteReport_targets_witness :
  ∃ w' extra,
    azubiheftserver.DeleteReport O fixture.service
      {[ "session_id" := azubiheftserver.VString "";
         "date" := azubiheftserver.VString "2024-01-01";
         "entry_number" := azubiheftserver.VString "2" ]} (world twoTiles twoEntries)
    = Some (ok "Report(s) for 2024-01-01 deleted successfully", w')
    ∧ sent w' = extra
    ∧ List.map snd (calls extra)
      = [ ""; "";
          "Abt_ID=0&Art_ID=0&Dauer=01%3A30&Inhalt=helloworld&Seq=-7&disablePaste=0&jsVer=12";
          "Abt_ID=0&Art_ID=0&Dauer=02%3A00&Inhalt=a+b%2Bc&Seq=-9&disablePaste=0&jsVer=12" ].
Proof.
  eexists.
  match goal with
  | |- ∃ extra, ?L = ?R ∧ _ => assert (HL : L = R) by (vm_compute; reflexivity)
  end.
  edestruct (service_DeleteReport_targets O fixture.service
               {[ "session_id" := azubiheftserver.VString "";
                  "date" := azubiheftserver.VString "2024-01-01";
                  "entry_number" := azubiheftserver.VString "2" ]} (world twoTiles twoEntries)
               "" session "2024-01-01" monday)
    as (extra & done & Hsent & Hcalls & _ & Hall);
    [ vm_compute; reflexivity | vm_compute; reflexivity | vm_compute; reflexivity
    | vm_compute; reflexivity | vm_compute; reflexivity | vm_compute; discriminate
    | vm_compute; reflexivity | exact HL | ].
  destruct (Hall _ eq_refl) as [-> _].
  exists extra. split; [exact HL|]. split; [exact Hsent|].
  rewrite Hcalls. vm_compute. reflexivity.
Defined.

(** ** Properties of the JSON-RPC server *)

(** X15: the server answers a request with exactly one response, which
    carries the identifier of the request and either a result or an
    error, never both; only a tool call can change the state, and a
    method the server does not know gets the error -32601. *)
Theorem handleRequest_answers_once {State : Type} (s : mcp.Server State) req st out st' :
  mcp.handleRequest s req st = Some (out, st') →
  ∃ resp,
    out = [resp]
    ∧ mcp.Version resp = "2.0"
    ∧ mcp.ResponseID resp = mcp.ID req
    ∧ (mcp.ResponseResult resp = None ↔ mcp.ResponseError resp ≠ None)
    ∧ (mcp.Method req ≠ "tools/call" → st' = st)
    ∧ (mcp.Method req ∉ ["initialize"; "tools/list"; "tools/call"; "ping"] →
       mcp.ResponseError resp
       = Some {| mcp.Code := -32601; mcp.Message := "Method not found";
                 mcp.Data := azubiheftserver.VNil |}).
Proof.
  unfold mcp.handleRequest.
  destruct (String.eqb_spec (mcp.Method req) "initialize") as [Hi|Hi];
    [|destruct (String.eqb_spec (mcp.Method req) "tools/list") as [Hl|Hl];
      [|destruct (String.eqb_spec (mcp.Method req) "tools/call") as [Hc|Hc];
        [|destruct (String.eqb_spec (mcp.Method req) "ping") as [Hp|Hp]]]].
  5: { intros [= <- <-]. eexists. split; [reflexivity|]. cbn.
       repeat split; try congruence; intros; discriminate. }
  3: { unfold mcp.handleToolsCall.
       intros H.
       assert (∃ resp, out = [resp] ∧ mcp.Version resp = "2.0"
                       ∧ mcp.ResponseID resp = mcp.ID req
                       ∧ (mcp.ResponseResult resp = None ↔ mcp.ResponseError resp ≠ None))
         as (resp & -> & Hv & Hid & Hre).
       { destruct (azubiheftserver.asString (mcp.Params req) "name") as [toolName|].
         - destruct (mcp.handlers s !! toolName) as [handler|].
           + destruct (handler _ st) as [[[result|err] st1]|]; [| |discriminate];
               injection H as <- <-; eexists; (split; [reflexivity|]); cbn;
               repeat split; try congruence; intros; discriminate.
           + injection H as <- <-. eexists. split; [reflexivity|]. cbn.
             repeat split; try congruence; intros; discriminate.
         - injection H as <- <-. eexists. split; [reflexivity|]. cbn.
           repeat split; try congruence; intros; discriminate. }
       exists resp. repeat (split; [assumption || reflexivity|]).
       split; [congruence|]. intros Hn. exfalso. apply Hn. rewrite Hc.
       repeat first [apply list_elem_of_here | apply list_elem_of_further]. }
  all: intros [= <- <-]; eexists; (split; [reflexivity|]); cbn;
    (split; [reflexivity|]); (split; [reflexivity|]);
    (split; [split; [discriminate|congruence]|]); (split; [reflexivity|]);
    intros Hn; exfalso; apply Hn;
    first [rewrite Hi | rewrite Hl | rewrite Hp];
    repeat first [apply list_elem_of_here | apply list_elem_of_further].
Qed.

Lemma handleRequest_answers_once_witness :
  ∃ resp,
    mcp.handleRequest (server O) (request 9 "resources/list" []) (emptyService, unreachable)
    = Some ([resp], (emptyService, unreachable))
    ∧ mcp.ResponseID resp = azubiheftserver.VNumber 9%Q
    ∧ (mcp.Code <$> mcp.ResponseError resp) = Some (-32601).
Proof.
  destruct (handleRequest_answers_once (server O) (request 9 "resources/list" [])
              (emptyService, unreachable)
              (mcp.sendError (azubiheftserver.VNumber 9%Q) (-32601) "Method not found"
                 azubiheftserver.VNil)
              (emptyService, unreachable) eq_refl)
    as (resp & Hout & _ & Hid & _ & _ & Herr).
  exists resp. injection Hout as <-. split; [reflexivity|]. split; [exact Hid|].
  reflexivity.
Defined.

Lemma built_tools_handlers {State : Type} (s : mcp.Server State) :
  built s →
  dom (mcp.tools s) = dom (mcp.handlers s)
  ∧ ∀ n tool, mcp.tools s !! n = Some tool → mcp.Name tool = n.
Proof.
  induction 1 as [|s toolName description inputSchema handler _ [IHd IHn]].
  - split; [unfold mcp.NewServer; cbn; now rewrite !dom_empty_L|].
    intros n tool. unfold mcp.NewServer. cbn. rewrite lookup_empty. discriminate.
  - unfold mcp.RegisterTool. cbn. split; [now rewrite !dom_insert_L, IHd|].
    intros n tool. destruct (decide (toolName = n)) as [->|Hne].
    + rewrite lookup_insert_eq. now intros [= <-].
    + rewrite lookup_insert_ne by exact Hne. apply IHn.
Qed.

(** X16: on a server built by registering tools, the tools that
    [tools/list] names are the tools that [tools/call] finds: each name
    is listed once, and a call gets the error [Tool not found] exactly
    for a name that is not listed. *)
Theorem built_lists_what_it_calls {State : Type} (s : mcp.Server State) req :
  built s →
  ∃ listed,
    mcp.handleToolsList s req = mcp.sendResult (mcp.ID req) (mcp.OfToolsList listed)
    ∧ NoDup (List.map mcp.Name listed)
    ∧ ∀ call toolName st,
        callsTool call toolName →
        toolName ∈ List.map mcp.Name listed
        ↔ mcp.handleRequest s call st
          ≠ Some (mcp.sendError (mcp.ID call) (-32601) ("Tool not found: " +:+ toolName)
                    azubiheftserver.VNil, st).
Proof.
  intros Hb. destruct (built_tools_handlers s Hb) as [Hdom Hname].
  exists (List.map snd (map_to_list (mcp.tools s))). split; [reflexivity|].
  assert (List.map mcp.Name (List.map snd (map_to_list (mcp.tools s)))
          = List.map fst (map_to_list (mcp.tools s))) as ->.
  { rewrite List.map_map. apply List.map_ext_in. intros [n tool] Hin. cbn.
    apply Hname. apply elem_of_map_to_list. now apply list_elem_of_In. }
  split; [apply NoDup_fst_map_to_list|].
  intros call toolName st [Hm Hn].
  assert (toolName ∈ List.map fst (map_to_list (mcp.tools s))
          ↔ is_Some (mcp.handlers s !! toolName)) as ->.
  { rewrite <- elem_of_dom, <- Hdom, elem_of_dom. split.
    - intros Hin. apply list_elem_of_fmap in Hin as ([n tool] & -> & Hin).
      apply elem_of_map_to_list in Hin. now exists tool.
    - intros [tool Hl]. apply list_elem_of_fmap. exists (toolName, tool).
      split; [reflexivity|]. now apply elem_of_map_to_list. }
  unfold mcp.handleRequest, mcp.handleToolsCall. rewrite Hm, Hn. cbn [String.eqb Ascii.eqb Bool.eqb].
  change ("tools/call" =? "initialize")%string with false.
  change ("tools/call" =? "tools/list")%string with false.
  change ("tools/call" =? "tools/call")%string with true. cbv iota.
  destruct (mcp.handlers s !! toolName) as [handler|].
  - split; [|intros _; eauto].
    intros _. destruct (handler _ st) as [[[result|err] st1]|]; discriminate.
  - split; [intros [? [=]]|]. intros H. now contradiction H.
Qed.

Lemma built_lists_what_it_calls_witness :
  built (server O)
  ∧ ∃ listed,
      mcp.handleToolsList (server O) (request 2 "tools/list" [])
      = mcp.sendResult (azubiheftserver.VNumber 2%Q) (mcp.OfToolsList listed)
      ∧ "azubiheft_get_subjects" ∈ List.map mcp.Name listed.
Proof.
  assert (Hb : built (server O)).
  { unfold server, main.registerTools. cbv zeta. repeat apply built_register. apply built_new. }
  split; [exact Hb|].
  destruct (built_lists_what_it_calls (server O) (request 2 "tools/list" []) Hb)
    as (listed & Hl & _ & Hcall).
  exists listed. split; [exact Hl|].
  apply (Hcall (request 3 "tools/call"
                  [("name", azubiheftserver.VString "azubiheft_get_subjects")])
           "azubiheft_get_subjects" (emptyService, unreachable)).
  - split; vm_compute; reflexivity.
  - vm_compute. discriminate.
Defined.

Lemma append_cons (c : ascii) (a b : string) : String c a +:+ b = String c (a +:+ b).
Proof. reflexivity. Qed.

Lemma readLines_app (cur a b : string) :
  mcp.readLines cur (a +:+ LF +:+ b) = mcp.readLines cur (a +:+ LF) ++ mcp.readLines "" b.
Proof.
  revert cur. induction a as [|c a IH]; intros cur.
  - reflexivity.
  - rewrite !append_cons. cbn [mcp.readLines].
    destruct (Ascii.eqb c "010"); [|apply IH].
    rewrite IH. reflexivity.
Qed.

Lemma readLines_oneLine (cur s : string) : oneLine s → mcp.readLines cur s = [].
Proof.
  unfold oneLine. revert cur. induction s as [|c s IH]; intros cur H; [reflexivity|].
  cbn [occurs] in H. apply orb_false_elim in H as [Hc Hs].
  cbn [mcp.readLines]. rewrite Ascii.eqb_sym, Hc. now apply IH.
Qed.

Lemma readLines_length (cur s : string) : List.length (mcp.readLines cur s) = lineFeeds s.
Proof.
  revert cur. induction s as [|c s IH]; intros cur; [reflexivity|].
  cbn [mcp.readLines lineFeeds]. destruct (Ascii.eqb c "010"); cbn [List.length]; now rewrite IH.
Qed.

Lemma handleRequest_single {State : Type} (s : mcp.Server State) req st out st' :
  mcp.handleRequest s req st = Some (out, st') → List.length out = 1%nat.
Proof.
  unfold mcp.handleRequest, mcp.handleToolsCall.
  repeat match goal with
         | |- context [if ?b then _ else _] => destruct b
         | |- context [match ?x with _ => _ end] => destruct x
         end; intros [= <- <-]; reflexivity.
Qed.

Lemma serveLines_app {State : Type} (U : string → option mcp.JSONRPCRequest)
    (s : mcp.Server State) (l1 l2 : list string) st :
  mcp.serveLines U s (l1 ++ l2) st
  = match mcp.serveLines U s l1 st with
    | None => None
    | Some (out1, st1) =>
        match mcp.serveLines U s l2 st1 with
        | None => None
        | Some (out2, st2) => Some (out1 ++ out2, st2)
        end
    end.
Proof.
  revert st. induction l1 as [|line l1 IH]; intros st.
  - cbn. destruct (mcp.serveLines U s l2 st) as [[out2 st2]|]; reflexivity.
  - cbn [app mcp.serveLines].
    destruct (match U line with Some req => _ | None => _ end) as [[out st1]|]; [|reflexivity].
    rewrite IH. destruct (mcp.serveLines U s l1 st1) as [[out1 st1']|]; [|reflexivity].
    destruct (mcp.serveLines U s l2 st1') as [[out2 st2]|]; [|reflexivity].
    now rewrite app_assoc.
Qed.

Lemma serveLines_length {State : Type} (U : string → option mcp.JSONRPCRequest)
    (s : mcp.Server State) (lines : list string) st out st' :
  mcp.serveLines U s lines st = Some (out, st') → List.length out = List.length lines.
Proof.
  revert st out. induction lines as [|line lines IH]; intros st out.
  - now intros [= <- <-].
  - cbn [mcp.serveLines].
    destruct (match U line with Some req => _ | None => _ end) as [[out1 st1]|] eqn:Hstep;
      [|discriminate].
    destruct (mcp.serveLines U s lines st1) as [[out2 st2]|] eqn:Hrest; [|discriminate].
    intros [= <- <-]. rewrite length_app, (IH _ _ Hrest). cbn [List.length].
    destruct (U line) as [req|].
    + now rewrite (handleRequest_single _ _ _ _ _ Hstep).
    + now injection Hstep as <- <-.
Qed.

(** X17: the server writes one response for each line of its input that
    ends in a line feed, whatever the line holds; a line that is no
    request gets the error -32700 without an identifier, and the server
    goes on with the next line in the state it had. *)
Theorem Serve_one_response_per_line {State : Type} (U : string → option mcp.JSONRPCRequest)
    (s : mcp.Server State) (input : string) st :
  (∀ out st', mcp.Serve U s input st = Some (out, st') → List.length out = lineFeeds input)
  ∧ ((∀ line, line ∈ mcp.readLines "" input → U line = None) →
     mcp.Serve U s input st
     = Some (replicate (lineFeeds input)
               {| mcp.Version := "2.0"; mcp.ResponseID := azubiheftserver.VNil;
                  mcp.ResponseResult := None;
                  mcp.ResponseError :=
                    Some {| mcp.Code := -32700; mcp.Message := "Parse error";
                            mcp.Data := azubiheftserver.VNil |} |}, st)).
Proof.
  unfold mcp.Serve. split.
  - intros out st' H. rewrite <- (readLines_length "" input).
    exact (serveLines_length _ _ _ _ _ _ H).
  - rewrite <- (readLines_length "" input).
    induction (mcp.readLines "" input) as [|line lines IH]; intros Hno; [reflexivity|].
    cbn [mcp.serveLines]. rewrite (Hno line) by apply list_elem_of_here.
    rewrite IH; [reflexivity|]. intros l Hl. apply Hno. now apply list_elem_of_further.
Qed.

Lemma Serve_one_response_per_line_witness :
  mcp.Serve decode (server O) ("{" +:+ LF +:+ "}" +:+ LF +:+ "ping") (emptyService, unreachable)
  = Some (replicate 2
            {| mcp.Version := "2.0"; mcp.ResponseID := azubiheftserver.VNil;
               mcp.ResponseResult := None;
               mcp.ResponseError :=
                 Some {| mcp.Code := -32700; mcp.Message := "Parse error";
                         mcp.Data := azubiheftserver.VNil |} |},
          (emptyService, unreachable)).
Proof.
  apply (proj2 (Serve_one_response_per_line decode (server O)
                  ("{" +:+ LF +:+ "}" +:+ LF +:+ "ping") (emptyService, unreachable))).
  intros line Hin. vm_compute in Hin.
  apply elem_of_cons in Hin as [->|Hin]; [reflexivity|].
  apply elem_of_cons in Hin as [->|Hin]; [reflexivity|].
  now apply elem_of_nil in Hin.
Defined.

(** X18: serving is line by line: the responses to an input are those to
    its part up to a line feed, followed by those to the rest, served in
    the state the first part left; what stands after the last line feed
    is never served. *)
Theorem Serve_line_by_line {State : Type} (U : string → option mcp.JSONRPCRequest)
    (s : mcp.Server State) (a b : string) st :
  mcp.Serve U s (a +:+ LF +:+ b) st
  = match mcp.Serve U s (a +:+ LF) st with
    | None => None
    | Some (out1, st1) =>
        match mcp.Serve U s b st1 with
        | None => None
        | Some (out2, st2) => Some (out1 ++ out2, st2)
        end
    end
  ∧ (oneLine b →
     mcp.Serve U s b st = Some ([], st)
     ∧ mcp.Serve U s (a +:+ LF +:+ b) st = mcp.Serve U s (a +:+ LF) st).
Proof.
  unfold mcp.Serve. rewrite (readLines_app "" a b), serveLines_app.
  split; [reflexivity|]. intros Hb. rewrite (readLines_oneLine "" b Hb). cbn [mcp.serveLines].
  split; [reflexivity|].
  destruct (mcp.serveLines U s _ st) as [[out1 st1]|]; [|reflexivity].
  now rewrite app_nil_r.
Qed.

Lemma Serve_line_by_line_witness :
  mcp.Serve decode (server O) ("ping" +:+ LF +:+ "list") (emptyService, unreachable)
  = mcp.Serve decode (server O) ("ping" +:+ LF) (emptyService, unreachable).
Proof.
  apply (proj2 (Serve_line_by_line decode (server O) "ping" "list" (emptyService, unreachable))).
  reflexivity.
Defined.

(** ** Properties of the server as [main] sets it up *)

Lemma tools_RegisterTool {State : Type} (s : mcp.Server State) n d i h :
  mcp.tools (mcp.RegisterTool s n d i h)
  = <[n := {| mcp.Name := n; mcp.Description := d; mcp.InputSchema := i |}]> (mcp.tools s).
Proof. reflexivity. Qed.

Lemma handlers_RegisterTool {State : Type} (s : mcp.Server State) n d i h :
  mcp.handlers (mcp.RegisterTool s n d i h) = <[n := h]> (mcp.handlers s).
Proof. reflexivity. Qed.

Ltac registered H :=
  unfold server, main.registerTools in H; cbv zeta in H;
  rewrite ?tools_RegisterTool, ?handlers_RegisterTool in H;
  unfold mcp.NewServer in H; cbn [mcp.tools mcp.handlers] in H.

Ltac registered_goal :=
  unfold server, main.registerTools; cbv zeta;
  rewrite ?tools_RegisterTool, ?handlers_RegisterTool;
  unfold mcp.NewServer; cbn [mcp.tools mcp.handlers];
  rewrite ?lookup_insert_ne by discriminate; apply lookup_insert_eq.

Ltac settle_args :=
  repeat first
    [ match goal with
      | E : ?args !! ?k = _ |- context [?args !! ?k] => rewrite E; cbv beta iota
      end
    | match goal with
      | |- context [match ?args !! ?k with _ => _ end] =>
          destruct (args !! k) as [[]|] eqn:?; cbv beta iota
      | |- context [match time.Parse_2006_01_02 ?d with _ => _ end] =>
          destruct (time.Parse_2006_01_02 d) eqn:?; cbv beta iota
      end ].

(** X19: what a tool schema lists as required is required: for each of
    the ten tools [main] registers, a call that lacks a required
    argument, or carries it with another type than the schema declares,
    fails in the handler before anything is sent, and leaves the
    registry as it was. *)
Theorem schema_required_enforced hops toolName tool handler key
    (args : azubiheftserver.Args) st :
  mcp.tools (server hops) !! toolName = Some tool →
  mcp.handlers (server hops) !! toolName = Some handler →
  key ∈ required (mcp.InputSchema tool) →
  supplied (mcp.InputSchema tool) args key = false →
  ∃ e, handler args st = Some (fail e, st).
Proof.
  intros Ht Hh Hk Hs. destruct st as [svc w]. registered Ht. registered Hh.
  repeat (apply lookup_insert_Some in Ht as [[<- <-]|[_ Ht]]);
    [..|rewrite lookup_empty in Ht; discriminate Ht];
    rewrite ?lookup_insert_ne in Hh by discriminate;
    rewrite lookup_insert_eq in Hh; injection Hh as <-;
    cbn [mcp.InputSchema] in Hk, Hs;
    unfold supplied in Hs;
    vm_compute in Hk;
    repeat (apply elem_of_cons in Hk as [->|Hk]);
    try (now apply elem_of_nil in Hk);
    match type of Hs with
    | match ?d with _ => _ end = _ =>
        let d' := eval vm_compute in d in change d with d' in Hs
    end;
    cbv beta iota in Hs;
    match type of Hs with
    | match ?args !! ?k with _ => _ end = _ =>
        destruct (args !! k) as [[]|] eqn:Ekey; try discriminate Hs;
        unfold main.method, main.methodOnRegistry,
          azubiheftserver.Login, azubiheftserver.Logout, azubiheftserver.IsLoggedIn,
          azubiheftserver.AddSubject, azubiheftserver.DeleteSubject,
          azubiheftserver.GetReport, azubiheftserver.WriteReport,
          azubiheftserver.DeleteReport, azubiheftserver.GetWeekID,
          azubiheftserver.asString, azubiheftserver.asFloat64, mret, M_ret;
        cbn [fst snd];
        settle_args
    end;
    eauto.
Qed.

Lemma schema_required_enforced_witness :
  ∃ e, main.method (azubiheftserver.WriteReport O)
         (<["entry_type" := azubiheftserver.VString "2"]>
            (<["session_id" := azubiheftserver.VString "default"]> writeArgs))
         (fixture.service, unreachable)
       = Some (fail e, (fixture.service, unreachable)).
Proof.
  eapply (schema_required_enforced O "azubiheft_write_report" _ _ "entry_type").
  - registered_goal.
  - registered_goal.
  - cbn [mcp.InputSchema]. vm_compute.
    repeat first [apply list_elem_of_here | apply list_elem_of_further].
  - vm_compute. reflexivity.
Defined.

Lemma rev_app_append (a b c : string) :
  String.rev_app (a +:+ b) c = String.rev_app b (String.rev_app a c).
Proof.
  revert c. induction a as [|x a IH]; intros c; [reflexivity|].
  change (String x a +:+ b) with (String x (a +:+ b)). cbn [String.rev_app]. apply IH.
Qed.

Lemma missing_ends_in_d (msg key : string) :
  errorString msg = missing key → ∃ rest, String.rev_app msg "" = String "d" rest.
Proof.
  unfold missing. intros [= ->]. rewrite rev_app_append. cbn [String.rev_app]. eauto.
Qed.

Lemma method_inv f (args : azubiheftserver.Args) svc w r st' :
  main.method f args (svc, w) = Some (r, st') →
  ∃ w', f svc args w = Some (r, w') ∧ st' = (svc, w').
Proof.
  unfold main.method. cbn [fst snd].
  destruct (f svc args w) as [[r0 w0]|]; [|discriminate]. intros [= <- <-]. eauto.
Qed.

Lemma methodOnRegistry_inv f (args : azubiheftserver.Args) svc w r st' :
  main.methodOnRegistry f args (svc, w) = Some (r, st') →
  ∃ svc' w', f svc args w = Some ((r, svc'), w') ∧ st' = (svc', w').
Proof.
  unfold main.methodOnRegistry. cbn [fst snd].
  destruct (f svc args w) as [[[r0 svc0] w0]|]; [|discriminate]. intros [= <- <-]. eauto.
Qed.

Ltac lacks_required Hall :=
  match goal with
  | E : ?args !! ?k = _ |- _ =>
      let H := fresh in
      assert (H := Hall k); unfold supplied in H; rewrite E in H; vm_compute in H;
      exfalso;
      assert (false = true) as [=]
        by (apply H; repeat first [apply list_elem_of_here | apply list_elem_of_further])
  end.

Lemma getSession_error svc h err :
  azubiheftserver.getSession svc h = fail err → ∀ key, err ≠ missing key.
Proof.
  unfold azubiheftserver.getSession.
  destruct (azubiheftserver.sessions svc !! _); [discriminate|].
  destruct (negb _); intros [= <-] key H;
    apply missing_ends_in_d in H as [? H]; vm_compute in H; discriminate H.
Qed.

Ltac run_handler Hrun Hall :=
  unfold azubiheftserver.Login, azubiheftserver.Logout, azubiheftserver.IsLoggedIn,
    azubiheftserver.GetSubjects, azubiheftserver.AddSubject, azubiheftserver.DeleteSubject,
    azubiheftserver.GetReport, azubiheftserver.WriteReport,
    azubiheftserver.DeleteReport, azubiheftserver.GetWeekID,
    azubiheftserver.asString, azubiheftserver.asFloat64, azubiheftserver.asBool,
    mbind, M_bind, mret, M_ret in Hrun;
  repeat match type of Hrun with
         | context [match ?args !! ?k with _ => _ end] =>
             destruct (args !! k) as [[]|] eqn:?; cbv beta iota in Hrun;
             try (lacks_required Hall)
         | context [match ?x with _ => _ end] =>
             destruct x eqn:?; cbv beta iota in Hrun; try discriminate Hrun
         end.

(** X20: and nothing else is required: when every argument the schema
    of a tool lists as required is supplied, the handler of the tool
    never answers that an argument is required, whatever the other
    arguments, the registry and the remote application. *)
Theorem schema_required_suffices hops toolName tool handler
    (args : azubiheftserver.Args) st r st' key :
  mcp.tools (server hops) !! toolName = Some tool →
  mcp.handlers (server hops) !! toolName = Some handler →
  (∀ k, k ∈ required (mcp.InputSchema tool) → supplied (mcp.InputSchema tool) args k = true) →
  handler args st = Some (r, st') →
  r ≠ fail (missing key).
Proof.
  intros Ht Hh Hall Hrun. destruct st as [svc w]. registered Ht. registered Hh.
  repeat (apply lookup_insert_Some in Ht as [[<- <-]|[_ Ht]]);
    [..|rewrite lookup_empty in Ht; discriminate Ht];
    rewrite ?lookup_insert_ne in Hh by discriminate;
    rewrite lookup_insert_eq in Hh; injection Hh as <-;
    cbn [mcp.InputSchema] in Hall;
    first [ apply method_inv in Hrun as (w' & Hrun & _)
          | apply methodOnRegistry_inv in Hrun as (svc' & w' & Hrun & _) ];
    run_handler Hrun Hall;
    injection Hrun as <-; intros; subst;
    first [ match goal with
            | E : azubiheftserver.getSession _ _ = fail _ |- _ =>
                intros [= ?]; eapply (getSession_error _ _ _ E); eassumption
            end
          | let H := fresh in
            intros H;
            first [ discriminate H
                  | apply (f_equal (fun x => match x with
                                             | fail e => e
                                             | ok _ => errorString ""
                                             end)) in H;
                    first [ discriminate H
                          | apply missing_ends_in_d in H as [? H];
                            vm_compute in H; discriminate H ] ] ].
Qed.

Lemma schema_required_suffices_witness :
  ∃ r, main.method (azubiheftserver.GetWeekID O)
         {[ "session_id" := azubiheftserver.VString "default";
            "date" := azubiheftserver.VString "2024-01-01" ]} (fixture.service, unreachable)
       = Some (r, (fixture.service, after unreachable [GET overviewURL]))
       ∧ r ≠ fail (missing "date").
Proof.
  eexists. split; [vm_compute; reflexivity|].
  eapply (schema_required_suffices O "azubiheft_get_week_id" _ _
            {[ "session_id" := azubiheftserver.VString "default";
               "date" := azubiheftserver.VString "2024-01-01" ]} (fixture.service, unreachable)).
  - registered_goal.
  - registered_goal.
  - cbn [mcp.InputSchema]. intros k Hk. vm_compute in Hk.
    apply elem_of_cons in Hk as [->|Hk]; [vm_compute; reflexivity|].
    apply elem_of_cons in Hk as [->|Hk]; [vm_compute; reflexivity|].
    now apply elem_of_nil in Hk.
  - vm_compute. reflexivity.
Defined.

Lemma NewAzubiheftService_no_credentials hops username password w :
  username = "" ∨ password = "" →
  azubiheftserver.NewAzubiheftService hops username password w = Some (emptyService, w).
Proof.
  unfold azubiheftserver.NewAzubiheftService.
  intros [-> | ->]; [reflexivity|]. now rewrite andb_false_r.
Qed.

(** X21: the service starts with the session of the credentials it is
    given, under the handle [default], which the empty handle stands
    for, when the login with them succeeds; it starts without a session
    when that login fails, and without a request when one of the
    credentials is empty. *)
Theorem NewAzubiheftService_default hops username password w svc w' :
  azubiheftserver.NewAzubiheftService hops username password w = Some (svc, w') →
  (username = "" ∨ password = "" → svc = emptyService ∧ w' = w)
  ∧ (username ≠ "" → password ≠ "" →
     ∃ session w1 err,
       NewSession w = Some (session, w1)
       ∧ Login hops session username password w1 = Some (err, w')
       ∧ match err with
         | Some _ => svc = emptyService
         | None =>
             azubiheftserver.sessions svc = {[ "default" := session ]}
             ∧ azubiheftserver.getSession svc "" = ok session
             ∧ azubiheftserver.getSession svc "default" = ok session
         end).
Proof.
  intros H. split.
  - intros Hc. rewrite (NewAzubiheftService_no_credentials _ _ _ _ Hc) in H.
    now injection H as <- <-.
  - intros Hu Hp. unfold azubiheftserver.NewAzubiheftService in H.
    apply String.eqb_neq in Hu, Hp. rewrite Hu, Hp in H. cbn [negb andb] in H.
    unfold mbind, M_bind, mret, M_ret in H.
    destruct (NewSession w) as [[session w1]|] eqn:Hnew; [|discriminate].
    destruct (Login hops session username password w1) as [[err w2]|] eqn:Hlogin;
      [|discriminate].
    exists session, w1, err. split; [reflexivity|].
    destruct err as [err|]; injection H as <- <-; (split; [exact Hlogin|]); [reflexivity|].
    split; [reflexivity|]. split; reflexivity.
Qed.

Lemma NewAzubiheftService_default_witness :
  ∃ svc w',
    azubiheftserver.NewAzubiheftService O "azubi" "secret" loggedInWorld = Some (svc, w')
    ∧ azubiheftserver.getSession svc "" = ok session.
Proof.
  eexists _, _.
  match goal with
  | |- ?L = ?R ∧ _ => assert (HL : L = R) by (vm_compute; reflexivity)
  end.
  split; [exact HL|].
  destruct (proj2 (NewAzubiheftService_default _ _ _ _ _ _ HL))
    as (s' & w1 & err & Hnew & Hlogin & Hcase); [discriminate..|].
  vm_compute. reflexivity.
Defined.

Lemma getSession_empty h :
  azubiheftserver.getSession emptyService h = fail (errorString "invalid session ID").
Proof.
  unfold azubiheftserver.getSession, emptyService.
  cbn [azubiheftserver.sessions azubiheftserver.defaultSessionID].
  rewrite andb_false_r. now rewrite lookup_empty.
Qed.

Lemma handlers_without_session hops n handler (args : azubiheftserver.Args) w r st' :
  mcp.handlers (server hops) !! n = Some handler →
  n ≠ "azubiheft_login" →
  handler args (emptyService, w) = Some (r, st') →
  (∃ e, r = fail e) ∧ st' = (emptyService, w).
Proof.
  intros Hh Hn Hrun. registered Hh.
  repeat (apply lookup_insert_Some in Hh as [[<- <-]|[_ Hh]]);
    [..|rewrite lookup_empty in Hh; discriminate Hh];
    try (now contradiction Hn);
    first [ apply method_inv in Hrun as (w' & Hrun & ->)
          | apply methodOnRegistry_inv in Hrun as (svc' & w' & Hrun & ->) ];
    unfold azubiheftserver.Logout, azubiheftserver.IsLoggedIn,
      azubiheftserver.GetSubjects, azubiheftserver.AddSubject, azubiheftserver.DeleteSubject,
      azubiheftserver.GetReport, azubiheftserver.WriteReport,
      azubiheftserver.DeleteReport, azubiheftserver.GetWeekID,
      mret, M_ret in Hrun;
    repeat match type of Hrun with
           | context [azubiheftserver.getSession emptyService ?h] =>
               rewrite (getSession_empty h) in Hrun; cbv beta iota in Hrun
           | context [match ?x with _ => _ end] => destruct x; cbv beta iota in Hrun
           end;
    injection Hrun as <-; intros; subst; eauto.
Qed.

Lemma serveLines_invariant {State : Type} (U : string → option mcp.JSONRPCRequest)
    (s : mcp.Server State) (P : State → Prop) (Q : mcp.JSONRPCResponse → Prop)
    (lines : list string) :
  (∀ id code message data, Q {| mcp.Version := "2.0"; mcp.ResponseID := id;
                                mcp.ResponseResult := None;
                                mcp.ResponseError :=
                                  Some {| mcp.Code := code; mcp.Message := message;
                                          mcp.Data := data |} |}) →
  (∀ line req st out st',
     line ∈ lines → U line = Some req → P st →
     mcp.handleRequest s req st = Some (out, st') → P st' ∧ Forall Q out) →
  ∀ st out st', P st → mcp.serveLines U s lines st = Some (out, st') → P st' ∧ Forall Q out.
Proof.
  intros Herr. induction lines as [|line lines IH]; intros Hstep st out st' HP.
  - intros [= <- <-]. auto.
  - cbn [mcp.serveLines].
    destruct (match U line with Some req => _ | None => _ end) as [[out1 st1]|] eqn:H1;
      [|discriminate].
    destruct (mcp.serveLines U s lines st1) as [[out2 st2]|] eqn:H2; [|discriminate].
    intros [= <- <-].
    assert (P st1 ∧ Forall Q out1) as [HP1 HQ1].
    { destruct (U line) as [req|] eqn:HU.
      - apply (Hstep line req st); auto. apply list_elem_of_here.
      - injection H1 as <- <-. split; [exact HP|]. repeat constructor. apply Herr. }
    destruct (IH (fun l req st0 o s0 Hin =>
                    Hstep l req st0 o s0 (list_elem_of_further _ _ _ Hin))
                st1 out2 st2 HP1 H2) as [HP2 HQ2].
    split; [exact HP2|]. now apply Forall_app.
Qed.

(** X22: until someone logs in, the server contacts nobody: started
    without credentials, and given any input in which no line calls the
    tool [azubiheft_login], it sends no request and registers no
    session, and every tool call in the input is answered with an
    error. *)
Theorem main_without_session_sends_nothing hops (U : string → option mcp.JSONRPCRequest)
    username password stdin w out svc w' :
  username = "" ∨ password = "" →
  (∀ line req, line ∈ mcp.readLines "" stdin → U line = Some req →
               ¬ callsTool req "azubiheft_login") →
  main.main hops U username password stdin w = Some ((out, svc), w') →
  w' = w ∧ svc = emptyService
  ∧ List.length out = lineFeeds stdin
  ∧ ∀ resp r, resp ∈ out → mcp.ResponseResult resp = Some (mcp.OfToolsCall r) →
              mcp.IsError r = true.
Proof.
  intros Hc Hno. unfold main.main.
  rewrite (NewAzubiheftService_no_credentials _ _ _ _ Hc).
  fold (server hops). unfold mcp.Serve.
  destruct (mcp.serveLines U (server hops) _ (emptyService, w)) as [[out1 [svc1 w1]]|] eqn:Hs;
    [|discriminate].
  intros [= <- <- <-].
  assert (Hlen := serveLines_length _ _ _ _ _ _ Hs). rewrite readLines_length in Hlen.
  assert (Hstep : ∀ line req st out st',
             line ∈ mcp.readLines "" stdin → U line = Some req → st = (emptyService, w) →
             mcp.handleRequest (server hops) req st = Some (out, st') →
             st' = (emptyService, w)
             ∧ Forall (fun resp => ∀ r, mcp.ResponseResult resp = Some (mcp.OfToolsCall r) →
                                        mcp.IsError r = true) out).
  { intros line req st out st' Hin HU -> Hreq.
    specialize (Hno line req Hin HU). unfold callsTool in Hno.
    unfold mcp.handleRequest in Hreq.
    destruct (String.eqb (mcp.Method req) "initialize");
      [injection Hreq as <- <-; split; [reflexivity|]; repeat constructor; discriminate|].
    destruct (String.eqb (mcp.Method req) "tools/list");
      [injection Hreq as <- <-; split; [reflexivity|]; repeat constructor; discriminate|].
    destruct (String.eqb_spec (mcp.Method req) "tools/call") as [Hm|_].
    + unfold mcp.handleToolsCall in Hreq.
      destruct (azubiheftserver.asString (mcp.Params req) "name") as [toolName|];
        [|injection Hreq as <- <-; split; [reflexivity|]; repeat constructor; discriminate].
      destruct (mcp.handlers (server hops) !! toolName) as [handler|] eqn:Hh;
        [|injection Hreq as <- <-; split; [reflexivity|]; repeat constructor; discriminate].
      destruct (handler _ (emptyService, w)) as [[r st1]|] eqn:Hrun; [|discriminate].
      apply (handlers_without_session _ _ _ _ _ _ _ Hh) in Hrun as [[e ->] ->];
        [|intros ->; now apply Hno].
      injection Hreq as <- <-. split; [reflexivity|]. repeat constructor.
      now intros r [= <-].
    + destruct (String.eqb (mcp.Method req) "ping");
        injection Hreq as <- <-; (split; [reflexivity|]); repeat constructor; discriminate. }
  pose (Q := fun resp => ∀ r, mcp.ResponseResult resp = Some (mcp.OfToolsCall r) →
                              mcp.IsError r = true).
  assert (Herr : ∀ id code message data,
             Q {| mcp.Version := "2.0"; mcp.ResponseID := id; mcp.ResponseResult := None;
                  mcp.ResponseError :=
                    Some {| mcp.Code := code; mcp.Message := message; mcp.Data := data |} |})
    by (intros id code message data r; discriminate).
  destruct (serveLines_invariant U (server hops) (fun st => st = (emptyService, w)) Q
              (mcp.readLines "" stdin) Herr Hstep _ _ _ eq_refl Hs)
    as [[= -> ->] HQ].
  repeat (split; [reflexivity || exact Hlen|]).
    intros resp r Hin. revert r. now apply (proj1 (Forall_forall _ _) HQ).
Qed.

Lemma main_without_session_sends_nothing_witness :
  ∃ out,
    main.main O decode "" "secret" ("subjects" +:+ LF +:+ "week" +:+ LF +:+ "ping" +:+ LF)
      unreachable
    = Some ((out, emptyService), unreachable)
    ∧ List.length out = 3%nat.
Proof.
  eexists.
  match goal with
  | |- ?L = ?R ∧ _ => assert (HL : L = R) by (vm_compute; reflexivity)
  end.
  split; [exact HL|].
  assert (Hno : ∀ line req,
             line ∈ mcp.readLines "" ("subjects" +:+ LF +:+ "week" +:+ LF +:+ "ping" +:+ LF) →
             decode line = Some req → ¬ callsTool req "azubiheft_login").
  { intros line req _ Hd [_ Hn]. unfold decode in Hd.
    repeat match type of Hd with
           | context [if ?b then _ else _] => destruct b
           end;
      try discriminate Hd; injection Hd as <-; vm_compute in Hn; discriminate Hn. }
  destruct (main_without_session_sends_nothing O decode "" "secret" _ unreachable _ _ _
              (or_introl eq_refl) Hno HL) as (_ & _ & Hlen & _).
  exact Hlen.
Defined.

(** X23: a call of a tool reaches the method of the service the tool is
    registered with, for each of the ten tools: the method runs once, on
    the object under [arguments] (on no arguments when there is none),
    and its text or its error is the one response, under the identifier
    of the request; an error of the method is a result flagged as an
    error, not a JSON-RPC error. *)
Theorem tools_call_runs_method hops toolName method req st :
  (toolName, method) ∈ wiring hops →
  callsTool req toolName →
  mcp.handleRequest (server hops) req st
  = match method (argumentsOf req) st with
    | None => None
    | Some (r, st') =>
        Some (mcp.sendResult (mcp.ID req) (mcp.OfToolsCall (toolResult r)), st')
    end.
Proof.
  intros Hin [Hm Hn].
  assert (Hh : mcp.handlers (server hops) !! toolName = Some method).
  { unfold wiring in Hin.
    repeat (apply elem_of_cons in Hin as [[= -> ->]|Hin]; [registered_goal|]).
    now apply elem_of_nil in Hin. }
  unfold mcp.handleRequest, mcp.handleToolsCall. rewrite Hm, Hn, Hh.
  change ("tools/call" =? "initialize")%string with false.
  change ("tools/call" =? "tools/list")%string with false.
  change ("tools/call" =? "tools/call")%string with true. cbv iota.
  fold (argumentsOf req).
  destruct (method (argumentsOf req) st) as [[[text|err] st']|]; reflexivity.
Qed.

Lemma tools_call_runs_method_witness :
  ∃ w',
    mcp.handleRequest (server O)
      (request 4 "tools/call"
         [("name", azubiheftserver.VString "azubiheft_get_week_id");
          ("arguments",
           azubiheftserver.VObject
             [("session_id", azubiheftserver.VString "default");
              ("date", azubiheftserver.VString "2024-01-01")])])
      (fixture.service, world twoTiles twoEntries)
    = Some (mcp.sendResult (azubiheftserver.VNumber 4%Q)
              (mcp.OfToolsCall
                 {| mcp.Content := [ {| mcp.Type_ := "text";
                                        mcp.Text := "Week ID for 2024-01-01: 222" |} ];
                    mcp.IsError := false |}),
            (fixture.service, w')).
Proof.
  eexists.
  rewrite (tools_call_runs_method O "azubiheft_get_week_id"
             (main.method (azubiheftserver.GetWeekID O))).
  - vm_compute. reflexivity.
  - unfold wiring. repeat first [apply list_elem_of_here | apply list_elem_of_further].
  - split; vm_compute; reflexivity.
Defined.
